(** * Expense tracker: a shallow embedding of [expense_tracker.py] and
      [database_reset.py], and the properties of its storage operations.

    The SQLite database file is a record of four tables (lists of rows) with
    the [sqlite_sequence] counters of their AUTOINCREMENT keys.  Every query
    function of the program becomes a function on that record; the clock the
    program reads ([datetime.now()], [CURRENT_TIMESTAMP]) is an argument.

    [REAL] values and the totals shown are modelled by exact rationals
    ([Q]).  The percentage column, which pandas computes by dividing,
    multiplying and rounding float64 columns, is computed in IEEE 754
    binary64 as the Standard Library specifies it ([SpecFloat]): each
    amount is the float64 nearest to its value, and the amounts are added
    in float64 as SQLite's SUM adds them. *)

From Stdlib Require Import ZArith QArith Qround List String Ascii Bool Lia Lqa.
From Stdlib Require Import Permutation Sorting.Sorted.
From Stdlib Require Import SpecFloat.
Import ListNotations.

Local Open Scope Z_scope.

(** ** Python's [datetime]: proleptic Gregorian ordinals

    [datetime - timedelta(days=n)] goes through the day ordinal, as the
    standard library does ([_ymd2ord], [_ord2ymd]). *)
Module PyDatetime.

Record datetime := mkdate { year : Z; month : Z; day : Z }.

Definition MINYEAR : Z := 1.
Definition MAXYEAR : Z := 9999.

Definition _is_leap (y : Z) : bool :=
  (y mod 4 =? 0) && (negb (y mod 100 =? 0) || (y mod 400 =? 0)).

Definition _days_before_year (y : Z) : Z :=
  let y' := y - 1 in y' * 365 + y' / 4 - y' / 100 + y' / 400.

Definition _DAYS_IN_MONTH (m : Z) : Z :=
  match m with
  | 1 => 31 | 2 => 28 | 3 => 31 | 4 => 30 | 5 => 31 | 6 => 30
  | 7 => 31 | 8 => 31 | 9 => 30 | 10 => 31 | 11 => 30 | 12 => 31
  | _ => 0
  end.

Definition _DAYS_BEFORE_MONTH (m : Z) : Z :=
  match m with
  | 1 => 0 | 2 => 31 | 3 => 59 | 4 => 90 | 5 => 120 | 6 => 151
  | 7 => 181 | 8 => 212 | 9 => 243 | 10 => 273 | 11 => 304 | 12 => 334
  | _ => 0
  end.

Definition _days_in_month (y m : Z) : Z :=
  if (m =? 2) && _is_leap y then 29 else _DAYS_IN_MONTH m.

Definition _days_before_month (y m : Z) : Z :=
  _DAYS_BEFORE_MONTH m + (if (2 <? m) && _is_leap y then 1 else 0).

Definition _ymd2ord (y m d : Z) : Z :=
  _days_before_year y + _days_before_month y m + d.

Definition _DI400Y : Z := 146097.
Definition _DI100Y : Z := 36524.
Definition _DI4Y : Z := 1461.

Definition _ord2ymd (n0 : Z) : Z * Z * Z :=
  let n := n0 - 1 in
  let n400 := n / _DI400Y in
  let n := n mod _DI400Y in
  let y := n400 * 400 + 1 in
  let n100 := n / _DI100Y in
  let n := n mod _DI100Y in
  let n4 := n / _DI4Y in
  let n := n mod _DI4Y in
  let n1 := n / 365 in
  let n := n mod 365 in
  let y := y + n100 * 100 + n4 * 4 + n1 in
  if (n1 =? 4) || (n100 =? 4) then (y - 1, 12, 31)
  else
    let leapyear := (n1 =? 3) && (negb (n4 =? 24) || (n100 =? 3)) in
    let m := Z.shiftr (n + 50) 5 in
    let preceding :=
      _DAYS_BEFORE_MONTH m + (if (2 <? m) && leapyear then 1 else 0) in
    if n <? preceding then
      let m' := m - 1 in
      let preceding' :=
        preceding
        - (_DAYS_IN_MONTH m' + (if (m' =? 2) && leapyear then 1 else 0)) in
      (y, m', n - preceding' + 1)
    else (y, m, n - preceding + 1).

(** A value the [datetime] constructor accepts. *)
Definition valid (t : datetime) : Prop :=
  MINYEAR <= year t <= MAXYEAR /\ 1 <= month t <= 12
  /\ 1 <= day t <= _days_in_month (year t) (month t).

Definition validb (t : datetime) : bool :=
  (MINYEAR <=? year t) && (year t <=? MAXYEAR)
  && (1 <=? month t) && (month t <=? 12)
  && (1 <=? day t) && (day t <=? _days_in_month (year t) (month t)).

Definition toordinal (t : datetime) : Z :=
  _ymd2ord (year t) (month t) (day t).

Definition _MAXORDINAL : Z := 3652059.

(** [t.replace(day=d)]; [None] is the ValueError of an out-of-range day. *)
Definition replace_day (t : datetime) (d : Z) : option datetime :=
  if (1 <=? d) && (d <=? _days_in_month (year t) (month t))
  then Some (mkdate (year t) (month t) d) else None.

(** [t - timedelta(days=n)]; [None] is the OverflowError raised when the
    result leaves [datetime.min .. datetime.max]. *)
Definition sub_days (t : datetime) (n : Z) : option datetime :=
  let o := toordinal t - n in
  if (1 <=? o) && (o <=? _MAXORDINAL) then
    let '(y, m, d) := _ord2ymd o in Some (mkdate y m d)
  else None.

Definition digit (n : Z) : ascii :=
  ascii_of_nat (48 + Z.to_nat (n mod 10)).

Definition pad2 (n : Z) : string :=
  String (digit (n / 10)) (String (digit n) EmptyString).

Definition pad4 (n : Z) : string :=
  String (digit (n / 1000)) (String (digit (n / 100)) (pad2 n)).

(** The text [YYYY-MM] of a year and a month. *)
Definition month_key (y m : Z) : string :=
  (pad4 y ++ "-" ++ pad2 m)%string.

(** [t.strftime("%Y-%m")] and [t.strftime("%Y-%m-%d")]; [%Y] is the year
    zero-padded to four digits, as the library documents it. *)
Definition strftime_Ym (t : datetime) : string :=
  month_key (year t) (month t).

Definition strftime_Ymd (t : datetime) : string :=
  (strftime_Ym t ++ "-" ++ pad2 (day t))%string.

(** The calendar month before the month of [t]. *)
Definition preceding_month (t : datetime) : Z * Z :=
  if month t =? 1 then (year t - 1, 12) else (year t, month t - 1).

End PyDatetime.

(** ** SQLite value semantics used by the queries *)
Module Sqlite.

(** TEXT values compare under the BINARY collation: byte by byte. *)
Definition text_eqb : string -> string -> bool := String.eqb.
Definition text_leb : string -> string -> bool := String.leb.
Definition text_ltb : string -> string -> bool := String.ltb.

Definition real_ltb (a b : Q) : bool := negb (Qle_bool b a).
Definition real_leb (a b : Q) : bool := Qle_bool a b.

(** ASCII case folding of the LIKE operator. *)
Definition fold_case (c : ascii) : ascii :=
  let n := nat_of_ascii c in
  if ((65 <=? n) && (n <=? 90))%nat then ascii_of_nat (n + 32) else c.

(** [text LIKE pattern]: [%] matches any run of bytes, [_] one byte, any
    other byte matches itself up to ASCII case.  (The patterns this
    program builds hold digits, [-] and one final [%].) *)
Fixpoint like_bytes (p : list ascii) (s : list ascii) {struct p} : bool :=
  match p with
  | [] => match s with [] => true | _ :: _ => false end
  | c :: p' =>
      if Ascii.eqb c "%" then
        (fix skip (s : list ascii) : bool :=
           like_bytes p' s
           || match s with [] => false | _ :: s' => skip s' end) s
      else if Ascii.eqb c "_" then
        match s with [] => false | _ :: s' => like_bytes p' s' end
      else
        match s with
        | [] => false
        | d :: s' => Ascii.eqb (fold_case c) (fold_case d) && like_bytes p' s'
        end
  end.

Definition like (text pattern : string) : bool :=
  like_bytes (list_ascii_of_string pattern) (list_ascii_of_string text).

(** [SUM(x)]: NULL over no rows. *)
Definition SUM (xs : list Q) : option Q :=
  match xs with
  | [] => None
  | _ :: _ => Some (fold_left Qplus xs 0%Q)
  end.

(** [COUNT( * )]. *)
Definition COUNT {A} (rows : list A) : Z := Z.of_nat (List.length rows).

(** [COALESCE(x, d)]. *)
Definition COALESCE (x : option Q) (d : Q) : Q :=
  match x with Some v => v | None => d end.

(** [ORDER BY]: a stable insertion sort; [before a b] holds when [a] may
    stand before [b]. *)
Fixpoint insert_by {A} (before : A -> A -> bool) (x : A) (l : list A)
  : list A :=
  match l with
  | [] => [x]
  | y :: l' => if before x y then x :: l else y :: insert_by before x l'
  end.

Definition order_by {A} (before : A -> A -> bool) (l : list A) : list A :=
  fold_right (insert_by before) [] l.

(** The distinct values of a list, in order of first occurrence. *)
Fixpoint distinct {K} (eqb : K -> K -> bool) (l : list K) : list K :=
  match l with
  | [] => []
  | k :: l' => k :: filter (fun k' => negb (eqb k' k)) (distinct eqb l')
  end.

(** [GROUP BY key]: one group per key value, groups in key order. *)
Definition group_by {A K} (eqb leb : K -> K -> bool) (key : A -> K)
  (rows : list A) : list (K * list A) :=
  map (fun k => (k, filter (fun r => eqb (key r) k) rows))
      (order_by leb (distinct eqb (map key rows))).

End Sqlite.

(** ** pandas float columns *)
Module Pandas.

(** A float64 cell: an IEEE 754 binary64 number, infinity or NaN. *)
Definition float64 := spec_float.
Definition prec : Z := 53.
Definition emax : Z := 1024.

(** The float64 nearest to a rational, ties to even: the quotient of
    numerator and denominator, rounded once.  It is the cell that holds a
    REAL or integer value read from SQLite. *)
Definition of_Q (q : Q) : float64 :=
  match Qnum q with
  | Z0 => S754_zero false
  | Zpos n =>
      SFdiv prec emax (S754_finite false n 0) (S754_finite false (Qden q) 0)
  | Zneg n =>
      SFdiv prec emax (S754_finite true n 0) (S754_finite false (Qden q) 0)
  end.

(** A Python int as float64. *)
Definition of_Z (n : Z) : float64 := binary_normalize prec emax n 0 false.

(** Column division and multiplication: IEEE operations, which raise
    nothing; x/0 is an infinity, or NaN for 0/0. *)
Definition fdiv : float64 -> float64 -> float64 := SFdiv prec emax.
Definition fmul : float64 -> float64 -> float64 := SFmul prec emax.
Definition fadd : float64 -> float64 -> float64 := SFadd prec emax.

(** [numpy.rint]: the nearest integer, ties to even. *)
Definition rint (x : float64) : float64 :=
  match x with
  | S754_finite s m e =>
      if 0 <=? e then x
      else
        let mrs := fst (shr (shr_record_of_loc (Zpos m) loc_Exact) e (- e)) in
        binary_normalize prec emax
          (cond_Zopp s
             (round_nearest_even (shr_m mrs) (loc_of_shr_record mrs)))
          0 s
  | _ => x
  end.

(** [Series.round(1)], which is numpy's: [rint(x * 10) / 10]. *)
Definition round1 (x : float64) : float64 :=
  fdiv (rint (fmul x (of_Z 10))) (of_Z 10).

(** The least positive float64, 2^-1074. *)
Definition least_positive : Q := 1 # (2 ^ 1074).

(** A cell greater than zero: +infinity, or a positive finite number,
    whose exponent is at least that of the least positive float64. *)
Definition is_positive (x : float64) : Prop :=
  x = S754_infinity false
  \/ exists m e, x = S754_finite false m e /\ -1074 <= e.

End Pandas.

(** ** The schema and the rows of the four tables *)
Module Schema.

Record column := mkColumn
  { col_name : string; col_type : string; col_constraints : string }.

Record table := mkTable
  { tbl_name : string; tbl_columns : list column;
    tbl_constraints : list string }.

End Schema.

Module User.
Record t := mk
  { id : Z; username : string; password : string; created_at : string }.
End User.

Module Expense.
Record t := mk
  { id : Z; user_id : Z; date : string; amount : Q; category : string;
    description : string; tags : string; payment_method : string;
    recurring : bool; created_at : string; updated_at : string }.
End Expense.

Module Category.
Record t := mk
  { id : Z; name : string; budget : Q; color : string; icon : string;
    created_at : string }.
End Category.

Module PaymentMethod.
Record t := mk { id : Z; name : string; type : string }.
End PaymentMethod.

(** The content of [expense_tracker.db].  [seq_*] are the rows of
    [sqlite_sequence]: the largest key an AUTOINCREMENT table ever held. *)
Record database := mkDatabase
  { schema : list Schema.table;
    users : list User.t;
    expenses : list Expense.t;
    categories : list Category.t;
    payment_methods : list PaymentMethod.t;
    seq_users : Z;
    seq_expenses : Z;
    seq_categories : Z;
    seq_payment_methods : Z }.

(** A database file that was just created by [sqlite3.connect]. *)
Definition empty_database : database :=
  mkDatabase [] [] [] [] [] 0 0 0 0.

Definition set_expenses (db : database) (es : list Expense.t) (seq : Z)
  : database :=
  mkDatabase (schema db) (users db) es (categories db) (payment_methods db)
    (seq_users db) seq (seq_categories db) (seq_payment_methods db).

(** The key AUTOINCREMENT assigns: one more than the largest key the table
    holds or ever held. *)
Definition next_rowid (seq : Z) (ids : list Z) : Z :=
  fold_right Z.max seq ids + 1.

Definition set_schema (db : database) (ts : list Schema.table) : database :=
  mkDatabase ts (users db) (expenses db) (categories db) (payment_methods db)
    (seq_users db) (seq_expenses db) (seq_categories db)
    (seq_payment_methods db).

Definition set_categories (db : database) (cs : list Category.t) (seq : Z)
  : database :=
  mkDatabase (schema db) (users db) (expenses db) cs (payment_methods db)
    (seq_users db) (seq_expenses db) seq (seq_payment_methods db).

Definition set_payment_methods (db : database) (ps : list PaymentMethod.t)
  (seq : Z) : database :=
  mkDatabase (schema db) (users db) (expenses db) (categories db) ps
    (seq_users db) (seq_expenses db) (seq_categories db) seq.

Local Open Scope string_scope.

(** ** DDL and seeding statements shared by both programs *)

Definition has_table (db : database) (name : string) : bool :=
  existsb (fun t => String.eqb (Schema.tbl_name t) name) (schema db).

(** The stored definition of the table [name]. *)
Definition lookup_table (db : database) (name : string)
  : option Schema.table :=
  find (fun t => String.eqb (Schema.tbl_name t) name) (schema db).

(** Column names match up to ASCII case. *)
Definition lower (c : ascii) : ascii :=
  match c with
  | "A" => "a" | "B" => "b" | "C" => "c" | "D" => "d" | "E" => "e"
  | "F" => "f" | "G" => "g" | "H" => "h" | "I" => "i" | "J" => "j"
  | "K" => "k" | "L" => "l" | "M" => "m" | "N" => "n" | "O" => "o"
  | "P" => "p" | "Q" => "q" | "R" => "r" | "S" => "s" | "T" => "t"
  | "U" => "u" | "V" => "v" | "W" => "w" | "X" => "x" | "Y" => "y"
  | "Z" => "z" | _ => c
  end%char.

Fixpoint ident_eqb (a b : string) : bool :=
  match a, b with
  | EmptyString, EmptyString => true
  | String x a', String y b' =>
      Ascii.eqb (lower x) (lower y) && ident_eqb a' b'
  | _, _ => false
  end.

(** An INSERT that names the columns [cols] of the table [name] is
    prepared only if the stored table has a column of each name; SQLite
    raises an OperationalError otherwise. *)
Definition has_columns (db : database) (name : string) (cols : list string)
  : bool :=
  match lookup_table db name with
  | Some t =>
      forallb
        (fun c =>
           existsb (fun k => ident_eqb (Schema.col_name k) c)
             (Schema.tbl_columns t))
        cols
  | None => false
  end.

(** [CREATE TABLE IF NOT EXISTS]. *)
Definition create_table_if_not_exists (t : Schema.table) (db : database)
  : database :=
  if has_table db (Schema.tbl_name t) then db
  else set_schema db (schema db ++ [t]).

(** [CREATE TABLE]; [None] is the error raised when the table exists. *)
Definition create_table (t : Schema.table) (db : database)
  : option database :=
  if has_table db (Schema.tbl_name t) then None
  else Some (set_schema db (schema db ++ [t])).

(** [INSERT INTO categories (name, budget, color, icon) VALUES (?, ?, ?, ?)];
    [None] is the error raised: the OperationalError of a stored table
    without one of the four columns, or the IntegrityError of the UNIQUE
    constraint on [name].  Rows are those of the table the application
    creates; constraints of a table created otherwise are not modelled. *)
Definition insert_category (now : string)
  (row : string * Q * string * string) (db : database) : option database :=
  let '(n, b, c, i) := row in
  if negb (has_columns db "categories" ["name"; "budget"; "color"; "icon"])
  then None
  else if existsb (fun r => Sqlite.text_eqb (Category.name r) n)
            (categories db)
  then None
  else
    let k := next_rowid (seq_categories db)
               (map Category.id (categories db)) in
    Some (set_categories db
            (categories db ++ [Category.mk k n b c i now]) k).

(** [INSERT INTO payment_methods (name, type) VALUES (?, ?)], with the
    same two errors. *)
Definition insert_payment_method (row : string * string) (db : database)
  : option database :=
  let '(n, t) := row in
  if negb (has_columns db "payment_methods" ["name"; "type"]) then None
  else if existsb (fun r => Sqlite.text_eqb (PaymentMethod.name r) n)
            (payment_methods db)
  then None
  else
    let k := next_rowid (seq_payment_methods db)
               (map PaymentMethod.id (payment_methods db)) in
    Some (set_payment_methods db
            (payment_methods db ++ [PaymentMethod.mk k n t]) k).

(** [cursor.executemany]: the rows in list order; the first error ends it. *)
Definition executemany {A} (ins : A -> database -> option database)
  (rows : list A) (db : database) : option database :=
  fold_left
    (fun acc r => match acc with Some d => ins r d | None => None end)
    rows (Some db).

(** ** [init_db] of expense_tracker.py

    [file] is the database file found on disk, if any; [None] as a result
    stands for an exception leaving the function. *)
Module InitDb.

Definition users_table : Schema.table :=
  Schema.mkTable "users"
    [ Schema.mkColumn "id" "INTEGER" "PRIMARY KEY AUTOINCREMENT";
      Schema.mkColumn "username" "TEXT" "UNIQUE NOT NULL";
      Schema.mkColumn "password" "TEXT" "NOT NULL";
      Schema.mkColumn "created_at" "TIMESTAMP" "DEFAULT CURRENT_TIMESTAMP" ]
    [].

Definition expenses_table : Schema.table :=
  Schema.mkTable "expenses"
    [ Schema.mkColumn "id" "INTEGER" "PRIMARY KEY AUTOINCREMENT";
      Schema.mkColumn "user_id" "INTEGER" "NOT NULL";
      Schema.mkColumn "date" "TEXT" "NOT NULL";
      Schema.mkColumn "amount" "REAL" "NOT NULL CHECK(amount > 0)";
      Schema.mkColumn "category" "TEXT" "NOT NULL";
      Schema.mkColumn "description" "TEXT" "DEFAULT ''";
      Schema.mkColumn "tags" "TEXT" "DEFAULT ''";
      Schema.mkColumn "payment_method" "TEXT" "DEFAULT 'Cash'";
      Schema.mkColumn "recurring" "BOOLEAN" "DEFAULT 0";
      Schema.mkColumn "created_at" "TIMESTAMP" "DEFAULT CURRENT_TIMESTAMP";
      Schema.mkColumn "updated_at" "TIMESTAMP" "DEFAULT CURRENT_TIMESTAMP" ]
    [ "FOREIGN KEY (user_id) REFERENCES users(id) ON DELETE CASCADE" ].

Definition categories_table : Schema.table :=
  Schema.mkTable "categories"
    [ Schema.mkColumn "id" "INTEGER" "PRIMARY KEY AUTOINCREMENT";
      Schema.mkColumn "name" "TEXT" "UNIQUE NOT NULL";
      Schema.mkColumn "budget" "REAL" "DEFAULT 0";
      Schema.mkColumn "color" "TEXT" "DEFAULT '#FF6B6B'";
      Schema.mkColumn "icon" "TEXT" "DEFAULT '💰'";
      Schema.mkColumn "created_at" "TIMESTAMP" "DEFAULT CURRENT_TIMESTAMP" ]
    [].

Definition payment_methods_table : Schema.table :=
  Schema.mkTable "payment_methods"
    [ Schema.mkColumn "id" "INTEGER" "PRIMARY KEY AUTOINCREMENT";
      Schema.mkColumn "name" "TEXT" "UNIQUE NOT NULL";
      Schema.mkColumn "type" "TEXT" "DEFAULT 'Cash'" ]
    [].

Definition default_categories : list (string * Q * string * string) :=
  [ ("Food", 300%Q, "#FF6B6B", "🍔");
    ("Transportation", 150%Q, "#4ECDC4", "🚗");
    ("Housing", 800%Q, "#45B7D1", "🏠");
    ("Entertainment", 200%Q, "#96CEB4", "🎬");
    ("Utilities", 250%Q, "#FFE6A7", "⚡");
    ("Healthcare", 200%Q, "#D3D3D3", "🏥");
    ("Shopping", 300%Q, "#FFB6C1", "🛍️");
    ("Education", 150%Q, "#87CEEB", "📚");
    ("Others", 100%Q, "#D3D3D3", "💼") ].

Definition default_payments : list (string * string) :=
  [ ("Cash", "Cash");
    ("Credit Card", "Card");
    ("Debit Card", "Card");
    ("Bank Transfer", "Digital");
    ("Mobile Payment", "Digital");
    ("Check", "Other") ].

Definition init_db (now : string) (file : option database)
  : option database :=
  let db := match file with Some d => d | None => empty_database end in
  let db := create_table_if_not_exists users_table db in
  let db := create_table_if_not_exists expenses_table db in
  let db := create_table_if_not_exists categories_table db in
  let db := create_table_if_not_exists payment_methods_table db in
  match
    (if (Sqlite.COUNT (categories db) =? 0)%Z
     then executemany (insert_category now) default_categories db
     else Some db)
  with
  | None => None
  | Some db =>
      if (Sqlite.COUNT (payment_methods db) =? 0)%Z
      then executemany insert_payment_method default_payments db
      else Some db
  end.

End InitDb.

(** ** [reset_database] of database_reset.py *)
Module DatabaseReset.

Definition users_table : Schema.table :=
  Schema.mkTable "users"
    [ Schema.mkColumn "id" "INTEGER" "PRIMARY KEY AUTOINCREMENT";
      Schema.mkColumn "username" "TEXT" "UNIQUE NOT NULL";
      Schema.mkColumn "password" "TEXT" "NOT NULL";
      Schema.mkColumn "created_at" "TIMESTAMP" "DEFAULT CURRENT_TIMESTAMP" ]
    [].

Definition expenses_table : Schema.table :=
  Schema.mkTable "expenses"
    [ Schema.mkColumn "id" "INTEGER" "PRIMARY KEY AUTOINCREMENT";
      Schema.mkColumn "user_id" "INTEGER" "NOT NULL";
      Schema.mkColumn "date" "TEXT" "NOT NULL";
      Schema.mkColumn "amount" "REAL" "NOT NULL CHECK(amount > 0)";
      Schema.mkColumn "category" "TEXT" "NOT NULL";
      Schema.mkColumn "description" "TEXT" "DEFAULT ''";
      Schema.mkColumn "tags" "TEXT" "DEFAULT ''";
      Schema.mkColumn "payment_method" "TEXT" "DEFAULT 'Cash'";
      Schema.mkColumn "recurring" "BOOLEAN" "DEFAULT 0";
      Schema.mkColumn "created_at" "TIMESTAMP" "DEFAULT CURRENT_TIMESTAMP";
      Schema.mkColumn "updated_at" "TIMESTAMP" "DEFAULT CURRENT_TIMESTAMP" ]
    [ "FOREIGN KEY (user_id) REFERENCES users(id) ON DELETE CASCADE" ].

Definition categories_table : Schema.table :=
  Schema.mkTable "categories"
    [ Schema.mkColumn "id" "INTEGER" "PRIMARY KEY AUTOINCREMENT";
      Schema.mkColumn "name" "TEXT" "UNIQUE NOT NULL";
      Schema.mkColumn "budget" "REAL" "DEFAULT 0";
      Schema.mkColumn "color" "TEXT" "DEFAULT '#FF6B6B'";
      Schema.mkColumn "icon" "TEXT" "DEFAULT '💰'";
      Schema.mkColumn "created_at" "TIMESTAMP" "DEFAULT CURRENT_TIMESTAMP" ]
    [].

Definition payment_methods_table : Schema.table :=
  Schema.mkTable "payment_methods"
    [ Schema.mkColumn "id" "INTEGER" "PRIMARY KEY AUTOINCREMENT";
      Schema.mkColumn "name" "TEXT" "UNIQUE NOT NULL";
      Schema.mkColumn "type" "TEXT" "DEFAULT 'Cash'" ]
    [].

Definition default_categories : list (string * Q * string * string) :=
  [ ("Food", 300%Q, "#FF6B6B", "🍔");
    ("Transportation", 150%Q, "#4ECDC4", "🚗");
    ("Housing", 800%Q, "#45B7D1", "🏠");
    ("Entertainment", 200%Q, "#96CEB4", "🎬");
    ("Utilities", 250%Q, "#FFE6A7", "⚡");
    ("Healthcare", 200%Q, "#D3D3D3", "🏥");
    ("Shopping", 300%Q, "#FFB6C1", "🛍️");
    ("Education", 150%Q, "#87CEEB", "📚");
    ("Others", 100%Q, "#D3D3D3", "💼") ].

Definition default_payments : list (string * string) :=
  [ ("Cash", "Cash");
    ("Credit Card", "Card");
    ("Debit Card", "Card");
    ("Bank Transfer", "Digital");
    ("Mobile Payment", "Digital");
    ("Check", "Other") ].

Definition reset_database (now : string) (file : option database)
  : option database :=
  (* os.remove(db_file) when it exists, then a fresh connection *)
  let db := empty_database in
  match create_table users_table db with
  | None => None
  | Some db =>
  match create_table expenses_table db with
  | None => None
  | Some db =>
  match create_table categories_table db with
  | None => None
  | Some db =>
  match create_table payment_methods_table db with
  | None => None
  | Some db =>
  match executemany (insert_category now) default_categories db with
  | None => None
  | Some db => executemany insert_payment_method default_payments db
  end end end end end.

End DatabaseReset.

(** ** Expense CRUD of expense_tracker.py

    Every function opens a connection of its own.  [PRAGMA foreign_keys] is
    set on the connection of [init_db] only, so the foreign key of
    [expenses.user_id] is not checked by the statements below. *)

(** [CHECK(amount > 0)] of the expenses table. *)
Definition check_amount (amount : Q) : bool := Sqlite.real_ltb 0 amount.

(** The conditions [render_expense_list] appends to
    [SELECT * FROM expenses WHERE user_id = ?], each with its parameter. *)
Inductive clause :=
| CategoryEq (c : string)      (* AND category = ? *)
| PaymentMethodEq (p : string) (* AND payment_method = ? *)
| DateGe (d : string)          (* AND date >= ? *)
| DateLe (d : string)          (* AND date <= ? *)
| AmountGe (a : Q)             (* AND amount >= ? *)
| AmountLe (a : Q).            (* AND amount <= ? *)

Definition clause_holds (c : clause) (e : Expense.t) : bool :=
  match c with
  | CategoryEq x => Sqlite.text_eqb (Expense.category e) x
  | PaymentMethodEq x => Sqlite.text_eqb (Expense.payment_method e) x
  | DateGe d => Sqlite.text_leb d (Expense.date e)
  | DateLe d => Sqlite.text_leb (Expense.date e) d
  | AmountGe a => Sqlite.real_leb a (Expense.amount e)
  | AmountLe a => Sqlite.real_leb (Expense.amount e) a
  end.

(** [ORDER BY date DESC, id DESC]. *)
Definition expense_order (a b : Expense.t) : bool :=
  Sqlite.text_ltb (Expense.date b) (Expense.date a)
  || (Sqlite.text_eqb (Expense.date a) (Expense.date b)
      && (Expense.id b <=? Expense.id a)%Z).

(** [get_expenses(user_id, query, params)].  A query is the list of
    conditions between the fixed head [... WHERE user_id = ?] and the fixed
    tail [ORDER BY date DESC, id DESC]; [user_id] is always the first
    parameter. *)
Definition get_expenses (db : database) (user_id : Z)
  (query : option (list clause)) : list Expense.t :=
  match query with
  | None =>
      Sqlite.order_by expense_order
        (filter (fun e => (Expense.user_id e =? user_id)%Z) (expenses db))
  | Some conds =>
      Sqlite.order_by expense_order
        (filter (fun e => (Expense.user_id e =? user_id)%Z
                          && forallb (fun c => clause_holds c e) conds)
           (expenses db))
  end.

(** The filter widgets of [render_expense_list]. *)
Record filters := mkFilters
  { apply_filters : bool;
    category_filter : string;
    payment_filter : string;
    date_from : option PyDatetime.datetime;
    date_to : option PyDatetime.datetime;
    min_amount : Q;
    max_amount : Q }.

(** The query and parameters [render_expense_list] hands to
    [get_expenses]. *)
Definition build_query (f : filters) : option (list clause) :=
  if apply_filters f then
    Some
      ((if String.eqb (category_filter f) "All" then []
        else [CategoryEq (category_filter f)])
       ++ (if String.eqb (payment_filter f) "All" then []
           else [PaymentMethodEq (payment_filter f)])
       ++ match date_from f with
          | Some d => [DateGe (PyDatetime.strftime_Ymd d)]
          | None => []
          end
       ++ match date_to f with
          | Some d => [DateLe (PyDatetime.strftime_Ymd d)]
          | None => []
          end
       ++ (if Sqlite.real_ltb 0 (min_amount f)
           then [AmountGe (min_amount f)] else [])
       ++ (if Sqlite.real_ltb 0 (max_amount f)
           then [AmountLe (max_amount f)] else []))%list
  else None.

Definition render_expense_list (db : database) (user_id : Z) (f : filters)
  : list Expense.t :=
  get_expenses db user_id (build_query f).

(** [add_expense]; [now] is CURRENT_TIMESTAMP.  A failed CHECK raises, is
    caught, and nothing is committed. *)
Definition add_expense (now : string) (db : database) (user_id : Z)
  (date : string) (amount : Q) (category description tags
  payment_method : string) (recurring : bool) : database * bool :=
  if check_amount amount then
    let k := next_rowid (seq_expenses db) (map Expense.id (expenses db)) in
    (set_expenses db
       (expenses db
        ++ [Expense.mk k user_id date amount category description tags
              payment_method recurring now now])%list k,
     true)
  else (db, false).

(** [WHERE id = ? AND user_id = ?]. *)
Definition targets (expense_id user_id : Z) (e : Expense.t) : bool :=
  (Expense.id e =? expense_id)%Z && (Expense.user_id e =? user_id)%Z.

(** [update_expense]; the result is [cursor.rowcount > 0], or [False] when
    the CHECK on a row to update raised. *)
Definition update_expense (now : string) (db : database)
  (user_id expense_id : Z) (date : string) (amount : Q) (category
  description tags payment_method : string) (recurring : bool)
  : database * bool :=
  let rowcount := Sqlite.COUNT (filter (targets expense_id user_id)
                                  (expenses db)) in
  if (0 <? rowcount)%Z && negb (check_amount amount) then (db, false)
  else
    (set_expenses db
       (map (fun e =>
               if targets expense_id user_id e then
                 Expense.mk (Expense.id e) (Expense.user_id e) date amount
                   category description tags payment_method recurring
                   (Expense.created_at e) now
               else e)
          (expenses db))
       (seq_expenses db),
     (0 <? rowcount)%Z).

(** [delete_expense]. *)
Definition delete_expense (db : database) (user_id expense_id : Z)
  : database * bool :=
  let rowcount := Sqlite.COUNT (filter (targets expense_id user_id)
                                  (expenses db)) in
  (set_expenses db
     (filter (fun e => negb (targets expense_id user_id e)) (expenses db))
     (seq_expenses db),
   (0 <? rowcount)%Z).

(** What the add form shows after a submit. *)
Inductive form_message :=
| ExpenseAdded          (* st.success: expense added *)
| AddFailed             (* st.error inside add_expense *)
| AmountMustBePositive. (* st.error: Amount must be greater than 0 *)

(** The submit branch of [render_add_expense]. *)
Definition render_add_expense (now : string) (db : database) (user_id : Z)
  (date : PyDatetime.datetime) (amount : Q) (category payment_method
  description tags : string) (recurring : bool) : database * form_message :=
  if Sqlite.real_ltb 0 amount then
    let '(db', ok) :=
      add_expense now db user_id (PyDatetime.strftime_Ymd date) amount
        category description tags payment_method recurring in
    if ok then (db', ExpenseAdded) else (db', AddFailed)
  else (db, AmountMustBePositive).

(** ** Analytics of expense_tracker.py; [today] is [datetime.now()] *)

(** Python's [x or 0] on a fetched aggregate: NULL and zero both give 0. *)
Definition or_zero (x : option Q) : Q :=
  match x with
  | Some v => if Qeq_bool v 0 then 0%Q else v
  | None => 0%Q
  end.

Definition current_month_key (today : PyDatetime.datetime) : string :=
  PyDatetime.strftime_Ym today.

(** [(datetime.now().replace(day=1) - timedelta(days=1)).strftime("%Y-%m")];
    [None] when the subtraction raises. *)
Definition last_month_key (today : PyDatetime.datetime) : option string :=
  match PyDatetime.replace_day today 1 with
  | None => None
  | Some first =>
      match PyDatetime.sub_days first 1 with
      | None => None
      | Some d => Some (PyDatetime.strftime_Ym d)
      end
  end.

(** [WHERE user_id = ? AND date LIKE ?] with the pattern [f"{month}%"]. *)
Definition in_month (user_id : Z) (month : string) (e : Expense.t) : bool :=
  (Expense.user_id e =? user_id)%Z
  && Sqlite.like (Expense.date e) (month ++ "%").

(** [get_monthly_summary]: (current_total, last_total, current_count); the
    except branch returns (0, 0, 0). *)
Definition get_monthly_summary (today : PyDatetime.datetime) (db : database)
  (user_id : Z) : Q * Q * Z :=
  let current_month := current_month_key today in
  match last_month_key today with
  | None => (0%Q, 0%Q, 0%Z)
  | Some last_month =>
      let current_rows :=
        filter (in_month user_id current_month) (expenses db) in
      let current_total :=
        or_zero (Sqlite.SUM (map Expense.amount current_rows)) in
      let current_count := Sqlite.COUNT current_rows in
      let last_rows := filter (in_month user_id last_month) (expenses db) in
      let last_total := or_zero (Sqlite.SUM (map Expense.amount last_rows)) in
      (current_total, last_total, current_count)
  end.

Module BudgetRow.
Record t := mk
  { name : string; budget : Q; color : string; icon : string; spent : Q;
    remaining : Q; percentage : Pandas.float64; status : string }.
End BudgetRow.

(** The join condition
    [c.name = e.category AND e.date LIKE ? AND e.user_id = ?]. *)
Definition joins (c : Category.t) (month : string) (user_id : Z)
  (e : Expense.t) : bool :=
  Sqlite.text_eqb (Category.name c) (Expense.category e)
  && Sqlite.like (Expense.date e) (month ++ "%")
  && (Expense.user_id e =? user_id)%Z.

(** The float64 cell pandas reads for [COALESCE(SUM(e.amount), 0)]: SQLite
    adds the REAL values to 0.0 one by one, in the order of the rows (so
    before version 3.44; later versions compensate the rounding errors of
    the additions), and no row gives 0. *)
Definition sum_cell (amounts : list Q) : Pandas.float64 :=
  fold_left (fun acc a => Pandas.fadd acc (Pandas.of_Q a)) amounts
    (S754_zero false).

(** One result row of [get_budget_performance] with its derived columns.
    [name] is UNIQUE, so each group of the GROUP BY is one category. *)
Definition budget_row (month : string) (user_id : Z) (es : list Expense.t)
  (c : Category.t) : BudgetRow.t :=
  let spent :=
    Sqlite.COALESCE
      (Sqlite.SUM (map Expense.amount (filter (joins c month user_id) es)))
      0%Q in
  let remaining := (Category.budget c - spent)%Q in
  let percentage :=
    Pandas.round1
      (Pandas.fmul
         (Pandas.fdiv
            (sum_cell
               (map Expense.amount (filter (joins c month user_id) es)))
            (Pandas.of_Q (Category.budget c)))
         (Pandas.of_Z 100)) in
  let status :=
    if Sqlite.real_ltb remaining 0 then "Over Budget" else "Within Budget" in
  BudgetRow.mk (Category.name c) (Category.budget c) (Category.color c)
    (Category.icon c) spent remaining percentage status.

(** [get_budget_performance]: the rows in [ORDER BY c.name] order. *)
Definition get_budget_performance (today : PyDatetime.datetime)
  (db : database) (user_id : Z) : list BudgetRow.t :=
  let current_month := current_month_key today in
  map (budget_row current_month user_id (expenses db))
    (Sqlite.order_by
       (fun a b => Sqlite.text_leb (Category.name a) (Category.name b))
       (categories db)).

(** [SUM(amount)] over a group, which is never empty. *)
Definition group_total (rows : list Expense.t) : Q :=
  fold_left Qplus (map Expense.amount rows) 0%Q.

(** [get_category_spending]: rows (category, total, count) in
    [ORDER BY total DESC] order; [None] when computing [start_date]
    raises. *)
Definition get_category_spending (today : PyDatetime.datetime)
  (db : database) (user_id : Z) (days : Z) : option (list (string * Q * Z)) :=
  match PyDatetime.sub_days today days with
  | None => None
  | Some start =>
      let start_date := PyDatetime.strftime_Ymd start in
      let rows :=
        filter (fun e => (Expense.user_id e =? user_id)%Z
                         && Sqlite.text_leb start_date (Expense.date e))
          (expenses db) in
      let groups :=
        Sqlite.group_by Sqlite.text_eqb Sqlite.text_leb Expense.category rows
      in
      Some
        (Sqlite.order_by
           (fun a b => Sqlite.real_leb (snd (fst b)) (snd (fst a)))
           (map (fun g => (fst g, group_total (snd g), Sqlite.COUNT (snd g)))
              groups))
  end.

(** The "Monthly Trends" query of [render_reports].  SQLite's date
    functions are parameters: [start_of_month d] is
    [DATE(d, 'start of month')] (NULL for text that is no date) and
    [months_ago n] is [date('now', '-' || n || ' months')]. *)
Section MonthlyTrends.

Variable start_of_month : string -> option string.
Variable months_ago : Z -> string.

Definition null_eqb (a b : option string) : bool :=
  match a, b with
  | None, None => true
  | Some x, Some y => Sqlite.text_eqb x y
  | _, _ => false
  end.

(** NULL sorts before every text. *)
Definition null_leb (a b : option string) : bool :=
  match a, b with
  | None, _ => true
  | Some _, None => false
  | Some x, Some y => Sqlite.text_leb x y
  end.

Definition monthly_trends (db : database) (user_id : Z) (months : Z)
  : list (option string * Q * Z) :=
  let rows :=
    filter (fun e => (Expense.user_id e =? user_id)%Z
                     && Sqlite.text_leb (months_ago months)
                          (Expense.date e))
      (expenses db) in
  map (fun g => (fst g, group_total (snd g), Sqlite.COUNT (snd g)))
    (Sqlite.group_by null_eqb null_leb
       (fun e => start_of_month (Expense.date e)) rows).

End MonthlyTrends.

(** ** Sequences of storage operations *)
Inductive operation :=
| Add (now : string) (user_id : Z) (date : string) (amount : Q)
    (category description tags payment_method : string) (recurring : bool)
| FormAdd (now : string) (user_id : Z) (date : PyDatetime.datetime)
    (amount : Q) (category payment_method description tags : string)
    (recurring : bool)
| Update (now : string) (user_id expense_id : Z) (date : string)
    (amount : Q) (category description tags payment_method : string)
    (recurring : bool)
| Delete (user_id expense_id : Z).

Definition apply_operation (db : database) (o : operation) : database :=
  match o with
  | Add now u d a c ds t p r => fst (add_expense now db u d a c ds t p r)
  | FormAdd now u d a c p ds t r =>
      fst (render_add_expense now db u d a c p ds t r)
  | Update now u i d a c ds t p r =>
      fst (update_expense now db u i d a c ds t p r)
  | Delete u i => fst (delete_expense db u i)
  end.

Definition run (ops : list operation) (db : database) : database :=
  fold_left apply_operation ops db.

(** The owner's rows of the expenses table. *)
Definition owned_by (user_id : Z) (es : list Expense.t) : list Expense.t :=
  filter (fun e => (Expense.user_id e =? user_id)%Z) es.

(** The database with the expenses of every other user removed. *)
Definition only_rows_of (user_id : Z) (db : database) : database :=
  set_expenses db (owned_by user_id (expenses db)) (seq_expenses db).

(** ** Reference data helpers of expense_tracker.py *)

(** [get_categories]: [SELECT name FROM categories ORDER BY name]. *)
Definition get_categories (db : database) : list string :=
  map Category.name
    (Sqlite.order_by
       (fun a b => Sqlite.text_leb (Category.name a) (Category.name b))
       (categories db)).

(** [get_payment_methods]:
    [SELECT name FROM payment_methods ORDER BY name]. *)
Definition get_payment_methods (db : database) : list string :=
  map PaymentMethod.name
    (Sqlite.order_by
       (fun a b =>
          Sqlite.text_leb (PaymentMethod.name a) (PaymentMethod.name b))
       (payment_methods db)).

(** ** Accounts of expense_tracker.py

    [sha256_hexdigest p] stands for
    [hashlib.sha256(p.encode()).hexdigest()]. *)
Section Accounts.

Variable sha256_hexdigest : string -> string.

Definition set_users (db : database) (us : list User.t) (seq : Z)
  : database :=
  mkDatabase (schema db) us (expenses db) (categories db)
    (payment_methods db) seq (seq_expenses db) (seq_categories db)
    (seq_payment_methods db).

(** [cursor.fetchone()] on the rows a SELECT found. *)
Definition fetchone {A} (rows : list A) : option A :=
  match rows with
  | [] => None
  | r :: _ => Some r
  end.

(** [get_user_id]: [SELECT id FROM users WHERE username = ?]. *)
Definition get_user_id (db : database) (username : string) : option Z :=
  match fetchone
          (filter (fun r => Sqlite.text_eqb (User.username r) username)
             (users db)) with
  | Some r => Some (User.id r)
  | None => None
  end.

(** [create_user]: the IntegrityError of [username UNIQUE] gives False. *)
Definition create_user (now : string) (db : database)
  (username password : string) : database * bool :=
  let hashed_password := sha256_hexdigest password in
  if existsb (fun r => Sqlite.text_eqb (User.username r) username) (users db)
  then (db, false)
  else
    let k := next_rowid (seq_users db) (map User.id (users db)) in
    (set_users db
       (users db ++ [User.mk k username hashed_password now])%list k,
     true).

(** [authenticate_user]:
    [SELECT id FROM users WHERE username = ? AND password = ?]. *)
Definition authenticate_user (db : database) (username password : string)
  : option Z :=
  let hashed_password := sha256_hexdigest password in
  match fetchone
          (filter (fun r => Sqlite.text_eqb (User.username r) username
                            && Sqlite.text_eqb (User.password r)
                                 hashed_password)
             (users db)) with
  | Some r => Some (User.id r)
  | None => None
  end.

(** [st.session_state]: the logged-in user and its id. *)
Record session := mkSession
  { user : option string; session_user_id : option Z }.

(** Python truth of a [str]: it is not empty. *)
Definition truthy (s : string) : bool := negb (String.eqb s "").

Inductive login_message :=
| LoginSuccessful
| InvalidUsernameOrPassword
| EnterBothUsernameAndPassword.

(** The login form of [main] after a click on Login.  [if user_id:] is
    false for [None] and for 0. *)
Definition login_form (db : database) (s : session)
  (username password : string) : session * login_message :=
  if truthy username && truthy password then
    match authenticate_user db username password with
    | Some uid =>
        if (uid =? 0)%Z then (s, InvalidUsernameOrPassword)
        else (mkSession (Some username) (Some uid), LoginSuccessful)
    | None => (s, InvalidUsernameOrPassword)
    end
  else (s, EnterBothUsernameAndPassword).

Inductive register_message :=
| AccountCreated
| UsernameAlreadyExists
| PasswordsDoNotMatch
| FillAllFields.

(** The register form of [main] after a click on Register. *)
Definition register_form (now : string) (db : database)
  (new_username new_password confirm_password : string)
  : database * register_message :=
  if truthy new_username && truthy new_password && truthy confirm_password
  then
    if String.eqb new_password confirm_password then
      let '(db', ok) := create_user now db new_username new_password in
      if ok then (db', AccountCreated) else (db', UsernameAlreadyExists)
    else (db, PasswordsDoNotMatch)
  else (db, FillAllFields).

(** The Logout button of [main]. *)
Definition logout (s : session) : session := mkSession None None.

End Accounts.

(** ** The edit and delete form of [render_expense_list]

    [strptime_Ymd s] stands for [datetime.strptime(s, "%Y-%m-%d")], with
    [None] for its ValueError. *)
Section EditForm.

Variable strptime_Ymd : string -> option PyDatetime.datetime.

(** The submit button pressed, with the values of the widgets. *)
Inductive edit_action :=
| PressUpdate (edit_date : PyDatetime.datetime) (edit_amount : Q)
    (edit_category edit_description edit_tags edit_payment : string)
    (edit_recurring : bool)
| PressDelete
| PressNothing.

(** What the section shows below the table. *)
Inductive edit_message :=
| ExpenseUpdated  (* st.success: expense updated *)
| UpdateFailed    (* st.error: Failed to update expense *)
| ExpenseDeleted  (* st.success: expense deleted *)
| DeleteFailed    (* st.error: Failed to delete expense *)
| IdNotFound      (* st.error: Expense ID not found *)
| NoEditMessage.

(** The initial values of the widgets, of which the date is kept; [None]
    when building them raises: [strptime] on the stored date,
    [number_input] on a value below its [min_value], [list.index] on a
    name that is not in the list. *)
Definition prefill (db : database) (expense : Expense.t)
  : option PyDatetime.datetime :=
  match strptime_Ymd (Expense.date expense) with
  | None => None
  | Some d =>
      if Sqlite.real_ltb (Expense.amount expense) (1 # 100) then None
      else if negb (existsb (String.eqb (Expense.category expense))
                      (get_categories db)) then None
      else if negb (existsb (String.eqb (Expense.payment_method expense))
                      (get_payment_methods db)) then None
      else Some d
  end.

(** The section under [if not df.empty] of [render_expense_list], from the
    id typed in to the message; [None] when the run raises. *)
Definition edit_section (now : string) (db : database) (user_id : Z)
  (f : filters) (expense_id : Z) (act : edit_action)
  : option (database * edit_message) :=
  let df := render_expense_list db user_id f in
  match df with
  | [] => Some (db, NoEditMessage)
  | _ :: _ =>
      if negb (expense_id =? 0)%Z
         && existsb (fun e => (Expense.id e =? expense_id)%Z) df then
        match find (fun e => (Expense.id e =? expense_id)%Z) df with
        | None => None
        | Some expense =>
            match prefill db expense with
            | None => None
            | Some _ =>
                match act with
                | PressUpdate d a c ds t p r =>
                    let '(db', ok) :=
                      update_expense now db user_id expense_id
                        (PyDatetime.strftime_Ymd d) a c ds t p r in
                    Some (db', if ok then ExpenseUpdated else UpdateFailed)
                | PressDelete =>
                    let '(db', ok) := delete_expense db user_id expense_id in
                    Some (db', if ok then ExpenseDeleted else DeleteFailed)
                | PressNothing => Some (db, NoEditMessage)
                end
            end
        end
      else if negb (expense_id =? 0)%Z then Some (db, IdNotFound)
      else Some (db, NoEditMessage)
  end.

End EditForm.

(** The amount widget of the edit form has [min_value=0.01]. *)
Definition in_widget_range (act : edit_action) : Prop :=
  match act with
  | PressUpdate _ a _ _ _ _ _ => (1 # 100 <= a)%Q
  | _ => True
  end.

(** ** The metrics of [render_dashboard], before they are formatted *)
Record metrics := mkMetrics
  { this_month : Q;
    delta : option Q;
    last_month : Q;
    transactions : Z;
    avg_transaction : Q }.

Definition dashboard_metrics (today : PyDatetime.datetime) (db : database)
  (user_id : Z) : metrics :=
  let '(current_total, last_total, current_count) :=
    get_monthly_summary today db user_id in
  mkMetrics current_total
    (if Sqlite.real_ltb 0 last_total
     then Some (current_total - last_total)%Q else None)
    last_total current_count
    (if (0 <? current_count)%Z
     then (current_total / inject_Z current_count)%Q else 0%Q).

(** The period choice of the "Category Analysis" report and the query it
    runs. *)
Definition period_days (period : string) : Z :=
  if String.eqb period "Last 30 days" then 30
  else if String.eqb period "Last 3 months" then 90
  else if String.eqb period "Last 6 months" then 180
  else 365.

Definition category_analysis (today : PyDatetime.datetime) (db : database)
  (user_id : Z) (period : string) : option (list (string * Q * Z)) :=
  get_category_spending today db user_id (period_days period).

(** [x] may stand before [y] in the order of an ORDER BY. *)
Definition in_order {A} (before : A -> A -> bool) (x y : A) : Prop :=
  before x y = true.

(** The sum of a list of counts. *)
Definition sumZ (l : list Z) : Z := fold_right Z.add 0%Z l.

(** The rows [get_category_spending] groups: those of the user dated
    [start_date] or later, as texts compare. *)
Definition rows_since (user_id : Z) (start_date : string)
  (es : list Expense.t) : list Expense.t :=
  filter (fun e => (Expense.user_id e =? user_id)%Z
                   && String.leb start_date (Expense.date e)) es.

(** ** Definitions used by the date order proofs *)

(** The month and day of the [n]-th day (from 0) of a year, as the tail of
    [_ord2ymd] computes them. *)
Definition doy2md (leapyear : bool) (n : Z) : Z * Z :=
  let m := Z.shiftr (n + 50) 5 in
  let preceding :=
    (PyDatetime._DAYS_BEFORE_MONTH m
     + (if (2 <? m) && leapyear then 1 else 0))%Z in
  if (n <? preceding)%Z then
    let m' := (m - 1)%Z in
    let preceding' :=
      (preceding
       - (PyDatetime._DAYS_IN_MONTH m'
          + (if (m' =? 2) && leapyear then 1 else 0)))%Z in
    (m', n - preceding' + 1)%Z
  else (m, n - preceding + 1)%Z.

(** [doy2md] lands in a month of the year, on one of its days, on the
    [n]-th day of the year. *)
Definition doy_ok (leapyear : bool) (n : Z) : bool :=
  let '(m, d) := doy2md leapyear n in
  ((1 <=? m) && (m <=? 12) && (1 <=? d)
   && (d <=? PyDatetime._DAYS_IN_MONTH m
             + (if (m =? 2) && leapyear then 1 else 0))
   && (PyDatetime._DAYS_BEFORE_MONTH m
       + (if (2 <? m) && leapyear then 1 else 0) + d =? n + 1))%Z.

(** A test on [k] successive integers from [n]. *)
Fixpoint all_from (P : Z -> bool) (k : nat) (n : Z) : bool :=
  match k with
  | O => true
  | S k' => P n && all_from P k' (n + 1)%Z
  end.

(** The order of two dates by year, then month, then day. *)
Definition date_compare (a b : PyDatetime.datetime) : comparison :=
  match (PyDatetime.year a ?= PyDatetime.year b)%Z with
  | Eq =>
      match (PyDatetime.month a ?= PyDatetime.month b)%Z with
      | Eq => (PyDatetime.day a ?= PyDatetime.day b)%Z
      | o => o
      end
  | o => o
  end.

Definition comparison_eqb (x y : comparison) : bool :=
  match x, y with
  | Eq, Eq | Lt, Lt | Gt, Gt => true
  | _, _ => false
  end.

(** Two-digit texts compare as their numbers. *)
Definition pad2_compare_ok (u v : Z) : bool :=
  comparison_eqb (String.compare (PyDatetime.pad2 u) (PyDatetime.pad2 v))
    (u ?= v)%Z.

(** Evaluates the month tables at a given month. *)
Ltac month_tables :=
  cbv [PyDatetime._DAYS_BEFORE_MONTH PyDatetime._DAYS_IN_MONTH Z.eqb Z.ltb
       Z.compare Pos.eqb Pos.compare Pos.compare_cont andb].

(** ** Invariants of the stored keys *)

(** [db'] holds the users and expenses of [db], with their key counters. *)
Definition same_user_data (db db' : database) : Prop :=
  users db' = users db /\ expenses db' = expenses db
  /\ seq_users db' = seq_users db /\ seq_expenses db' = seq_expenses db.


(** The keys of the expenses table are distinct and none exceeds the
    table's [sqlite_sequence] entry. *)
Definition expense_keys_ok (db : database) : Prop :=
  NoDup (map Expense.id (expenses db))
  /\ (0 <= seq_expenses db)%Z
  /\ Forall (fun i => (1 <= i <= seq_expenses db)%Z)
       (map Expense.id (expenses db)).

(** Usernames are distinct, user keys are distinct and positive. *)
Definition users_ok (db : database) : Prop :=
  NoDup (map User.username (users db))
  /\ NoDup (map User.id (users db))
  /\ (0 <= seq_users db)%Z
  /\ Forall (fun i => (1 <= i <= seq_users db)%Z) (map User.id (users db)).

(** The database the four [CREATE TABLE IF NOT EXISTS] leave. *)
Definition with_tables (db : database) : database :=
  create_table_if_not_exists InitDb.payment_methods_table
    (create_table_if_not_exists InitDb.categories_table
       (create_table_if_not_exists InitDb.expenses_table
          (create_table_if_not_exists InitDb.users_table db))).

(** A stored table with the name of [t] is [t] itself. *)
Definition stored_as_created (db : database) (t : Schema.table) : Prop :=
  forall t', In t' (schema db) ->
             Schema.tbl_name t' = Schema.tbl_name t -> t' = t.

(** The file [init_db] finds, if there is one, holds the reference tables
    as the application creates them. *)
Definition reference_tables_as_created (file : option database) : Prop :=
  match file with
  | None => True
  | Some db =>
      stored_as_created db InitDb.categories_table
      /\ stored_as_created db InitDb.payment_methods_table
  end.

(** The four tables exist and the reference tables are seeded. *)
Definition initialised (db : database) : Prop :=
  has_table db "users" = true /\ has_table db "expenses" = true
  /\ has_table db "categories" = true
  /\ has_table db "payment_methods" = true
  /\ categories db <> [] /\ payment_methods db <> [].

(** The condition [render_expense_list] puts on a row once "Apply Filters"
    was pressed. *)
Definition passes_filters (f : filters) (e : Expense.t) : bool :=
  (String.eqb (category_filter f) "All"
   || String.eqb (Expense.category e) (category_filter f))
  && (String.eqb (payment_filter f) "All"
      || String.eqb (Expense.payment_method e) (payment_filter f))
  && match date_from f with
     | Some d => String.leb (PyDatetime.strftime_Ymd d) (Expense.date e)
     | None => true
     end
  && match date_to f with
     | Some d => String.leb (Expense.date e) (PyDatetime.strftime_Ymd d)
     | None => true
     end
  && (negb (Sqlite.real_ltb 0 (min_amount f))
      || Qle_bool (min_amount f) (Expense.amount e))
  && (negb (Sqlite.real_ltb 0 (max_amount f))
      || Qle_bool (Expense.amount e) (max_amount f)).

(** ** Definitions used by the calendar proofs *)

(** A date moved by [q] cycles of 400 years. *)
Definition shift_year (q : Z) (t : Z * Z * Z) : Z * Z * Z :=
  let '(y, m, d) := t in (y + 400 * q, m, d)%Z.

(** The day before the first of month [m] of year [y] lies in the calendar
    month before it. *)
Definition month_before_ok (y m : Z) : bool :=
  let '(y', m', _) := PyDatetime._ord2ymd (PyDatetime._ymd2ord y m 1 - 1) in
  let '(py, pm) := PyDatetime.preceding_month (PyDatetime.mkdate y m 1) in
  ((y' =? py) && (m' =? pm))%Z.

(** A test on every month of [n] successive years. *)
Definition all_months (P : Z -> Z -> bool) (y : Z) : bool :=
  forallb (P y) [1; 2; 3; 4; 5; 6; 7; 8; 9; 10; 11; 12]%Z.

Fixpoint all_years (P : Z -> Z -> bool) (n : nat) (y : Z) : bool :=
  match n with
  | O => true
  | S n' => all_months P y && all_years P n' (y + 1)%Z
  end.

(** Every stored expense has a positive amount. *)
Definition amounts_positive (db : database) : Prop :=
  Forall (fun e => (0 < Expense.amount e)%Q) (expenses db).

(** The columns of a seeded row that the seeding statements supply. *)
Definition category_values (c : Category.t) : string * Q * string * string :=
  (Category.name c, Category.budget c, Category.color c, Category.icon c).

Definition payment_values (p : PaymentMethod.t) : string * string :=
  (PaymentMethod.name p, PaymentMethod.type p).

(** The sum of a list of amounts. *)
Definition total (xs : list Q) : Q := fold_left Qplus xs 0%Q.

(** The bytes of a month key: digits and the hyphen. *)
Definition plain_byte (c : ascii) : bool :=
  let n := nat_of_ascii c in
  ((n =? 45) || ((48 <=? n) && (n <=? 57)))%nat.

Definition plain_key (s : string) : bool :=
  forallb plain_byte (list_ascii_of_string s).

(** The rows of [user_id] whose date text starts with [key]. *)
Definition rows_with_prefix (user_id : Z) (key : string)
  (es : list Expense.t) : list Expense.t :=
  filter (fun e => (Expense.user_id e =? user_id)%Z
                   && String.prefix key (Expense.date e)) es.

(** What [user_id] spent in the month [key] on the category [name]: the
    total of the rows whose date text starts with [key] and whose category
    text equals [name]. *)
Definition spent_in_month (user_id : Z) (key name : string)
  (es : list Expense.t) : Q :=
  total (map Expense.amount
           (filter (fun e => String.eqb (Expense.category e) name)
              (rows_with_prefix user_id key es))).

(** The amounts [user_id] spent in the month [key] on the category
    [name], in the order of the rows. *)
Definition matching_amounts (user_id : Z) (key name : string)
  (es : list Expense.t) : list Q :=
  map Expense.amount
    (filter (fun e => String.eqb (Expense.category e) name)
       (rows_with_prefix user_id key es)).

(** Every stored amount is at least the least positive float64, as a REAL
    that passed CHECK(amount > 0) is. *)
Definition amounts_storable (db : database) : Prop :=
  Forall (fun e => (Pandas.least_positive <= Expense.amount e)%Q)
    (expenses db).

(** ** Sample data *)

(** The database [init_db] creates on first run. *)
Definition seeded_database : database :=
  match InitDb.init_db "2024-03-01 09:00:00" None with
  | Some db => db
  | None => empty_database
  end.

(** The seeded database after one expense of 42.50 on Food by user 1. *)
Definition sample_database : database :=
  fst (add_expense "2024-03-15 12:00:00" seeded_database 1 "2024-03-15"
         (85 # 2) "Food" "" "" "Cash" false).

(** The seeded database with one more category, of budget 0, and one
    expense of user 1 in it. *)
Definition zero_budget_database : database :=
  let db :=
    match insert_category "2024-03-02 09:00:00"
            ("Gifts", 0%Q, "#FFFFFF", "G") seeded_database with
    | Some d => d
    | None => seeded_database
    end in
  fst (add_expense "2024-03-15 12:00:00" db 1 "2024-03-15" 20 "Gifts" "" ""
         "Cash" false).


(** The seeded database after "alice" and "bob" registered, with a stand-in
    for the hash. *)
Definition sample_hash (p : string) : string := ("sha256:" ++ p)%string.

Definition two_account_database : database :=
  fst (register_form sample_hash "2024-03-01 10:05:00"
         (fst (register_form sample_hash "2024-03-01 10:00:00"
                 seeded_database "alice" "secret" "secret"))
         "bob" "hunter2" "hunter2").

(** The sample database after user 2 added an expense too. *)
Definition two_user_database : database :=
  fst (add_expense "2024-03-16 18:30:00" sample_database 2 "2024-03-16"
         (25 # 1) "Transportation" "taxi" "" "Cash" false).

(** * Properties *)

(** ** The Gregorian calendar repeats every 400 years *)
Section Calendar.
Import PyDatetime.
Local Open Scope Z_scope.

Lemma days_before_year_shift (y q : Z) :
  _days_before_year (y + 400 * q) = _days_before_year y + 146097 * q.
Proof.
  unfold _days_before_year. cbv zeta.
  replace (y + 400 * q - 1) with (y - 1 + 400 * q) by ring.
  replace ((y - 1 + 400 * q) / 4) with ((y - 1) / 4 + 100 * q)
    by (replace (400 * q) with (100 * q * 4) by ring;
        now rewrite Z.div_add).
  replace ((y - 1 + 400 * q) / 100) with ((y - 1) / 100 + 4 * q)
    by (replace (400 * q) with (4 * q * 100) by ring;
        now rewrite Z.div_add).
  replace ((y - 1 + 400 * q) / 400) with ((y - 1) / 400 + q)
    by (replace (400 * q) with (q * 400) by ring;
        now rewrite Z.div_add).
  ring.
Qed.

Lemma is_leap_shift (y q : Z) : _is_leap (y + 400 * q) = _is_leap y.
Proof.
  unfold _is_leap.
  replace ((y + 400 * q) mod 4) with (y mod 4)
    by (replace (400 * q) with (100 * q * 4) by ring;
        now rewrite Z_mod_plus_full).
  replace ((y + 400 * q) mod 100) with (y mod 100)
    by (replace (400 * q) with (4 * q * 100) by ring;
        now rewrite Z_mod_plus_full).
  replace ((y + 400 * q) mod 400) with (y mod 400)
    by (replace (400 * q) with (q * 400) by ring;
        now rewrite Z_mod_plus_full).
  reflexivity.
Qed.

Lemma ymd2ord_shift (y m d q : Z) :
  _ymd2ord (y + 400 * q) m d = _ymd2ord y m d + 146097 * q.
Proof.
  unfold _ymd2ord, _days_before_month.
  rewrite days_before_year_shift, is_leap_shift. ring.
Qed.

Lemma ord2ymd_shift (n q : Z) :
  _ord2ymd (n + 146097 * q) = shift_year q (_ord2ymd n).
Proof.
  unfold _ord2ymd, _DI400Y. cbv zeta.
  replace (n + 146097 * q - 1) with (n - 1 + q * 146097) by ring.
  rewrite Z.div_add by discriminate. rewrite Z_mod_plus_full.
  set (r := (n - 1) mod 146097).
  destruct ((r mod _DI100Y mod _DI4Y / 365 =? 4) || (r / _DI100Y =? 4)).
  - unfold shift_year. f_equal. f_equal. ring.
  - match goal with |- (if ?c then _ else _) = _ => destruct c end;
      unfold shift_year; f_equal; f_equal; ring.
Qed.

Lemma all_months_spec (P : Z -> Z -> bool) (y m : Z) :
  all_months P y = true -> 1 <= m <= 12 -> P y m = true.
Proof.
  unfold all_months. rewrite forallb_forall. intros H Hm. apply H.
  assert (m = 1 \/ m = 2 \/ m = 3 \/ m = 4 \/ m = 5 \/ m = 6 \/ m = 7
          \/ m = 8 \/ m = 9 \/ m = 10 \/ m = 11 \/ m = 12) as Hcases
    by lia.
  simpl. intuition auto.
Qed.

Lemma all_years_spec (P : Z -> Z -> bool) (n : nat) :
  forall y0, all_years P n y0 = true ->
  forall y m, y0 <= y < y0 + Z.of_nat n -> 1 <= m <= 12 ->
  P y m = true.
Proof.
  induction n as [|n IH]; intros y0 H y m Hy Hm.
  - simpl in Hy. lia.
  - cbn [all_years] in H. apply andb_true_iff in H as [H0 H1].
    destruct (Z.eq_dec y y0) as [->|Hne].
    + now apply all_months_spec.
    + apply (IH (y0 + 1) H1); lia.
Qed.

(** One full cycle, years 1 to 400, by evaluation. *)
Lemma one_cycle_ok : all_years month_before_ok 400 1 = true.
Proof. vm_compute. reflexivity. Qed.

Lemma month_before_ok_cycle (y m : Z) :
  1 <= y <= 400 -> 1 <= m <= 12 -> month_before_ok y m = true.
Proof.
  intros Hy Hm.
  apply (all_years_spec month_before_ok 400 1 one_cycle_ok); lia.
Qed.

Lemma month_before_ok_shift (y m q : Z) :
  month_before_ok y m = true -> month_before_ok (y + 400 * q) m = true.
Proof.
  unfold month_before_ok.
  rewrite ymd2ord_shift.
  replace (_ymd2ord y m 1 + 146097 * q - 1)
    with (_ymd2ord y m 1 - 1 + 146097 * q) by ring.
  rewrite ord2ymd_shift.
  destruct (_ord2ymd (_ymd2ord y m 1 - 1)) as [[y' m'] d'].
  unfold shift_year, preceding_month. cbn [year month].
  destruct (m =? 1); rewrite !andb_true_iff, !Z.eqb_eq; lia.
Qed.

Lemma month_before_ok_all (y m : Z) :
  1 <= m <= 12 -> month_before_ok y m = true.
Proof.
  intros Hm.
  replace y with (((y - 1) mod 400 + 1) + 400 * ((y - 1) / 400))
    by (pose proof (Z.div_mod (y - 1) 400); lia).
  apply month_before_ok_shift, month_before_ok_cycle; [|exact Hm].
  pose proof (Z.mod_pos_bound (y - 1) 400). lia.
Qed.

Lemma days_in_month_pos (y m : Z) : 1 <= m <= 12 -> 28 <= _days_in_month y m.
Proof.
  intros Hm. unfold _days_in_month.
  destruct ((m =? 2) && _is_leap y); [lia|].
  assert (m = 1 \/ m = 2 \/ m = 3 \/ m = 4 \/ m = 5 \/ m = 6 \/ m = 7
          \/ m = 8 \/ m = 9 \/ m = 10 \/ m = 11 \/ m = 12) as Hcases by lia.
  repeat (destruct Hcases as [->|Hcases]; [simpl; lia|]). subst; simpl; lia.
Qed.

Lemma days_before_month_bounds (y m : Z) :
  1 <= m <= 12 ->
  0 <= _days_before_month y m <= 335
  /\ (2 <= m -> 31 <= _days_before_month y m).
Proof.
  intros Hm. unfold _days_before_month.
  assert (m = 1 \/ m = 2 \/ m = 3 \/ m = 4 \/ m = 5 \/ m = 6 \/ m = 7
          \/ m = 8 \/ m = 9 \/ m = 10 \/ m = 11 \/ m = 12) as Hcases by lia.
  repeat (destruct Hcases as [->|Hcases];
          [destruct (_is_leap y); simpl; lia|]).
  subst; destruct (_is_leap y); simpl; lia.
Qed.

Lemma days_before_year_bounds (y : Z) :
  1 <= y <= 9999 ->
  365 * (y - 1) <= _days_before_year y <= 3651694.
Proof.
  intros Hy. unfold _days_before_year. cbv zeta.
  Z.div_mod_to_equations. lia.
Qed.

Lemma first_ordinal_range (y m : Z) :
  1 <= y <= 9999 -> 1 <= m <= 12 -> (y, m) <> (1, 1) ->
  1 <= _ymd2ord y m 1 - 1 <= _MAXORDINAL.
Proof.
  intros Hy Hm Hne.
  pose proof (days_before_year_bounds y Hy) as Hby.
  pose proof (days_before_month_bounds y m Hm) as [Hbm Hbm2].
  unfold _ymd2ord, _MAXORDINAL.
  generalize dependent (_days_before_year y).
  generalize dependent (_days_before_month y m).
  intros dm Hdm Hdm2 dy Hdy.
  destruct (Z.eq_dec y 1) as [->|Hy1]; [|lia].
  assert (2 <= m) as H2 by (destruct (Z.eq_dec m 1); [congruence|lia]).
  specialize (Hdm2 H2). lia.
Qed.

Lemma sub_days_in_range (t : datetime) (n : Z) :
  1 <= toordinal t - n <= _MAXORDINAL ->
  sub_days t n
  = Some (let '(y, m, d) := _ord2ymd (toordinal t - n) in mkdate y m d).
Proof.
  intros [Hlo Hhi]. unfold sub_days.
  apply Z.leb_le in Hlo, Hhi. rewrite Hlo, Hhi.
  destruct (_ord2ymd (toordinal t - n)) as [[y m] d]. reflexivity.
Qed.

Lemma month_before_ok_elim (y m : Z) :
  month_before_ok y m = true ->
  exists d,
    _ord2ymd (_ymd2ord y m 1 - 1)
    = (fst (preceding_month (mkdate y m 1)),
       snd (preceding_month (mkdate y m 1)), d).
Proof.
  unfold month_before_ok.
  destruct (_ord2ymd (_ymd2ord y m 1 - 1)) as [[y' m'] d'].
  destruct (preceding_month (mkdate y m 1)) as [py pm].
  intros H. apply andb_true_iff in H as [H1 H2].
  apply Z.eqb_eq in H1, H2. subst. exists d'. reflexivity.
Qed.

Lemma first_of_month_minus_one (y m : Z) :
  1 <= y <= 9999 -> 1 <= m <= 12 -> (y, m) <> (1, 1) ->
  exists d,
    sub_days (mkdate y m 1) 1
    = Some (mkdate (fst (preceding_month (mkdate y m 1)))
              (snd (preceding_month (mkdate y m 1))) d).
Proof.
  intros Hy Hm Hne.
  destruct (month_before_ok_elim y m (month_before_ok_all y m Hm)) as [d Hd].
  exists d.
  rewrite sub_days_in_range
    by (apply (first_ordinal_range y m Hy Hm Hne)).
  change (toordinal (mkdate y m 1)) with (_ymd2ord y m 1).
  rewrite Hd. reflexivity.
Qed.

(** The first valid month has no predecessor: the subtraction overflows. *)
Lemma last_month_key_overflow (d : Z) :
  last_month_key (mkdate 1 1 d) = None.
Proof.
  unfold last_month_key, replace_day. cbn [year month day].
  destruct ((1 <=? 1) && (1 <=? _days_in_month 1 1)); reflexivity.
Qed.

Lemma last_month_key_value (today : datetime) :
  valid today -> (year today, month today) <> (1, 1) ->
  last_month_key today
  = Some (month_key (fst (preceding_month today))
            (snd (preceding_month today))).
Proof.
  intros (Hy & Hm & Hd) Hne.
  unfold last_month_key, replace_day.
  pose proof (days_in_month_pos (year today) (month today) Hm) as Hdim.
  replace ((1 <=? 1) && (1 <=? _days_in_month (year today) (month today)))
    with true by (symmetry; apply andb_true_iff; split; apply Z.leb_le; lia).
  destruct (first_of_month_minus_one (year today) (month today) Hy Hm Hne)
    as [d Hd'].
  rewrite Hd'. reflexivity.
Qed.

Lemma digit_inj (a b : Z) : digit a = digit b -> a mod 10 = b mod 10.
Proof.
  unfold digit. intros H. apply (f_equal nat_of_ascii) in H.
  pose proof (Z.mod_pos_bound a 10) as Ha.
  pose proof (Z.mod_pos_bound b 10) as Hb.
  rewrite !nat_ascii_embedding in H by lia. lia.
Qed.

(** Distinct months of the years 0 to 9999 have distinct keys. *)
Lemma month_key_inj (y1 m1 y2 m2 : Z) :
  0 <= y1 <= 9999 -> 0 <= y2 <= 9999 -> 1 <= m1 <= 12 -> 1 <= m2 <= 12 ->
  month_key y1 m1 = month_key y2 m2 -> y1 = y2 /\ m1 = m2.
Proof.
  intros Hy1 Hy2 Hm1 Hm2. unfold month_key, pad4, pad2.
  cbn [String.append]. intros H.
  injection H as H1 H2 H3 H4 H5 H6.
  apply digit_inj in H1, H2, H3, H4, H5, H6.
  split; Z.div_mod_to_equations; lia.
Qed.

(** C10: for every date the clock can give (a valid [datetime] whose month
    has a predecessor in the range of [datetime]), the key
    [(now.replace(day=1) - timedelta(days=1)).strftime("%Y-%m")] is the
    [YYYY-MM] text of the calendar month just before the current one, and
    of no other month; in January it is December of the year before. *)
Theorem last_month_key_is_preceding_month (today : datetime) :
  valid today -> (year today, month today) <> (1, 1) ->
  last_month_key today
  = Some (month_key (fst (preceding_month today))
            (snd (preceding_month today)))
  /\ (month today = 1 ->
      last_month_key today = Some (month_key (year today - 1) 12))
  /\ (month today <> 1 ->
      last_month_key today
      = Some (month_key (year today) (month today - 1)))
  /\ (forall y m, 0 <= y <= 9999 -> 1 <= m <= 12 ->
      last_month_key today = Some (month_key y m) ->
      (y, m) = preceding_month today).
Proof.
  intros Hv Hne. pose proof (last_month_key_value today Hv Hne) as Hkey.
  split; [exact Hkey|]. destruct Hv as (Hy & Hm & _).
  unfold MINYEAR, MAXYEAR in Hy.
  split; [|split].
  - intros H1. rewrite Hkey. unfold preceding_month. rewrite H1. reflexivity.
  - intros H1. rewrite Hkey. unfold preceding_month.
    apply Z.eqb_neq in H1. rewrite H1. reflexivity.
  - intros y m Hy' Hm' H. rewrite Hkey in H.
    apply (f_equal (fun o => match o with Some k => k | None => ""%string end))
      in H.
    assert (Hp : 0 <= fst (preceding_month today) <= 9999
                 /\ 1 <= snd (preceding_month today) <= 12).
    { unfold preceding_month.
      destruct (Z.eqb_spec (month today) 1); cbn [fst snd]; lia. }
    destruct Hp as [Hpy Hpm].
    destruct (month_key_inj _ _ _ _ Hpy Hy' Hpm Hm' H) as [<- <-].
    now destruct (preceding_month today).
Qed.

Lemma last_month_key_witness :
  last_month_key (mkdate 2024 1 15) = Some "2023-12"%string.
Proof.
  refine (proj1 (proj2 (last_month_key_is_preceding_month
                          (mkdate 2024 1 15) _ _)) _).
  - repeat split; vm_compute; discriminate.
  - vm_compute; discriminate.
  - reflexivity.
Defined.

End Calendar.

(** ** Lists, filters and ORDER BY *)
Section ListFacts.
Context {A : Type}.

Lemma filter_andb (p q : A -> bool) (l : list A) :
  filter (fun x => p x && q x) l = filter q (filter p l).
Proof.
  induction l as [|x l IH]; [reflexivity|].
  simpl. destruct (p x); simpl; [destruct (q x)|]; now rewrite IH.
Qed.

Lemma filter_filter_absorb (p q : A -> bool) (l : list A) :
  (forall x, q x = true -> p x = true) ->
  filter q (filter p l) = filter q l.
Proof.
  intros Hqp. induction l as [|x l IH]; [reflexivity|].
  simpl. destruct (p x) eqn:Hp; simpl.
  - now rewrite IH.
  - destruct (q x) eqn:Hq; [|exact IH].
    apply Hqp in Hq. congruence.
Qed.

Lemma filter_none (p : A -> bool) (l : list A) :
  (forall x, In x l -> p x = false) -> filter p l = [].
Proof.
  induction l as [|x l IH]; intros H; [reflexivity|].
  simpl. rewrite (H x (or_introl eq_refl)). apply IH.
  intros y Hy. apply H. now right.
Qed.

Lemma filter_all (p : A -> bool) (l : list A) :
  (forall x, In x l -> p x = true) -> filter p l = l.
Proof.
  induction l as [|x l IH]; intros H; [reflexivity|].
  simpl. rewrite (H x (or_introl eq_refl)). f_equal. apply IH.
  intros y Hy. apply H. now right.
Qed.

Lemma insert_by_perm (before : A -> A -> bool) (x : A) (l : list A) :
  Permutation (Sqlite.insert_by before x l) (x :: l).
Proof.
  induction l as [|y l IH]; simpl; [reflexivity|].
  destruct (before x y); [reflexivity|].
  rewrite IH. apply perm_swap.
Qed.

Lemma order_by_perm (before : A -> A -> bool) (l : list A) :
  Permutation (Sqlite.order_by before l) l.
Proof.
  induction l as [|x l IH]; simpl; [reflexivity|].
  rewrite insert_by_perm. now constructor.
Qed.

Lemma order_by_In (before : A -> A -> bool) (l : list A) (x : A) :
  In x (Sqlite.order_by before l) <-> In x l.
Proof.
  split; apply Permutation_in;
    [apply order_by_perm | symmetry; apply order_by_perm].
Qed.

Lemma order_by_length (before : A -> A -> bool) (l : list A) :
  List.length (Sqlite.order_by before l) = List.length l.
Proof. apply Permutation_length, order_by_perm. Qed.

End ListFacts.

(** ** C1: ownership isolation *)
Section Ownership.
Local Open Scope Z_scope.

Lemma owned_by_absorb (u : Z) (p : Expense.t -> bool) (es : list Expense.t) :
  (forall e, p e = true -> (Expense.user_id e =? u) = true) ->
  filter p (owned_by u es) = filter p es.
Proof. intros H. unfold owned_by. now apply filter_filter_absorb. Qed.

Lemma in_month_owner (u : Z) (month : string) (e : Expense.t) :
  in_month u month e = true -> (Expense.user_id e =? u) = true.
Proof. unfold in_month. intros H. now apply andb_true_iff in H. Qed.

Lemma joins_owner (c : Category.t) (month : string) (u : Z) (e : Expense.t) :
  joins c month u e = true -> (Expense.user_id e =? u) = true.
Proof. unfold joins. intros H. now apply andb_true_iff in H. Qed.

Lemma get_expenses_owner (db : database) (u : Z)
  (q : option (list clause)) (e : Expense.t) :
  In e (get_expenses db u q) -> Expense.user_id e = u.
Proof.
  unfold get_expenses.
  destruct q as [conds|]; rewrite order_by_In, filter_In; intros [_ H].
  - apply andb_true_iff in H as [H _]. now apply Z.eqb_eq.
  - now apply Z.eqb_eq.
Qed.

Lemma get_expenses_only_rows (db : database) (u : Z)
  (q : option (list clause)) :
  get_expenses (only_rows_of u db) u q = get_expenses db u q.
Proof.
  unfold get_expenses, only_rows_of. cbn [expenses set_expenses].
  destruct q as [conds|]; f_equal; apply owned_by_absorb; intros e H.
  - now apply andb_true_iff in H.
  - exact H.
Qed.

Lemma get_monthly_summary_only_rows (today : PyDatetime.datetime)
  (db : database) (u : Z) :
  get_monthly_summary today (only_rows_of u db) u
  = get_monthly_summary today db u.
Proof.
  unfold get_monthly_summary, only_rows_of. cbn [expenses set_expenses].
  destruct (last_month_key today) as [last|]; [|reflexivity].
  now rewrite !owned_by_absorb by apply in_month_owner.
Qed.

Lemma get_budget_performance_only_rows (today : PyDatetime.datetime)
  (db : database) (u : Z) :
  get_budget_performance today (only_rows_of u db) u
  = get_budget_performance today db u.
Proof.
  unfold get_budget_performance, only_rows_of.
  cbn [expenses categories set_expenses].
  apply map_ext. intros c. unfold budget_row.
  now rewrite owned_by_absorb by apply joins_owner.
Qed.

Lemma get_category_spending_only_rows (today : PyDatetime.datetime)
  (db : database) (u days : Z) :
  get_category_spending today (only_rows_of u db) u days
  = get_category_spending today db u days.
Proof.
  unfold get_category_spending, only_rows_of. cbn [expenses set_expenses].
  destruct (PyDatetime.sub_days today days) as [start|]; [|reflexivity].
  rewrite owned_by_absorb; [reflexivity|].
  intros e H. now apply andb_true_iff in H.
Qed.

Lemma monthly_trends_only_rows (start_of_month : string -> option string)
  (months_ago : Z -> string) (db : database) (u months : Z) :
  monthly_trends start_of_month months_ago (only_rows_of u db) u months
  = monthly_trends start_of_month months_ago db u months.
Proof.
  unfold monthly_trends, only_rows_of. cbn [expenses set_expenses].
  rewrite owned_by_absorb; [reflexivity|].
  intros e H. now apply andb_true_iff in H.
Qed.

Lemma owned_by_update (a b eid : Z) (f : Expense.t -> Expense.t)
  (es : list Expense.t) :
  a <> b ->
  (forall e, Expense.user_id (f e) = Expense.user_id e) ->
  owned_by b (map (fun e => if targets eid a e then f e else e) es)
  = owned_by b es.
Proof.
  intros Hab Hf. unfold owned_by.
  induction es as [|e es IH]; [reflexivity|].
  cbn [map filter]. rewrite IH.
  destruct (targets eid a e) eqn:Ht; [|reflexivity].
  rewrite Hf. unfold targets in Ht.
  apply andb_true_iff in Ht as [_ Hu]. apply Z.eqb_eq in Hu.
  rewrite Hu. destruct (Z.eqb_spec a b); [contradiction|reflexivity].
Qed.

Lemma owned_by_delete (a b eid : Z) (es : list Expense.t) :
  a <> b ->
  owned_by b (filter (fun e => negb (targets eid a e)) es) = owned_by b es.
Proof.
  intros Hab. unfold owned_by.
  induction es as [|e es IH]; [reflexivity|].
  cbn [filter].
  destruct (targets eid a e) eqn:Ht; cbn [negb].
  - rewrite IH. unfold targets in Ht.
    apply andb_true_iff in Ht as [_ Hu]. apply Z.eqb_eq in Hu.
    rewrite Hu. destruct (Z.eqb_spec a b); [contradiction|reflexivity].
  - cbn [filter]. now rewrite IH.
Qed.

(** C1: for distinct users A and B, every row [get_expenses] returns for A
    (with or without filters) has [user_id] A, so none is a row of B; every
    read and every aggregate computed for A is the same on the database
    with all rows of other users removed; and [update_expense] and
    [delete_expense] called for A leave the rows of B as they were. *)
Theorem ownership_isolation (A B : Z) (db : database) :
  A <> B ->
  (forall q e, In e (get_expenses db A q) ->
     Expense.user_id e = A /\ Expense.user_id e <> B)
  /\ (forall f e, In e (render_expense_list db A f) ->
        Expense.user_id e = A /\ Expense.user_id e <> B)
  /\ (forall q,
        get_expenses (only_rows_of A db) A q = get_expenses db A q)
  /\ (forall today,
        get_monthly_summary today (only_rows_of A db) A
        = get_monthly_summary today db A)
  /\ (forall today,
        get_budget_performance today (only_rows_of A db) A
        = get_budget_performance today db A)
  /\ (forall today days,
        get_category_spending today (only_rows_of A db) A days
        = get_category_spending today db A days)
  /\ (forall start_of_month months_ago months,
        monthly_trends start_of_month months_ago (only_rows_of A db) A months
        = monthly_trends start_of_month months_ago db A months)
  /\ (forall now eid d a c ds t p r,
        owned_by B
          (expenses (fst (update_expense now db A eid d a c ds t p r)))
        = owned_by B (expenses db))
  /\ (forall eid,
        owned_by B (expenses (fst (delete_expense db A eid)))
        = owned_by B (expenses db)).
Proof.
  intros Hab.
  assert (Hread : forall q e, In e (get_expenses db A q) ->
                    Expense.user_id e = A /\ Expense.user_id e <> B).
  { intros q e He. apply get_expenses_owner in He. split; congruence. }
  split; [exact Hread|].
  split; [intros f; apply Hread|].
  split; [apply get_expenses_only_rows|].
  split; [intros; apply get_monthly_summary_only_rows|].
  split; [intros; apply get_budget_performance_only_rows|].
  split; [intros; apply get_category_spending_only_rows|].
  split; [intros; apply monthly_trends_only_rows|].
  split.
  - intros now eid d a c ds t p r. unfold update_expense.
    destruct ((0 <? _) && _); [reflexivity|].
    cbn [fst expenses set_expenses].
    now apply owned_by_update.
  - intros eid. unfold delete_expense. cbn [fst expenses set_expenses].
    now apply owned_by_delete.
Qed.

End Ownership.

(** ** Expense CRUD: create, update, delete *)
Section Crud.
Local Open Scope Z_scope.
Local Open Scope list_scope.

Lemma check_amount_true (a : Q) : check_amount a = true <-> (0 < a)%Q.
Proof.
  unfold check_amount, Sqlite.real_ltb. rewrite negb_true_iff.
  split; intros H.
  - apply Qnot_le_lt. intros Hle. apply Qle_bool_iff in Hle. congruence.
  - destruct (Qle_bool a 0) eqn:E; [|reflexivity].
    apply Qle_bool_iff in E. exfalso. exact (Qlt_not_le _ _ H E).
Qed.

Lemma check_amount_false (a : Q) : check_amount a = false <-> (a <= 0)%Q.
Proof.
  split; intros H.
  - apply Qnot_lt_le. intros Hlt. apply check_amount_true in Hlt. congruence.
  - destruct (check_amount a) eqn:E; [|reflexivity].
    apply check_amount_true in E. exfalso. exact (Qlt_not_le _ _ E H).
Qed.

Lemma set_expenses_same (db : database) :
  set_expenses db (expenses db) (seq_expenses db) = db.
Proof. destruct db; reflexivity. Qed.

Lemma max_key_bound (seq : Z) (ids : list Z) :
  seq <= fold_right Z.max seq ids
  /\ forall i, In i ids -> i <= fold_right Z.max seq ids.
Proof.
  induction ids as [|j ids [IHs IHi]]; simpl.
  - split; [lia|intros i []].
  - split; [lia|]. intros i [->|Hi]; [lia|]. specialize (IHi i Hi). lia.
Qed.

(** AUTOINCREMENT never hands out a key the table holds. *)
Lemma next_rowid_fresh (seq : Z) (ids : list Z) :
  ~ In (next_rowid seq ids) ids /\ seq < next_rowid seq ids.
Proof.
  unfold next_rowid. destruct (max_key_bound seq ids) as [Hs Hi].
  split; [|lia]. intros Hin. specialize (Hi _ Hin). lia.
Qed.

Lemma owned_by_app (u : Z) (l1 l2 : list Expense.t) :
  owned_by u (l1 ++ l2) = owned_by u l1 ++ owned_by u l2.
Proof. apply filter_app. Qed.

Lemma order_by_snoc_perm {A} (before : A -> A -> bool) (l : list A) (x : A) :
  Permutation (Sqlite.order_by before (l ++ [x]))
    (x :: Sqlite.order_by before l).
Proof.
  rewrite !order_by_perm. rewrite Permutation_app_comm. reflexivity.
Qed.

(** C3: for every user and every input with amount > 0, [add_expense]
    succeeds, and reading that user's expenses afterwards returns the rows
    read before plus exactly one new row; the new row carries the supplied
    values, and its id is none of the ids stored before the call. *)
Theorem add_expense_then_read (now : string) (db : database) (u : Z)
  (d : string) (a : Q) (c ds t p : string) (r : bool) :
  (0 < a)%Q ->
  let k := next_rowid (seq_expenses db) (map Expense.id (expenses db)) in
  let row := Expense.mk k u d a c ds t p r now now in
  let db' := fst (add_expense now db u d a c ds t p r) in
  snd (add_expense now db u d a c ds t p r) = true
  /\ Permutation (get_expenses db' u None) (row :: get_expenses db u None)
  /\ List.length (get_expenses db' u None)
     = S (List.length (get_expenses db u None))
  /\ ~ In (Expense.id row) (map Expense.id (expenses db)).
Proof.
  intros Ha k row db'. subst db'. unfold add_expense.
  apply check_amount_true in Ha. rewrite Ha. cbn [fst snd].
  fold k. fold row.
  assert (Hperm : Permutation
                    (get_expenses
                       (set_expenses db (expenses db ++ [row]) k) u None)
                    (row :: get_expenses db u None)).
  { unfold get_expenses. cbn [expenses set_expenses].
    change (filter (fun e => Expense.user_id e =? u)) with (owned_by u).
    rewrite owned_by_app. unfold owned_by at 2. cbn [filter].
    unfold row at 1. cbn [Expense.user_id]. rewrite Z.eqb_refl.
    apply order_by_snoc_perm. }
  split; [reflexivity|].
  split; [exact Hperm|].
  split; [exact (Permutation_length Hperm)|].
  apply next_rowid_fresh.
Qed.

Lemma no_target_filter (eid u : Z) (es : list Expense.t) :
  (~ exists x, In x es /\ Expense.id x = eid /\ Expense.user_id x = u) ->
  forall x, In x es -> targets eid u x = false.
Proof.
  intros Hno x Hx. destruct (targets eid u x) eqn:Ht; [|reflexivity].
  exfalso. apply Hno. exists x. unfold targets in Ht.
  apply andb_true_iff in Ht as [H1 H2]. apply Z.eqb_eq in H1, H2. auto.
Qed.

Lemma target_count_pos (eid u : Z) (es : list Expense.t) :
  (exists x, In x es /\ Expense.id x = eid /\ Expense.user_id x = u) ->
  (0 <? Sqlite.COUNT (filter (targets eid u) es)) = true.
Proof.
  intros (x & Hx & Hi & Hu). apply Z.ltb_lt. unfold Sqlite.COUNT.
  assert (In x (filter (targets eid u) es)) as Hin.
  { apply filter_In. split; [exact Hx|]. unfold targets.
    now rewrite Hi, Hu, !Z.eqb_refl. }
  destruct (filter (targets eid u) es); [destruct Hin|simpl; lia].
Qed.

Lemma map_untargeted {eid u : Z} (f : Expense.t -> Expense.t)
  (es : list Expense.t) :
  (forall x, In x es -> targets eid u x = false) ->
  map (fun e => if targets eid u e then f e else e) es = es.
Proof.
  intros H. rewrite <- (map_id es) at 2. apply map_ext_in.
  intros x Hx. now rewrite (H x Hx).
Qed.

(** The converse half of C4 fails as stated: the row with id 1 of user 1
    exists, and an update of it to amount 0 reports failure. *)
Lemma update_of_existing_row_can_report_failure :
  (exists x, In x (expenses sample_database)
             /\ Expense.id x = 1 /\ Expense.user_id x = 1)
  /\ snd (update_expense "2024-03-16 08:00:00" sample_database 1 1
            "2024-03-15" 0 "Food" "" "" "Cash" false) = false.
Proof.
  split; [|vm_compute; reflexivity].
  exists (Expense.mk 1 1 "2024-03-15" (85 # 2) "Food" "" "" "Cash" false
            "2024-03-15 12:00:00" "2024-03-15 12:00:00").
  split; [vm_compute; left; reflexivity|]. split; reflexivity.
Qed.

(** C4 (amended): when no expense row has id [eid] and owner [u],
    [update_expense] and [delete_expense] leave the database as it was and
    return False.  When such a row exists, [delete_expense] returns True,
    and [update_expense] returns True when the new amount is positive; with
    a new amount <= 0 the CHECK rejects the statement, the database stays
    as it was and the result is False. *)
Theorem update_delete_report (now : string) (db : database) (u eid : Z)
  (d : string) (a : Q) (c ds t p : string) (r : bool) :
  ((~ exists x, In x (expenses db)
                /\ Expense.id x = eid /\ Expense.user_id x = u) ->
   update_expense now db u eid d a c ds t p r = (db, false)
   /\ delete_expense db u eid = (db, false))
  /\ ((exists x, In x (expenses db)
                 /\ Expense.id x = eid /\ Expense.user_id x = u) ->
      snd (delete_expense db u eid) = true
      /\ ((0 < a)%Q -> snd (update_expense now db u eid d a c ds t p r) = true)
      /\ ((a <= 0)%Q ->
          update_expense now db u eid d a c ds t p r = (db, false))).
Proof.
  split.
  - intros Hno. pose proof (no_target_filter eid u _ Hno) as Hnone.
    unfold update_expense, delete_expense.
    rewrite (filter_none _ _ Hnone). cbn [Sqlite.COUNT List.length Z.of_nat].
    cbn [Z.ltb Z.compare andb].
    rewrite (map_untargeted _ _ Hnone).
    rewrite filter_all
      by (intros x Hx; now rewrite (Hnone x Hx)).
    now rewrite set_expenses_same.
  - intros Hex. pose proof (target_count_pos eid u _ Hex) as Hpos.
    unfold update_expense, delete_expense. rewrite Hpos. cbn [snd andb].
    split; [reflexivity|]. split.
    + intros Ha. apply check_amount_true in Ha. rewrite Ha. reflexivity.
    + intros Ha. apply check_amount_false in Ha. rewrite Ha. reflexivity.
Qed.

Lemma update_fresh_row (k u : Z) (f : Expense.t -> Expense.t)
  (es : list Expense.t) (row : Expense.t) :
  ~ In k (map Expense.id es) ->
  Expense.id row = k -> Expense.user_id row = u ->
  map (fun e => if targets k u e then f e else e) (es ++ [row])
  = es ++ [f row].
Proof.
  intros Hfresh Hk Hu. rewrite map_app. f_equal.
  - apply map_untargeted. intros x Hx. unfold targets.
    destruct (Z.eqb_spec (Expense.id x) k) as [E|]; [|reflexivity].
    exfalso. apply Hfresh. rewrite <- E. now apply in_map.
  - cbn [map]. unfold targets. now rewrite Hk, Hu, !Z.eqb_refl.
Qed.

(** C7 fails as stated: an expense created and then updated while
    CURRENT_TIMESTAMP reads the same second keeps its [updated_at]. *)
Lemma update_in_same_second_keeps_updated_at :
  let created :=
    fst (add_expense "2024-03-15 12:00:00" seeded_database 1 "2024-03-15"
           (85 # 2) "Food" "" "" "Cash" false) in
  let updated :=
    update_expense "2024-03-15 12:00:00" created 1 1 "2024-03-16" 60
      "Shopping" "shoes" "gift" "Credit Card" true in
  snd updated = true
  /\ map Expense.updated_at (get_expenses created 1 None)
     = ["2024-03-15 12:00:00"%string]
  /\ map Expense.updated_at (get_expenses (fst updated) 1 None)
     = ["2024-03-15 12:00:00"%string].
Proof. vm_compute. repeat split. Qed.

(** C7 (amended): an expense created by [add_expense] and then changed by
    a successful [update_expense] is read back once, with the new field
    values, its [created_at] kept and its [updated_at] set to
    CURRENT_TIMESTAMP of the update; the other rows read are those read
    before.  ([updated_at] therefore changes when the two clock readings
    differ.) *)
Theorem create_update_read (t1 t2 : string) (db : database) (u : Z)
  (d : string) (a : Q) (c ds t p : string) (r : bool)
  (d' : string) (a' : Q) (c' ds' t' p' : string) (r' : bool) :
  (0 < a)%Q ->
  let k := next_rowid (seq_expenses db) (map Expense.id (expenses db)) in
  let db1 := fst (add_expense t1 db u d a c ds t p r) in
  snd (update_expense t2 db1 u k d' a' c' ds' t' p' r') = true ->
  let db2 := fst (update_expense t2 db1 u k d' a' c' ds' t' p' r') in
  let new := Expense.mk k u d' a' c' ds' t' p' r' t1 t2 in
  In new (get_expenses db2 u None)
  /\ (forall e, In e (get_expenses db2 u None) -> Expense.id e = k ->
        e = new)
  /\ Permutation (get_expenses db2 u None) (new :: get_expenses db u None)
  /\ (forall e, In e (get_expenses db1 u None) -> Expense.id e = k ->
        Expense.updated_at e = t1)
  /\ (t2 <> t1 ->
      forall e, In e (get_expenses db2 u None) -> Expense.id e = k ->
        Expense.updated_at e <> t1).
Proof.
  intros Ha k db1 Hok db2 new.
  destruct (next_rowid_fresh (seq_expenses db) (map Expense.id (expenses db)))
    as [Hfresh _]. fold k in Hfresh.
  set (row := Expense.mk k u d a c ds t p r t1 t1).
  assert (Hdb1 : db1 = set_expenses db (expenses db ++ [row]) k).
  { subst db1. unfold add_expense.
    apply check_amount_true in Ha. now rewrite Ha. }
  assert (Hrows1 : expenses db1 = expenses db ++ [row])
    by (now rewrite Hdb1).
  assert (Hhit : exists x, In x (expenses db1)
                           /\ Expense.id x = k /\ Expense.user_id x = u).
  { exists row. rewrite Hrows1, in_app_iff. simpl. auto. }
  pose proof (target_count_pos k u _ Hhit) as Hpos.
  assert (Hrows2 : expenses db2 = expenses db ++ [new]).
  { subst db2. revert Hok. unfold update_expense. rewrite Hpos.
    destruct (check_amount a'); cbn [negb andb snd fst];
      [intros _|discriminate].
    cbn [expenses set_expenses]. rewrite Hrows1.
    now rewrite update_fresh_row. }
  assert (Hperm : Permutation (get_expenses db2 u None)
                    (new :: get_expenses db u None)).
  { unfold get_expenses. rewrite Hrows2.
    change (filter (fun e => Expense.user_id e =? u)) with (owned_by u).
    rewrite owned_by_app. unfold owned_by at 2. cbn [filter].
    unfold new at 1. cbn [Expense.user_id]. rewrite Z.eqb_refl.
    apply order_by_snoc_perm. }
  assert (Honly : forall e, In e (get_expenses db2 u None) ->
                    Expense.id e = k -> e = new).
  { intros e He Hk. apply (Permutation_in _ Hperm) in He.
    destruct He as [<-|He]; [reflexivity|].
    exfalso. apply Hfresh. rewrite <- Hk. apply in_map.
    unfold get_expenses in He. rewrite order_by_In in He.
    now apply filter_In in He. }
  split; [apply (Permutation_in _ (Permutation_sym Hperm)); now left|].
  split; [exact Honly|].
  split; [exact Hperm|].
  split.
  { intros e He Hk. unfold get_expenses in He.
    rewrite order_by_In, filter_In, Hrows1, in_app_iff in He.
    destruct He as [[He|[<-|[]]] _]; [|reflexivity].
    exfalso. apply Hfresh. rewrite <- Hk. now apply in_map. }
  intros Hclock e He Hk. rewrite (Honly e He Hk). exact Hclock.
Qed.

End Crud.

(** ** C8: stored amounts are positive *)
Section PositiveAmounts.
Local Open Scope list_scope.

Lemma add_expense_positive (now : string) (db : database) (u : Z)
  (d : string) (a : Q) (c ds t p : string) (r : bool) :
  amounts_positive db ->
  amounts_positive (fst (add_expense now db u d a c ds t p r)).
Proof.
  intros H. unfold add_expense.
  destruct (check_amount a) eqn:Ha; [|exact H].
  unfold amounts_positive. cbn [fst expenses set_expenses].
  apply Forall_app. split; [exact H|].
  constructor; [|constructor]. now apply check_amount_true.
Qed.

Lemma add_expense_rejects (now : string) (db : database) (u : Z)
  (d : string) (a : Q) (c ds t p : string) (r : bool) :
  (a <= 0)%Q -> add_expense now db u d a c ds t p r = (db, false).
Proof.
  intros Ha. unfold add_expense.
  apply check_amount_false in Ha. now rewrite Ha.
Qed.

Lemma render_add_expense_rejects (now : string) (db : database) (u : Z)
  (d : PyDatetime.datetime) (a : Q) (c p ds t : string) (r : bool) :
  (a <= 0)%Q ->
  render_add_expense now db u d a c p ds t r = (db, AmountMustBePositive).
Proof.
  intros Ha. unfold render_add_expense.
  apply check_amount_false in Ha. unfold check_amount in Ha. now rewrite Ha.
Qed.

Lemma render_add_expense_positive (now : string) (db : database) (u : Z)
  (d : PyDatetime.datetime) (a : Q) (c p ds t : string) (r : bool) :
  amounts_positive db ->
  amounts_positive (fst (render_add_expense now db u d a c p ds t r)).
Proof.
  intros H. unfold render_add_expense.
  destruct (Sqlite.real_ltb 0 a); [|exact H].
  pose proof (add_expense_positive now db u (PyDatetime.strftime_Ymd d) a c
                ds t p r H) as H'.
  destruct (add_expense now db u (PyDatetime.strftime_Ymd d) a c ds t p r)
    as [db' ok].
  destruct ok; exact H'.
Qed.

Lemma update_expense_positive (now : string) (db : database) (u eid : Z)
  (d : string) (a : Q) (c ds t p : string) (r : bool) :
  amounts_positive db ->
  amounts_positive (fst (update_expense now db u eid d a c ds t p r)).
Proof.
  intros H. unfold update_expense.
  destruct (0 <? Sqlite.COUNT (filter (targets eid u) (expenses db)))%Z
    eqn:Hcount; cbn [andb].
  - destruct (check_amount a) eqn:Ha; cbn [negb]; [|exact H].
    apply check_amount_true in Ha.
    unfold amounts_positive in *. cbn [fst expenses set_expenses].
    apply Forall_map. revert H. apply Forall_impl. intros e He.
    destruct (targets eid u e); [exact Ha|exact He].
  - unfold amounts_positive in *. cbn [fst expenses set_expenses].
    rewrite map_untargeted; [exact H|].
    intros x Hx. destruct (targets eid u x) eqn:Ht; [|reflexivity].
    assert (In x (filter (targets eid u) (expenses db))) as Hin
      by (apply filter_In; auto).
    apply Z.ltb_ge in Hcount. unfold Sqlite.COUNT in Hcount.
    destruct (filter (targets eid u) (expenses db)); [destruct Hin|].
    simpl in Hcount. lia.
Qed.

Lemma delete_expense_positive (db : database) (u eid : Z) :
  amounts_positive db -> amounts_positive (fst (delete_expense db u eid)).
Proof.
  unfold amounts_positive, delete_expense. cbn [fst expenses set_expenses].
  intros H. apply Forall_forall. intros e He. apply filter_In in He.
  rewrite Forall_forall in H. now apply H.
Qed.

Lemma run_positive (ops : list operation) :
  forall db, amounts_positive db -> amounts_positive (run ops db).
Proof.
  unfold run. induction ops as [|o ops IH]; intros db H; [exact H|].
  cbn [fold_left]. apply IH. destruct o; cbn [apply_operation].
  - now apply add_expense_positive.
  - now apply render_add_expense_positive.
  - now apply update_expense_positive.
  - now apply delete_expense_positive.
Qed.

Lemma init_db_fresh (now : string) :
  exists db, InitDb.init_db now None = Some db
             /\ expenses db = [] /\ users db = []
             /\ schema db = [InitDb.users_table; InitDb.expenses_table;
                             InitDb.categories_table;
                             InitDb.payment_methods_table]
             /\ map category_values (categories db)
                = InitDb.default_categories
             /\ map payment_values (payment_methods db)
                = InitDb.default_payments.
Proof. eexists. split; [vm_compute; reflexivity|]. repeat split. Qed.

(** C8: the add form rejects an amount <= 0 without calling the storage
    layer; the storage layer rejects an insert with amount <= 0 and keeps
    every stored amount positive across an update; so from the database
    [init_db] creates, and from any database whose amounts are positive, no
    sequence of add, update and delete operations stores an expense with
    amount <= 0. *)
Theorem amounts_always_positive :
  (forall now db u d a c p ds t r, (a <= 0)%Q ->
     render_add_expense now db u d a c p ds t r = (db, AmountMustBePositive))
  /\ (forall now db u d a c ds t p r, (a <= 0)%Q ->
        add_expense now db u d a c ds t p r = (db, false))
  /\ (forall now db u eid d a c ds t p r, amounts_positive db ->
        amounts_positive (fst (update_expense now db u eid d a c ds t p r)))
  /\ (forall ops db, amounts_positive db -> amounts_positive (run ops db))
  /\ (forall now ops,
        exists db, InitDb.init_db now None = Some db
                   /\ amounts_positive (run ops db)).
Proof.
  split; [intros; now apply render_add_expense_rejects|].
  split; [intros; now apply add_expense_rejects|].
  split; [intros; now apply update_expense_positive|].
  split; [intros; now apply run_positive|].
  intros now ops. destruct (init_db_fresh now) as (db & Hdb & Hes & _).
  exists db. split; [exact Hdb|]. apply run_positive.
  unfold amounts_positive. rewrite Hes. constructor.
Qed.

End PositiveAmounts.

(** ** C9: the reset utility and first-run initialisation agree *)

(** C9: [reset_database] leaves the database that [init_db] creates on its
    first run: the same four tables with the same columns and constraints,
    the same nine default categories (names, budgets, colors, icons) and the
    same six default payment methods (names, types), in the same order. *)
Theorem reset_database_matches_init_db (now : string)
  (file : option database) :
  DatabaseReset.reset_database now file = InitDb.init_db now None
  /\ DatabaseReset.users_table = InitDb.users_table
  /\ DatabaseReset.expenses_table = InitDb.expenses_table
  /\ DatabaseReset.categories_table = InitDb.categories_table
  /\ DatabaseReset.payment_methods_table = InitDb.payment_methods_table
  /\ DatabaseReset.default_categories = InitDb.default_categories
  /\ DatabaseReset.default_payments = InitDb.default_payments
  /\ exists db,
       DatabaseReset.reset_database now file = Some db
       /\ schema db = [InitDb.users_table; InitDb.expenses_table;
                       InitDb.categories_table; InitDb.payment_methods_table]
       /\ map category_values (categories db) = InitDb.default_categories
       /\ map payment_values (payment_methods db) = InitDb.default_payments
       /\ List.length (categories db) = 9%nat
       /\ List.length (payment_methods db) = 6%nat
       /\ users db = [] /\ expenses db = [].
Proof.
  split; [vm_compute; reflexivity|].
  do 6 (split; [reflexivity|]).
  eexists. split; [vm_compute; reflexivity|]. repeat split.
Qed.

(** ** LIKE with a month key is a prefix test *)
Section LikePrefix.
Local Open Scope list_scope.

Lemma like_percent_end (s : list ascii) :
  Sqlite.like_bytes ["%"%char] s = true.
Proof.
  induction s as [|d s IH]; [reflexivity|].
  simpl in *. exact IH.
Qed.

Lemma plain_byte_code (c : ascii) :
  plain_byte c = true ->
  (nat_of_ascii c = 45 \/ 48 <= nat_of_ascii c <= 57)%nat.
Proof.
  unfold plain_byte. cbv zeta. intros H.
  apply orb_true_iff in H as [H|H].
  - left. now apply Nat.eqb_eq.
  - right. apply andb_true_iff in H as [H1 H2].
    apply Nat.leb_le in H1, H2. lia.
Qed.

Lemma plain_byte_not_wildcard (c : ascii) :
  plain_byte c = true ->
  Ascii.eqb c "%" = false /\ Ascii.eqb c "_" = false.
Proof.
  intros H. split; apply Ascii.eqb_neq; intros ->; discriminate H.
Qed.

Lemma fold_case_plain (c : ascii) :
  plain_byte c = true -> Sqlite.fold_case c = c.
Proof.
  intros H. apply plain_byte_code in H. unfold Sqlite.fold_case. cbv zeta.
  destruct (Nat.leb_spec 65 (nat_of_ascii c)); [lia|reflexivity].
Qed.

Lemma fold_case_eqb_plain (c d : ascii) :
  plain_byte c = true ->
  Ascii.eqb (Sqlite.fold_case c) (Sqlite.fold_case d) = Ascii.eqb c d.
Proof.
  intros H. rewrite (fold_case_plain c H). apply plain_byte_code in H.
  unfold Sqlite.fold_case. cbv zeta.
  destruct (Nat.leb_spec 65 (nat_of_ascii d)) as [Hlo|Hlo];
    [|reflexivity].
  destruct (Nat.leb_spec (nat_of_ascii d) 90) as [Hhi|Hhi];
    [|reflexivity].
  cbn [andb].
  transitivity false; [|symmetry]; apply Ascii.eqb_neq; intros E.
  - apply (f_equal nat_of_ascii) in E.
    rewrite nat_ascii_embedding in E by lia. lia.
  - apply (f_equal nat_of_ascii) in E. lia.
Qed.

Lemma like_bytes_plain_prefix (key : string) :
  plain_key key = true ->
  forall text : string,
    Sqlite.like_bytes (list_ascii_of_string key ++ ["%"%char])
      (list_ascii_of_string text)
    = String.prefix key text.
Proof.
  unfold plain_key.
  induction key as [|c key IH]; intros Hkey text.
  - cbn [list_ascii_of_string app]. rewrite like_percent_end.
    destruct text; reflexivity.
  - cbn [list_ascii_of_string forallb] in Hkey.
    apply andb_true_iff in Hkey as [Hc Hkey].
    destruct (plain_byte_not_wildcard c Hc) as [Hp Hu].
    cbn [list_ascii_of_string app Sqlite.like_bytes]. rewrite Hp, Hu.
    destruct text as [|d text]; [reflexivity|].
    cbn [list_ascii_of_string String.prefix].
    rewrite (fold_case_eqb_plain c d Hc), (IH Hkey text).
    destruct (ascii_dec c d) as [->|Hne].
    + now rewrite Ascii.eqb_refl.
    + apply Ascii.eqb_neq in Hne. now rewrite Hne.
Qed.

Lemma list_ascii_of_string_app (s1 s2 : string) :
  list_ascii_of_string (s1 ++ s2)%string
  = list_ascii_of_string s1 ++ list_ascii_of_string s2.
Proof.
  induction s1 as [|c s1 IH]; [reflexivity|].
  cbn [String.append list_ascii_of_string app]. now rewrite IH.
Qed.

Lemma like_plain_prefix (key text : string) :
  plain_key key = true ->
  Sqlite.like text (key ++ "%")%string = String.prefix key text.
Proof.
  intros Hkey. unfold Sqlite.like. rewrite list_ascii_of_string_app.
  now apply like_bytes_plain_prefix.
Qed.

Lemma plain_digit (n : Z) : plain_byte (PyDatetime.digit n) = true.
Proof.
  unfold PyDatetime.digit.
  assert (Z.to_nat (n mod 10) < 10)%nat as Hk
    by (pose proof (Z.mod_pos_bound n 10); lia).
  destruct (Z.to_nat (n mod 10)) as [|[|[|[|[|[|[|[|[|[|k]]]]]]]]]];
    try reflexivity.
  lia.
Qed.

Lemma plain_month_key (y m : Z) :
  plain_key (PyDatetime.month_key y m) = true.
Proof.
  unfold plain_key, PyDatetime.month_key, PyDatetime.pad4, PyDatetime.pad2.
  cbn [String.append list_ascii_of_string forallb].
  rewrite !plain_digit. reflexivity.
Qed.

(** [in_month] with a month key selects the rows whose date starts with
    the key. *)
Lemma in_month_prefix (u y m : Z) (e : Expense.t) :
  in_month u (PyDatetime.month_key y m) e
  = ((Expense.user_id e =? u)%Z
     && String.prefix (PyDatetime.month_key y m) (Expense.date e)).
Proof.
  unfold in_month. now rewrite like_plain_prefix by apply plain_month_key.
Qed.

End LikePrefix.

(** ** C6: the monthly summary *)
Section MonthlySummary.
Local Open Scope list_scope.

Lemma or_zero_SUM (xs : list Q) : (or_zero (Sqlite.SUM xs) == total xs)%Q.
Proof.
  destruct xs as [|x xs]; [reflexivity|].
  unfold Sqlite.SUM, or_zero. fold (total (x :: xs)).
  destruct (Qeq_bool (total (x :: xs)) 0) eqn:E; [|reflexivity].
  apply Qeq_bool_iff in E. now rewrite E.
Qed.

Lemma get_monthly_summary_empty (today : PyDatetime.datetime)
  (db : database) (u : Z) :
  owned_by u (expenses db) = [] ->
  get_monthly_summary today db u = (0%Q, 0%Q, 0%Z).
Proof.
  intros Hnone. unfold get_monthly_summary.
  destruct (last_month_key today) as [last|]; [|reflexivity].
  assert (Hno : forall key, filter (in_month u key) (expenses db) = []).
  { intros key. unfold in_month. rewrite filter_andb.
    fold (owned_by u (expenses db)). now rewrite Hnone. }
  now rewrite !Hno.
Qed.

(** C6: for a valid current date, [get_monthly_summary] returns the total
    and the number of the user's expenses whose stored date text starts
    with the current [YYYY-MM], and the total of those whose date text
    starts with the [YYYY-MM] of the month before; for a user without
    expenses it returns zero for both totals and for the count. *)
Theorem monthly_summary_by_prefix (today : PyDatetime.datetime)
  (db : database) (u : Z) :
  (PyDatetime.valid today ->
   (PyDatetime.year today, PyDatetime.month today) <> (1, 1)%Z ->
   let current :=
     rows_with_prefix u
       (PyDatetime.month_key (PyDatetime.year today)
          (PyDatetime.month today)) (expenses db) in
   let previous :=
     rows_with_prefix u
       (PyDatetime.month_key (fst (PyDatetime.preceding_month today))
          (snd (PyDatetime.preceding_month today))) (expenses db) in
   exists current_total last_total current_count,
     get_monthly_summary today db u
     = (current_total, last_total, current_count)
     /\ (current_total == total (map Expense.amount current))%Q
     /\ (last_total == total (map Expense.amount previous))%Q
     /\ current_count = Z.of_nat (List.length current))
  /\ (owned_by u (expenses db) = [] ->
      get_monthly_summary today db u = (0%Q, 0%Q, 0%Z)).
Proof.
  split; [|apply get_monthly_summary_empty].
  intros Hv Hne current previous.
  unfold get_monthly_summary.
  rewrite (last_month_key_value today Hv Hne).
  unfold current_month_key, PyDatetime.strftime_Ym.
  do 3 eexists. split; [reflexivity|].
  rewrite !or_zero_SUM. unfold Sqlite.COUNT.
  rewrite !(filter_ext _ _ (in_month_prefix u _ _)).
  repeat split; reflexivity.
Qed.

End MonthlySummary.

(** ** Float64 cells *)
Section Float64.
Import Pandas.
Local Open Scope Z_scope.

Lemma shr_1_m (mrs : shr_record) :
  0 <= shr_m mrs -> shr_m (shr_1 mrs) = shr_m mrs / 2.
Proof.
  destruct mrs as [m r s]. cbn [shr_m]. intros Hm.
  destruct m as [|[p|p|]|p]; cbn [shr_1 shr_m]; try lia;
    try reflexivity.
  - apply (Z.div_unique (Zpos p~1) 2 (Zpos p) 1); lia.
  - apply (Z.div_unique (Zpos p~0) 2 (Zpos p) 0); lia.
Qed.

Lemma iter_shr_1_m (p : positive) :
  forall mrs, 0 <= shr_m mrs ->
  shr_m (iter_pos shr_1 p mrs) = shr_m mrs / 2 ^ Zpos p.
Proof.
  induction p as [p IH|p IH|]; intros mrs Hm; cbn [iter_pos].
  - assert (H1 : 0 <= shr_m (shr_1 mrs))
      by (rewrite shr_1_m by exact Hm; apply Z.div_pos; lia).
    assert (H2 : 0 <= shr_m (iter_pos shr_1 p (shr_1 mrs)))
      by (rewrite IH by exact H1; apply Z.div_pos; [exact H1|lia]).
    rewrite IH, IH, shr_1_m by assumption.
    rewrite !Z.div_div by lia. f_equal.
    replace (Zpos p~1) with (Z.succ (Zpos p + Zpos p)) by lia.
    rewrite Z.pow_succ_r, Z.pow_add_r by lia. ring.
  - assert (H2 : 0 <= shr_m (iter_pos shr_1 p mrs))
      by (rewrite IH by exact Hm; apply Z.div_pos; [exact Hm|lia]).
    rewrite IH, IH by assumption.
    rewrite !Z.div_div by lia. f_equal.
    replace (Zpos p~0) with (Zpos p + Zpos p) by lia.
    rewrite Z.pow_add_r by lia. reflexivity.
  - rewrite shr_1_m by exact Hm. reflexivity.
Qed.

Lemma digits2_pos_bounds (m : positive) :
  2 ^ (Zpos (digits2_pos m) - 1) <= Zpos m < 2 ^ Zpos (digits2_pos m).
Proof.
  induction m as [m IH|m IH|]; cbn [digits2_pos].
  - pose proof (Pos2Z.inj_xI m) as E.
    replace (Zpos (Pos.succ (digits2_pos m)))
      with (Z.succ (Zpos (digits2_pos m))) by lia.
    replace (Z.succ (Zpos (digits2_pos m)) - 1)
      with (Z.succ (Zpos (digits2_pos m) - 1)) by lia.
    rewrite !Z.pow_succ_r by lia. lia.
  - pose proof (Pos2Z.inj_xO m) as E.
    replace (Zpos (Pos.succ (digits2_pos m)))
      with (Z.succ (Zpos (digits2_pos m))) by lia.
    replace (Z.succ (Zpos (digits2_pos m)) - 1)
      with (Z.succ (Zpos (digits2_pos m) - 1)) by lia.
    rewrite !Z.pow_succ_r by lia. lia.
  - cbn. lia.
Qed.

Lemma shr_record_of_loc_m (m : Z) (l : location) :
  shr_m (shr_record_of_loc m l) = m.
Proof. destruct l as [|[]]; reflexivity. Qed.

Lemma round_nearest_even_ge (m : Z) (l : location) :
  m <= round_nearest_even m l.
Proof.
  destruct l as [|[]]; cbn [round_nearest_even]; try lia.
  destruct (Z.even m); lia.
Qed.

(** One pass of [shr_fexp] on a positive mantissa whose exponent is at
    least [emin] leaves a positive mantissa and an exponent at least
    [emin]. *)
Lemma shr_fexp_positive (m e : Z) (l : location) :
  0 < m -> -1074 <= e ->
  0 < shr_m (fst (shr_fexp prec emax m e l))
  /\ -1074 <= snd (shr_fexp prec emax m e l).
Proof.
  intros Hm He. unfold shr_fexp, shr.
  destruct m as [|p|p]; try lia. cbn [Zdigits2].
  pose proof (digits2_pos_bounds p) as [Hlo _].
  set (d := Zpos (digits2_pos p)) in *.
  assert (Hd : 1 <= d) by (subst d; lia).
  unfold fexp, emin, prec, emax.
  destruct (Z.max (d + e - 53) (3 - 1024 - 53) - e) as [|k|k] eqn:Ek;
    cbn [fst snd]; rewrite ?shr_record_of_loc_m; try lia.
  split; [|lia].
  rewrite iter_shr_1_m by (rewrite shr_record_of_loc_m; lia).
  rewrite shr_record_of_loc_m.
  assert (Hk : Zpos k = d - 53) by lia.
  apply Z.div_str_pos. split; [lia|].
  apply Z.le_trans with (2 ^ (d - 1)); [|exact Hlo].
  rewrite Hk. apply Z.pow_le_mono_r; lia.
Qed.

Lemma binary_round_aux_positive (m e : Z) (l : location) :
  0 < m -> -1074 <= e ->
  is_positive (binary_round_aux prec emax false m e l).
Proof.
  intros Hm He. unfold binary_round_aux.
  pose proof (shr_fexp_positive m e l Hm He) as [H1 E1].
  destruct (shr_fexp prec emax m e l) as [mrs' e']. cbn [fst snd] in H1, E1.
  pose proof (round_nearest_even_ge (shr_m mrs') (loc_of_shr_record mrs'))
    as Hr.
  set (m2 := round_nearest_even (shr_m mrs') (loc_of_shr_record mrs')) in *.
  pose proof (shr_fexp_positive m2 e' loc_Exact ltac:(lia) E1) as [H2 E2].
  destruct (shr_fexp prec emax m2 e' loc_Exact) as [mrs'' e''].
  cbn [fst snd] in H2, E2.
  destruct (shr_m mrs'') as [|p|p]; try lia.
  destruct (e'' <=? emax - prec); [right; eauto|left; reflexivity].
Qed.

Lemma binary_round_positive (m : positive) (e : Z) :
  -1074 <= e -> is_positive (binary_round prec emax false m e).
Proof.
  intros He. unfold binary_round, shl_align.
  set (f := fexp prec emax (Zpos (digits2_pos m) + e)).
  assert (Hf : -1074 <= f) by (subst f; unfold fexp, emin, prec, emax; lia).
  destruct (f - e) as [|d|d];
    apply binary_round_aux_positive; lia.
Qed.

Lemma div_core_positive (n d : positive) :
  (least_positive <= Zpos n # d)%Q ->
  let '(mz, ez, _) := SFdiv_core_binary prec emax (Zpos n) 0 (Zpos d) 0 in
  0 < mz /\ -1074 <= ez.
Proof.
  intros Hq. unfold SFdiv_core_binary. cbn [Zdigits2].
  pose proof (digits2_pos_bounds n) as [Hn _].
  pose proof (digits2_pos_bounds d) as [_ Hd].
  set (dn := Zpos (digits2_pos n)) in *.
  set (dd := Zpos (digits2_pos d)) in *.
  assert (1 <= dn /\ 1 <= dd) as [H1n H1d] by (subst dn dd; lia).
  unfold fexp, emin, prec, emax.
  replace (dn + 0 - (dd + 0)) with (dn - dd) by ring.
  replace (0 - 0) with 0 by ring.
  set (e' := Z.min (Z.max (dn - dd - 53) (3 - 1024 - 53)) 0).
  assert (He' : -1074 <= e' <= 0) by (subst e'; lia).
  set (m' := match 0 - e' with
             | 0 => Zpos n
             | Zpos _ => Z.shiftl (Zpos n) (0 - e')
             | Zneg _ => 0
             end).
  assert (Hm' : m' = Zpos n * 2 ^ (- e')).
  { subst m'. replace (0 - e') with (- e') by ring.
    destruct (- e') as [|s|s] eqn:Es; try lia.
    rewrite Z.shiftl_mul_pow2 by lia. reflexivity. }
  assert (Hge : Zpos d <= m').
  { rewrite Hm'.
    destruct (Z.le_gt_cases (-1074) (dn - dd - 53)) as [Hc|Hc].
    - assert (Hs : (- e' = dd - dn + 53 /\ 0 <= dd - dn + 53)
                   \/ (e' = 0 /\ 53 <= dn - dd))
        by (subst e'; lia).
      apply Z.lt_le_incl. apply Z.lt_le_trans with (2 ^ dd); [exact Hd|].
      destruct Hs as [[Hs Hs']|[Hs Hs']].
      + rewrite Hs.
        apply Z.le_trans with (2 ^ (dn - 1) * 2 ^ (dd - dn + 53)).
        * rewrite <- Z.pow_add_r by lia. apply Z.pow_le_mono_r; lia.
        * apply Z.mul_le_mono_nonneg_r; [apply Z.pow_nonneg; lia|exact Hn].
      + rewrite Hs. cbn [Z.opp]. rewrite Z.pow_0_r, Z.mul_1_r.
        apply Z.le_trans with (2 ^ (dn - 1)); [|exact Hn].
        apply Z.pow_le_mono_r; lia.
    - assert (Hs : e' = -1074) by (subst e'; lia).
      rewrite Hs. unfold least_positive, Qle in Hq. cbn [Qnum Qden] in Hq.
      rewrite Pos2Z.inj_pow in Hq.
      change (- -1074) with 1074. change (Zpos 1074) with 1074 in Hq.
      change (Zpos 2) with 2 in Hq. lia. }
  fold m'.
  pose proof (Z.div_eucl_eq m' (Zpos d) ltac:(lia)) as Heq.
  pose proof (Z.mod_pos_bound m' (Zpos d) ltac:(lia)) as Hr.
  unfold Z.modulo in Hr.
  destruct (Z.div_eucl m' (Zpos d)) as [q r].
  split; [nia|lia].
Qed.

(** A rational from the least positive float64 upwards is held as a
    positive cell: it does not round to zero. *)
Lemma of_Q_positive (q : Q) :
  (least_positive <= q)%Q -> is_positive (of_Q q).
Proof.
  intros Hq. destruct q as [n d].
  assert (Hn : 0 < n).
  { unfold least_positive, Qle in Hq. cbn [Qnum Qden] in Hq.
    destruct n as [|n|n]; try lia. }
  destruct n as [|n|n]; try lia.
  unfold of_Q. cbn [Qnum Qden]. unfold SFdiv.
  pose proof (div_core_positive n d Hq) as Hc.
  destruct (SFdiv_core_binary prec emax (Zpos n) 0 (Zpos d) 0) as [[mz ez] lz].
  destruct Hc as [Hm He]. cbn [xorb].
  now apply binary_round_aux_positive.
Qed.

(** Adding a positive cell to zero or to a positive cell gives a positive
    cell. *)
Lemma fadd_positive (x y : float64) :
  x = S754_zero false \/ is_positive x -> is_positive y ->
  is_positive (fadd x y).
Proof.
  intros [->|[->|(mx & ex & -> & Hx)]] [->|(my & ey & -> & Hy)];
    try (left; reflexivity).
  - right. exists my, ey. split; [reflexivity|exact Hy].
  - unfold fadd, SFadd. cbn [cond_Zopp Z.add]. unfold binary_normalize.
    apply binary_round_positive. lia.
Qed.

Lemma sum_cell_positive (amounts : list Q) :
  amounts <> nil ->
  Forall (fun a => (least_positive <= a)%Q) amounts ->
  is_positive (sum_cell amounts).
Proof.
  unfold sum_cell.
  assert (H : forall l acc,
            Forall (fun a => (least_positive <= a)%Q) l ->
            (acc = S754_zero false /\ l <> nil) \/ is_positive acc ->
            is_positive
              (fold_left (fun acc a => fadd acc (of_Q a)) l acc)).
  { induction l as [|a l IH]; intros acc Hl Hacc; cbn [fold_left].
    - destruct Hacc as [[_ Hn]|Hacc]; [congruence|exact Hacc].
    - apply Forall_cons_iff in Hl as [Ha Hl].
      apply (IH _ Hl). right. apply fadd_positive.
      + destruct Hacc as [[-> _]|Hacc]; [now left|now right].
      + now apply of_Q_positive. }
  intros Hne Hall. apply (H _ _ Hall). left. split; [reflexivity|exact Hne].
Qed.

Lemma fdiv_positive_zero (x : float64) :
  is_positive x -> fdiv x (S754_zero false) = S754_infinity false.
Proof. intros [->|(m & e & -> & _)]; reflexivity. Qed.


Lemma least_positive_pos : (0 < least_positive)%Q.
Proof. reflexivity. Qed.

Lemma of_Q_zero (q : Q) : (q == 0)%Q -> of_Q q = S754_zero false.
Proof.
  unfold Qeq. cbn [Qnum Qden]. intros H. unfold of_Q.
  destruct (Qnum q); try lia. reflexivity.
Qed.

End Float64.

(** ** C2, C5: budget performance *)
Section BudgetPerformance.
Local Open Scope list_scope.

Lemma real_ltb_lt (a b : Q) : Sqlite.real_ltb a b = true <-> (a < b)%Q.
Proof.
  unfold Sqlite.real_ltb. rewrite negb_true_iff. split; intros H.
  - apply Qnot_le_lt. intros Hle. apply Qle_bool_iff in Hle. congruence.
  - destruct (Qle_bool b a) eqn:E; [|reflexivity].
    apply Qle_bool_iff in E. exfalso. exact (Qlt_not_le _ _ H E).
Qed.


Lemma COALESCE_SUM (xs : list Q) :
  Sqlite.COALESCE (Sqlite.SUM xs) 0%Q = total xs.
Proof. destruct xs; reflexivity. Qed.

Lemma joins_prefix (c : Category.t) (y m u : Z) (e : Expense.t) :
  joins c (PyDatetime.month_key y m) u e
  = (((Expense.user_id e =? u)%Z
      && String.prefix (PyDatetime.month_key y m) (Expense.date e))
     && String.eqb (Expense.category e) (Category.name c)).
Proof.
  unfold joins, Sqlite.text_eqb.
  rewrite like_plain_prefix by apply plain_month_key.
  rewrite (String.eqb_sym (Category.name c)).
  destruct (String.eqb (Expense.category e) (Category.name c)),
    (Expense.user_id e =? u)%Z,
    (String.prefix (PyDatetime.month_key y m) (Expense.date e)); reflexivity.
Qed.

Lemma budget_row_spent (today : PyDatetime.datetime) (u : Z)
  (es : list Expense.t) (c : Category.t) :
  BudgetRow.spent (budget_row (current_month_key today) u es c)
  = spent_in_month u
      (PyDatetime.month_key (PyDatetime.year today) (PyDatetime.month today))
      (Category.name c) es.
Proof.
  unfold budget_row, spent_in_month, rows_with_prefix. cbn [BudgetRow.spent].
  rewrite COALESCE_SUM. unfold current_month_key, PyDatetime.strftime_Ym.
  rewrite (filter_ext _ _ (joins_prefix c _ _ u)).
  now rewrite filter_andb.
Qed.

Lemma budget_performance_row_inv (today : PyDatetime.datetime)
  (db : database) (u : Z) (row : BudgetRow.t) :
  In row (get_budget_performance today db u) ->
  exists c, In c (categories db)
            /\ row = budget_row (current_month_key today) u (expenses db) c.
Proof.
  unfold get_budget_performance. intros H.
  apply in_map_iff in H as (c & <- & Hc).
  exists c. split; [|reflexivity]. now apply order_by_In in Hc.
Qed.

Lemma budget_performance_names (today : PyDatetime.datetime)
  (db : database) (u : Z) :
  Permutation (map BudgetRow.name (get_budget_performance today db u))
    (map Category.name (categories db)).
Proof.
  unfold get_budget_performance. rewrite map_map. cbn [budget_row BudgetRow.name].
  apply Permutation_map, order_by_perm.
Qed.

Lemma joins_rows (c : Category.t) (today : PyDatetime.datetime) (u : Z)
  (es : list Expense.t) :
  filter (joins c (current_month_key today) u) es
  = filter (fun e => String.eqb (Expense.category e) (Category.name c))
      (rows_with_prefix u
         (PyDatetime.month_key (PyDatetime.year today)
            (PyDatetime.month today)) es).
Proof.
  unfold rows_with_prefix, current_month_key, PyDatetime.strftime_Ym.
  rewrite (filter_ext _ _ (joins_prefix c _ _ u)).
  now rewrite filter_andb.
Qed.

Lemma budget_row_percentage (today : PyDatetime.datetime) (u : Z)
  (es : list Expense.t) (c : Category.t) :
  BudgetRow.percentage (budget_row (current_month_key today) u es c)
  = Pandas.round1
      (Pandas.fmul
         (Pandas.fdiv
            (sum_cell
               (matching_amounts u
                  (PyDatetime.month_key (PyDatetime.year today)
                     (PyDatetime.month today)) (Category.name c) es))
            (Pandas.of_Q (Category.budget c)))
         (Pandas.of_Z 100)).
Proof.
  unfold budget_row, matching_amounts. cbn [BudgetRow.percentage].
  now rewrite joins_rows.
Qed.

Lemma budget_row_in (today : PyDatetime.datetime) (db : database) (u : Z)
  (c : Category.t) :
  In c (categories db) ->
  In (budget_row (current_month_key today) u (expenses db) c)
    (get_budget_performance today db u).
Proof.
  intros Hc. unfold get_budget_performance. apply in_map.
  now apply order_by_In.
Qed.

(** The cell of a total that is positive holds a positive number. *)
Lemma matching_sum_positive (db : database) (u : Z) (key name : string) :
  amounts_storable db ->
  (0 < spent_in_month u key name (expenses db))%Q ->
  Pandas.is_positive (sum_cell (matching_amounts u key name (expenses db))).
Proof.
  intros Hst Hs. unfold spent_in_month in Hs.
  fold (matching_amounts u key name (expenses db)) in Hs.
  apply sum_cell_positive.
  - intros E. rewrite E in Hs. discriminate Hs.
  - unfold matching_amounts, rows_with_prefix.
    apply Forall_forall. intros a Ha.
    apply in_map_iff in Ha as (e & <- & He).
    apply filter_In in He as [He _]. apply filter_In in He as [He _].
    exact (proj1 (Forall_forall _ _) Hst e He).
Qed.

Lemma zero_budget_row (today : PyDatetime.datetime) (db : database) (u : Z)
  (c : Category.t) :
  let row := budget_row (current_month_key today) u (expenses db) c in
  amounts_storable db ->
  (BudgetRow.budget row == 0)%Q ->
  (0 < BudgetRow.spent row)%Q ->
  BudgetRow.percentage row = S754_infinity false
  /\ BudgetRow.status row = "Over Budget"%string.
Proof.
  intros row Hst Hb Hs. subst row. split.
  - rewrite budget_row_percentage. rewrite budget_row_spent in Hs.
    cbn [budget_row BudgetRow.budget] in Hb.
    rewrite (of_Q_zero _ Hb).
    rewrite (fdiv_positive_zero _ (matching_sum_positive db u _ _ Hst Hs)).
    reflexivity.
  - unfold budget_row in *.
    cbn [BudgetRow.budget BudgetRow.spent BudgetRow.status] in *.
    replace (Sqlite.real_ltb _ 0) with true; [reflexivity|].
    symmetry. apply real_ltb_lt. rewrite Hb. lra.
Qed.

(** C2: [get_budget_performance] raises nothing on a zero budget.  The
    frame has one row per category whatever the budgets are, and a
    category with budget 0 on which the user spent something this month
    has its row in it: the percentage is the float64 +infinity (x / 0 for
    x > 0, not NaN and not an error) and the status is "Over Budget";
    every row of the frame with budget 0 and spent > 0 reads so.  The
    stored amounts are those a REAL column can hold: none is below the
    least positive float64. *)
Theorem zero_budget_percentage (today : PyDatetime.datetime)
  (db : database) (u : Z) :
  let key :=
    PyDatetime.month_key (PyDatetime.year today) (PyDatetime.month today) in
  List.length (get_budget_performance today db u)
  = List.length (categories db)
  /\ (forall c,
        In c (categories db) ->
        amounts_storable db ->
        (Category.budget c == 0)%Q ->
        (0 < spent_in_month u key (Category.name c) (expenses db))%Q ->
        exists row,
          In row (get_budget_performance today db u)
          /\ BudgetRow.name row = Category.name c
          /\ BudgetRow.budget row = Category.budget c
          /\ BudgetRow.spent row
             = spent_in_month u key (Category.name c) (expenses db)
          /\ BudgetRow.percentage row = S754_infinity false
          /\ BudgetRow.status row = "Over Budget"%string)
  /\ (forall row,
        In row (get_budget_performance today db u) ->
        amounts_storable db ->
        (BudgetRow.budget row == 0)%Q ->
        (0 < BudgetRow.spent row)%Q ->
        BudgetRow.percentage row = S754_infinity false
        /\ BudgetRow.status row = "Over Budget"%string).
Proof.
  intros key. split; [|split].
  - pose proof (Permutation_length (budget_performance_names today db u))
      as Hlen.
    now rewrite !length_map in Hlen.
  - intros c Hc Hst Hb Hs.
    exists (budget_row (current_month_key today) u (expenses db) c).
    split; [now apply budget_row_in|].
    split; [reflexivity|]. split; [reflexivity|].
    split; [apply budget_row_spent|].
    apply zero_budget_row; [exact Hst|exact Hb|].
    rewrite budget_row_spent. exact Hs.
  - intros row Hin Hst Hb Hs.
    apply budget_performance_row_inv in Hin as (c & _ & ->).
    now apply zero_budget_row.
Qed.


End BudgetPerformance.

(** ** The theorems at concrete inputs *)

Lemma ownership_isolation_witness :
  (forall q e, In e (get_expenses two_user_database 1 q) ->
     Expense.user_id e = 1%Z /\ Expense.user_id e <> 2%Z)
  /\ map Expense.id (get_expenses two_user_database 1 None) = [1%Z]
  /\ map Expense.id (get_expenses two_user_database 2 None) = [2%Z].
Proof.
  split.
  - apply (ownership_isolation 1 2 two_user_database). discriminate.
  - split; reflexivity.
Defined.

Lemma zero_budget_percentage_witness :
  exists row,
    In row (get_budget_performance (PyDatetime.mkdate 2024 3 20)
              zero_budget_database 1)
    /\ BudgetRow.name row = "Gifts"%string
    /\ BudgetRow.percentage row = S754_infinity false
    /\ BudgetRow.status row = "Over Budget"%string.
Proof.
  destruct (proj1 (proj2 (zero_budget_percentage (PyDatetime.mkdate 2024 3 20)
                            zero_budget_database 1))
              (Category.mk 10 "Gifts" 0 "#FFFFFF" "G" "2024-03-02 09:00:00"))
    as (row & Hin & Hname & _ & _ & Hpct & Hstatus).
  - vm_compute. do 9 right. left. reflexivity.
  - unfold amounts_storable. vm_compute. constructor; [discriminate|].
    constructor.
  - reflexivity.
  - vm_compute. reflexivity.
  - exists row.
    split; [exact Hin|]. split; [exact Hname|].
    split; [exact Hpct|exact Hstatus].
Defined.

Lemma add_expense_then_read_witness :
  map Expense.id
    (get_expenses
       (fst (add_expense "2024-03-17 08:00:00" sample_database 1 "2024-03-17"
               (12 # 1) "Food" "breakfast" "" "Cash" false)) 1 None)
  = [2%Z; 1%Z]
  /\ List.length
       (get_expenses
          (fst (add_expense "2024-03-17 08:00:00" sample_database 1
                  "2024-03-17" (12 # 1) "Food" "breakfast" "" "Cash" false))
          1 None)
     = S (List.length (get_expenses sample_database 1 None)).
Proof.
  split; [reflexivity|].
  apply (add_expense_then_read "2024-03-17 08:00:00" sample_database 1
           "2024-03-17" (12 # 1) "Food" "breakfast" "" "Cash" false).
  reflexivity.
Defined.

Lemma create_update_read_witness :
  In (Expense.mk 2 1 "2024-03-18" (15 # 1) "Shopping" "book" "gift"
        "Credit Card" true "2024-03-17 08:00:00" "2024-03-19 10:00:00")
     (get_expenses
        (fst (update_expense "2024-03-19 10:00:00"
                (fst (add_expense "2024-03-17 08:00:00" sample_database 1
                        "2024-03-17" (12 # 1) "Food" "breakfast" "" "Cash"
                        false))
                1 2 "2024-03-18" (15 # 1) "Shopping" "book" "gift"
                "Credit Card" true)) 1 None).
Proof.
  apply (create_update_read "2024-03-17 08:00:00" "2024-03-19 10:00:00"
           sample_database 1 "2024-03-17" (12 # 1) "Food" "breakfast" ""
           "Cash" false "2024-03-18" (15 # 1) "Shopping" "book" "gift"
           "Credit Card" true); reflexivity.
Defined.

(** ** Text order and ORDER BY *)
Section Ordering.
Local Open Scope list_scope.

Lemma ascii_compare_lt_trans (a b c : ascii) :
  Ascii.compare a b = Lt -> Ascii.compare b c = Lt -> Ascii.compare a c = Lt.
Proof.
  unfold Ascii.compare. rewrite !N.compare_lt_iff. apply N.lt_trans.
Qed.

Lemma string_compare_lt_trans (a : string) :
  forall b c, String.compare a b = Lt -> String.compare b c = Lt ->
              String.compare a c = Lt.
Proof.
  induction a as [|x a IH]; intros [|y b] [|z c]; cbn [String.compare];
    try discriminate; try reflexivity.
  destruct (Ascii.compare x y) eqn:Exy; try discriminate;
    destruct (Ascii.compare y z) eqn:Eyz; try discriminate; intros Hab Hbc.
  - apply Ascii.compare_eq_iff in Exy, Eyz. subst.
    assert (Ascii.compare z z = Eq) as ->
      by (unfold Ascii.compare; apply N.compare_refl).
    now apply (IH b c).
  - apply Ascii.compare_eq_iff in Exy. subst. now rewrite Eyz.
  - apply Ascii.compare_eq_iff in Eyz. subst. now rewrite Exy.
  - now rewrite (ascii_compare_lt_trans x y z Exy Eyz).
Qed.

Lemma string_compare_refl (a : string) : String.compare a a = Eq.
Proof.
  induction a as [|x a IH]; [reflexivity|]. cbn [String.compare].
  assert (Ascii.compare x x = Eq) as ->
    by (unfold Ascii.compare; apply N.compare_refl).
  exact IH.
Qed.

Lemma text_ltb_trans (a b c : string) :
  Sqlite.text_ltb a b = true -> Sqlite.text_ltb b c = true ->
  Sqlite.text_ltb a c = true.
Proof.
  unfold Sqlite.text_ltb, String.ltb.
  destruct (String.compare a b) eqn:Eab; try discriminate.
  destruct (String.compare b c) eqn:Ebc; try discriminate.
  now rewrite (string_compare_lt_trans a b c Eab Ebc).
Qed.

Lemma text_leb_trans (a b c : string) :
  Sqlite.text_leb a b = true -> Sqlite.text_leb b c = true ->
  Sqlite.text_leb a c = true.
Proof.
  unfold Sqlite.text_leb, String.leb.
  destruct (String.compare a b) eqn:Eab; try discriminate;
    destruct (String.compare b c) eqn:Ebc; try discriminate; intros _ _.
  - apply String.compare_eq_iff in Eab. subst. now rewrite Ebc.
  - apply String.compare_eq_iff in Eab. subst. now rewrite Ebc.
  - apply String.compare_eq_iff in Ebc. subst. now rewrite Eab.
  - now rewrite (string_compare_lt_trans a b c Eab Ebc).
Qed.

Lemma text_leb_total (a b : string) :
  Sqlite.text_leb a b = false -> Sqlite.text_leb b a = true.
Proof.
  intros H. destruct (String.leb_total a b) as [H'|H']; [|exact H'].
  unfold Sqlite.text_leb in H. congruence.
Qed.

Lemma text_ltb_irrefl_eq (a b : string) :
  Sqlite.text_ltb a b = false -> Sqlite.text_ltb b a = false -> a = b.
Proof.
  unfold Sqlite.text_ltb, String.ltb. rewrite (String.compare_antisym b a).
  destruct (String.compare a b) eqn:E; cbn; try discriminate.
  intros _ _. now apply String.compare_eq_iff.
Qed.

Section InsertionSort.
Context {A : Type} (before : A -> A -> bool).
Hypothesis before_total : forall x y, before x y = false -> before y x = true.

Let R := in_order before.

Lemma insert_by_hdrel (a x : A) (l : list A) :
  R a x -> HdRel R a l -> HdRel R a (Sqlite.insert_by before x l).
Proof.
  intros Hax Hal. destruct l as [|y l]; cbn [Sqlite.insert_by].
  - now constructor.
  - destruct (before x y); constructor; [exact Hax|].
    now inversion Hal.
Qed.

Lemma insert_by_sorted (x : A) (l : list A) :
  Sorted R l -> Sorted R (Sqlite.insert_by before x l).
Proof.
  induction l as [|y l IH]; intros Hl; cbn [Sqlite.insert_by].
  - repeat constructor.
  - destruct (before x y) eqn:Exy.
    + constructor; [exact Hl|]. now constructor.
    + apply Sorted_inv in Hl as [Hl Hy].
      constructor; [now apply IH|].
      apply insert_by_hdrel; [|exact Hy]. now apply before_total.
Qed.

Lemma order_by_sorted (l : list A) : Sorted R (Sqlite.order_by before l).
Proof.
  induction l as [|x l IH]; cbn [Sqlite.order_by fold_right].
  - constructor.
  - now apply insert_by_sorted.
Qed.

Hypothesis before_trans :
  forall x y z, before x y = true -> before y z = true -> before x z = true.

Lemma insert_by_first (x : A) (l : list A) :
  (forall z, In z l -> before x z = true) ->
  Sqlite.insert_by before x l = x :: l.
Proof.
  destruct l as [|y l]; [reflexivity|]. intros H. cbn [Sqlite.insert_by].
  now rewrite (H y (or_introl eq_refl)).
Qed.

Lemma filter_insert_by (p : A -> bool) (x : A) (l : list A) :
  StronglySorted R l ->
  filter p (Sqlite.insert_by before x l)
  = if p x then Sqlite.insert_by before x (filter p l) else filter p l.
Proof.
  induction l as [|y l IH]; intros Hl.
  - cbn [Sqlite.insert_by filter]. now destruct (p x).
  - apply StronglySorted_inv in Hl as [Hl Hy].
    cbn [Sqlite.insert_by]. destruct (before x y) eqn:Exy.
    + cbn [filter]. destruct (p x); [|reflexivity].
      symmetry. apply (insert_by_first x (filter p (y :: l))).
      intros z Hz. apply filter_In in Hz as [[<-|Hz] _]; [exact Exy|].
      rewrite Forall_forall in Hy. exact (before_trans _ _ _ Exy (Hy z Hz)).
    + cbn [filter]. rewrite (IH Hl).
      destruct (p y), (p x); cbn [Sqlite.insert_by]; rewrite ?Exy;
        reflexivity.
Qed.

Lemma order_by_filter (p : A -> bool) (l : list A) :
  Sqlite.order_by before (filter p l) = filter p (Sqlite.order_by before l).
Proof.
  induction l as [|x l IH]; [reflexivity|].
  cbn [filter Sqlite.order_by fold_right].
  fold (Sqlite.order_by before l).
  rewrite filter_insert_by.
  - destruct (p x); [|exact IH].
    cbn [Sqlite.order_by fold_right]. fold (Sqlite.order_by before (filter p l)).
    now rewrite IH.
  - apply Sorted_StronglySorted; [exact before_trans|].
    apply order_by_sorted.
Qed.

Lemma order_by_strongly_sorted (l : list A) :
  StronglySorted R (Sqlite.order_by before l).
Proof.
  apply Sorted_StronglySorted; [|apply order_by_sorted].
  intros x y z. apply before_trans.
Qed.

End InsertionSort.

Lemma expense_order_total (a b : Expense.t) :
  expense_order a b = false -> expense_order b a = true.
Proof.
  unfold expense_order. intros H.
  apply orb_false_iff in H as [Hlt H].
  destruct (Sqlite.text_ltb (Expense.date a) (Expense.date b)) eqn:Hlt';
    [reflexivity|].
  pose proof (text_ltb_irrefl_eq _ _ Hlt Hlt') as E.
  unfold Sqlite.text_eqb in *. rewrite E, String.eqb_refl in *.
  cbn [andb orb] in *. apply Z.leb_gt in H. apply Z.leb_le. lia.
Qed.

Lemma text_ltb_irrefl (a : string) : Sqlite.text_ltb a a = false.
Proof.
  unfold Sqlite.text_ltb, String.ltb. now rewrite string_compare_refl.
Qed.

Lemma expense_order_trans (a b c : Expense.t) :
  expense_order a b = true -> expense_order b c = true ->
  expense_order a c = true.
Proof.
  unfold expense_order, Sqlite.text_eqb. intros Hab Hbc.
  apply orb_true_iff in Hab as [Hab|Hab];
    apply orb_true_iff in Hbc as [Hbc|Hbc].
  - now rewrite (text_ltb_trans _ _ _ Hbc Hab).
  - apply andb_true_iff in Hbc as [E _]. apply String.eqb_eq in E.
    rewrite <- E. now rewrite Hab.
  - apply andb_true_iff in Hab as [E _]. apply String.eqb_eq in E.
    rewrite E. now rewrite Hbc.
  - apply andb_true_iff in Hab as [E1 H1].
    apply andb_true_iff in Hbc as [E2 H2].
    apply String.eqb_eq in E1, E2. rewrite E1, E2, String.eqb_refl.
    apply Z.leb_le in H1, H2. apply orb_true_iff. right.
    apply Z.leb_le. lia.
Qed.

End Ordering.

(** ** Reading: order and filters *)
Section Reading.
Local Open Scope list_scope.

Lemma get_expenses_strongly_sorted (db : database) (u : Z)
  (q : option (list clause)) :
  StronglySorted (in_order expense_order) (get_expenses db u q).
Proof.
  unfold get_expenses.
  destruct q; apply order_by_strongly_sorted;
    first [exact expense_order_total | exact expense_order_trans].
Qed.

(** X1: [get_expenses] returns exactly the rows of the user that satisfy
    every condition of the query, and returns them ordered by date
    descending and, within a date, by id descending. *)
Theorem get_expenses_sorted (db : database) (u : Z)
  (q : option (list clause)) :
  StronglySorted (in_order expense_order) (get_expenses db u q)
  /\ (forall e,
        In e (get_expenses db u q)
        <-> In e (expenses db) /\ Expense.user_id e = u
            /\ match q with
               | None => True
               | Some conds => forall c, In c conds -> clause_holds c e = true
               end)
  /\ (forall a b,
        in_order expense_order a b
        <-> String.ltb (Expense.date b) (Expense.date a) = true
            \/ (Expense.date a = Expense.date b
                /\ (Expense.id b <= Expense.id a)%Z)).
Proof.
  split; [|split].
  - apply get_expenses_strongly_sorted.
  - intros e. unfold get_expenses.
    destruct q as [conds|]; rewrite order_by_In, filter_In.
    + rewrite andb_true_iff, Z.eqb_eq, forallb_forall. tauto.
    + rewrite Z.eqb_eq. tauto.
  - intros a b. unfold in_order, expense_order, Sqlite.text_ltb,
      Sqlite.text_eqb.
    rewrite orb_true_iff, andb_true_iff, String.eqb_eq, Z.leb_le. tauto.
Qed.

Lemma forallb_app {A} (p : A -> bool) (l1 l2 : list A) :
  forallb p (l1 ++ l2) = forallb p l1 && forallb p l2.
Proof.
  induction l1 as [|x l1 IH]; [reflexivity|].
  cbn [app forallb]. now rewrite IH, andb_assoc.
Qed.

Lemma build_query_passes (f : filters) (conds : list clause)
  (e : Expense.t) :
  build_query f = Some conds ->
  forallb (fun c => clause_holds c e) conds = passes_filters f e.
Proof.
  unfold build_query, passes_filters.
  destruct (apply_filters f); [|discriminate].
  intros H. injection H as <-.
  rewrite !forallb_app.
  destruct (String.eqb (category_filter f) "All"),
    (String.eqb (payment_filter f) "All"),
    (date_from f), (date_to f),
    (Sqlite.real_ltb 0 (min_amount f)),
    (Sqlite.real_ltb 0 (max_amount f));
    cbn [forallb clause_holds andb orb negb];
    unfold Sqlite.text_eqb, Sqlite.text_leb, Sqlite.real_leb;
    rewrite ?andb_true_r, ?andb_assoc; reflexivity.
Qed.

(** X2: the rows [render_expense_list] shows are the rows of the user;
    after "Apply Filters" they are those with the chosen category and
    payment method (the choice "All" keeps every row), a date text between
    the two bounds, and an amount within the bounds, where a bound of 0
    means no bound.  Without "Apply Filters" the widgets have no effect. *)
Theorem render_expense_list_filters (db : database) (u : Z) (f : filters) :
  (forall e,
     In e (render_expense_list db u f)
     <-> In e (expenses db) /\ Expense.user_id e = u
         /\ (apply_filters f = true -> passes_filters f e = true))
  /\ (apply_filters f = false ->
      render_expense_list db u f = get_expenses db u None)
  /\ StronglySorted (in_order expense_order) (render_expense_list db u f).
Proof.
  split; [|split].
  - intros e. unfold render_expense_list, get_expenses.
    destruct (build_query f) as [conds|] eqn:Hq.
    + rewrite order_by_In, filter_In, andb_true_iff, Z.eqb_eq.
      rewrite (build_query_passes f conds e Hq).
      assert (apply_filters f = true) as Ha
        by (unfold build_query in Hq; destruct (apply_filters f);
            [reflexivity|discriminate]).
      tauto.
    + rewrite order_by_In, filter_In, Z.eqb_eq.
      assert (apply_filters f = false) as Ha
        by (unfold build_query in Hq; destruct (apply_filters f);
            [discriminate|reflexivity]).
      rewrite Ha. intuition discriminate.
  - intros Ha. unfold render_expense_list, build_query. now rewrite Ha.
  - unfold render_expense_list. apply get_expenses_strongly_sorted.
Qed.

End Reading.

(** ** [init_db] at every start of the application *)
Section Initialisation.
Local Open Scope list_scope.

Lemma count_zero {A} (l : list A) :
  (Sqlite.COUNT l =? 0)%Z = match l with [] => true | _ :: _ => false end.
Proof. destruct l; reflexivity. Qed.

Lemma has_table_create (t : Schema.table) (db : database) (name : string) :
  has_table (create_table_if_not_exists t db) name
  = has_table db name || String.eqb (Schema.tbl_name t) name.
Proof.
  unfold create_table_if_not_exists.
  destruct (has_table db (Schema.tbl_name t)) eqn:Ht.
  - destruct (String.eqb_spec (Schema.tbl_name t) name) as [<-|];
      [now rewrite Ht | now rewrite orb_false_r].
  - unfold has_table. cbn [schema set_schema].
    rewrite existsb_app. cbn [existsb]. now rewrite orb_false_r.
Qed.

Lemma create_table_if_not_exists_data (t : Schema.table) (db : database) :
  same_user_data db (create_table_if_not_exists t db)
  /\ categories (create_table_if_not_exists t db) = categories db
  /\ payment_methods (create_table_if_not_exists t db) = payment_methods db
  /\ seq_categories (create_table_if_not_exists t db) = seq_categories db
  /\ seq_payment_methods (create_table_if_not_exists t db)
     = seq_payment_methods db.
Proof.
  unfold create_table_if_not_exists, same_user_data.
  destruct (has_table db (Schema.tbl_name t)); repeat split.
Qed.

Lemma create_table_if_not_exists_same (t : Schema.table) (db : database) :
  has_table db (Schema.tbl_name t) = true ->
  create_table_if_not_exists t db = db.
Proof. unfold create_table_if_not_exists. now intros ->. Qed.

Lemma lookup_table_has (db : database) (name : string) :
  has_table db name = true <-> exists t, lookup_table db name = Some t.
Proof.
  unfold has_table, lookup_table. split.
  - intros H. apply existsb_exists in H as (t & Ht & E).
    destruct (find (fun t => String.eqb (Schema.tbl_name t) name) (schema db))
      as [x|] eqn:F; [eauto|].
    pose proof (find_none _ _ F t Ht) as Hn. cbv beta in Hn. congruence.
  - intros (t & F). apply find_some in F as [Ht E].
    apply existsb_exists. eauto.
Qed.

Lemma lookup_table_create (t : Schema.table) (db : database)
  (name : string) :
  lookup_table (create_table_if_not_exists t db) name
  = match lookup_table db name with
    | Some x => Some x
    | None => if String.eqb (Schema.tbl_name t) name then Some t else None
    end.
Proof.
  unfold create_table_if_not_exists.
  destruct (has_table db (Schema.tbl_name t)) eqn:Ht.
  - destruct (lookup_table db name) as [x|] eqn:F; [reflexivity|].
    destruct (String.eqb_spec (Schema.tbl_name t) name) as [<-|];
      [|reflexivity].
    apply lookup_table_has in Ht as (x & Hx). congruence.
  - unfold lookup_table. cbn [schema set_schema].
    induction (schema db) as [|x l IH]; cbn [find app]; [reflexivity|].
    destruct (String.eqb (Schema.tbl_name x) name); [reflexivity|exact IH].
Qed.

Lemma has_columns_schema (db db' : database) (name : string)
  (cols : list string) :
  schema db' = schema db -> has_columns db' name cols = has_columns db name cols.
Proof. unfold has_columns, lookup_table. now intros ->. Qed.

Lemma has_columns_lookup (db : database) (t : Schema.table)
  (cols : list string) :
  lookup_table db (Schema.tbl_name t) = Some t ->
  has_columns db (Schema.tbl_name t) cols
  = forallb
      (fun c =>
         existsb (fun k => ident_eqb (Schema.col_name k) c)
           (Schema.tbl_columns t))
      cols.
Proof. unfold has_columns. now intros ->. Qed.

(** A table found by name is the one the application creates, when the
    stored tables of that name are. *)
Lemma lookup_table_as_created (db : database) (t : Schema.table) :
  stored_as_created db t ->
  lookup_table (create_table_if_not_exists t db) (Schema.tbl_name t) = Some t.
Proof.
  intros Hs. rewrite lookup_table_create.
  destruct (lookup_table db (Schema.tbl_name t)) as [x|] eqn:F.
  - apply find_some in F as [Hx E]. apply String.eqb_eq in E.
    now rewrite (Hs x Hx E).
  - now rewrite String.eqb_refl.
Qed.

Lemma executemany_none {A} (ins : A -> database -> option database)
  (rows : list A) :
  fold_left
    (fun acc r => match acc with Some d => ins r d | None => None end)
    rows None = None.
Proof. induction rows as [|r rows IH]; [reflexivity|exact IH]. Qed.

(** Seeding rows with distinct names into a table that has the columns and
    holds none of the names succeeds and touches nothing else. *)
Lemma executemany_insert_category (now : string)
  (rows : list (string * Q * string * string)) :
  forall db,
    has_columns db "categories" ["name"; "budget"; "color"; "icon"] = true ->
    NoDup (map (fun r => fst (fst (fst r))) rows) ->
    (forall r c, In r rows -> In c (categories db) ->
                 Category.name c <> fst (fst (fst r))) ->
    exists db',
      executemany (insert_category now) rows db = Some db'
      /\ same_user_data db db' /\ schema db' = schema db
      /\ payment_methods db' = payment_methods db
      /\ seq_payment_methods db' = seq_payment_methods db
      /\ map category_values (categories db')
         = map category_values (categories db) ++ rows.
Proof.
  unfold executemany.
  induction rows as [|[[[n b] c] i] rows IH]; intros db Hcols Hnd Hfresh.
  - exists db. cbn [fold_left map]. rewrite app_nil_r.
    unfold same_user_data. repeat split.
  - cbn [fold_left]. unfold insert_category at 2.
    rewrite Hcols. cbn [negb].
    assert (existsb (fun r => Sqlite.text_eqb (Category.name r) n)
              (categories db) = false) as Hno.
    { apply not_true_is_false. intros H. apply existsb_exists in H.
      destruct H as (x & Hx & E). apply String.eqb_eq in E.
      exact (Hfresh (n, b, c, i) x (or_introl eq_refl) Hx E). }
    rewrite Hno.
    set (k := next_rowid _ _).
    set (db1 := set_categories db
                  (categories db ++ [Category.mk k n b c i now]) k).
    cbn [map fst] in Hnd. apply NoDup_cons_iff in Hnd as [Hn Hnd].
    destruct (IH db1 Hcols Hnd)
      as (db' & Hrun & Hdata & Hschema & Hpm & Hspm & Hcat).
    { intros r x Hr Hx. subst db1. cbn [categories set_categories] in Hx.
      apply in_app_iff in Hx as [Hx|[<-|[]]].
      - apply (Hfresh r x); [now right|exact Hx].
      - cbn [Category.name]. intros E. apply Hn. rewrite E.
        exact (in_map (fun r => fst (fst (fst r))) rows r Hr). }
    exists db'. split; [exact Hrun|].
    split; [exact Hdata|]. split; [exact Hschema|].
    split; [exact Hpm|]. split; [exact Hspm|].
    rewrite Hcat. subst db1. cbn [categories set_categories].
    rewrite map_app, <- app_assoc. reflexivity.
Qed.

Lemma executemany_insert_payment_method (rows : list (string * string)) :
  forall db,
    has_columns db "payment_methods" ["name"; "type"] = true ->
    NoDup (map fst rows) ->
    (forall r p, In r rows -> In p (payment_methods db) ->
                 PaymentMethod.name p <> fst r) ->
    exists db',
      executemany insert_payment_method rows db = Some db'
      /\ same_user_data db db' /\ schema db' = schema db
      /\ categories db' = categories db
      /\ seq_categories db' = seq_categories db
      /\ map payment_values (payment_methods db')
         = map payment_values (payment_methods db) ++ rows.
Proof.
  unfold executemany.
  induction rows as [|[n t] rows IH]; intros db Hcols Hnd Hfresh.
  - exists db. cbn [fold_left map]. rewrite app_nil_r.
    unfold same_user_data. repeat split.
  - cbn [fold_left]. unfold insert_payment_method at 2.
    rewrite Hcols. cbn [negb].
    assert (existsb (fun r => Sqlite.text_eqb (PaymentMethod.name r) n)
              (payment_methods db) = false) as Hno.
    { apply not_true_is_false. intros H. apply existsb_exists in H.
      destruct H as (x & Hx & E). apply String.eqb_eq in E.
      exact (Hfresh (n, t) x (or_introl eq_refl) Hx E). }
    rewrite Hno.
    set (k := next_rowid _ _).
    set (db1 := set_payment_methods db
                  (payment_methods db ++ [PaymentMethod.mk k n t]) k).
    cbn [map fst] in Hnd. apply NoDup_cons_iff in Hnd as [Hn Hnd].
    destruct (IH db1 Hcols Hnd)
      as (db' & Hrun & Hdata & Hschema & Hc & Hsc & Hpm).
    { intros r x Hr Hx. subst db1.
      cbn [payment_methods set_payment_methods] in Hx.
      apply in_app_iff in Hx as [Hx|[<-|[]]].
      - apply (Hfresh r x); [now right|exact Hx].
      - cbn [PaymentMethod.name]. intros E. apply Hn. rewrite E.
        now apply in_map. }
    exists db'. split; [exact Hrun|].
    split; [exact Hdata|]. split; [exact Hschema|].
    split; [exact Hc|]. split; [exact Hsc|].
    rewrite Hpm. subst db1. cbn [payment_methods set_payment_methods].
    rewrite map_app, <- app_assoc. reflexivity.
Qed.

(** What a seeding that did not raise has stored. *)
Lemma executemany_insert_category_length (now : string)
  (rows : list (string * Q * string * string)) :
  forall db db',
    executemany (insert_category now) rows db = Some db' ->
    List.length (categories db')
    = (List.length (categories db) + List.length rows)%nat
    /\ payment_methods db' = payment_methods db.
Proof.
  unfold executemany.
  induction rows as [|[[[n b] c] i] rows IH]; intros db db' H.
  - cbn [fold_left] in H. injection H as <-. cbn [List.length]. split; [lia|].
    reflexivity.
  - cbn [fold_left] in H.
    destruct (insert_category now (n, b, c, i) db) as [db1|] eqn:E;
      [|rewrite executemany_none in H; discriminate].
    apply IH in H as [Hl Hp]. unfold insert_category in E.
    destruct (negb _); [discriminate|].
    destruct (existsb _ _); [discriminate|]. injection E as <-.
    cbn [categories payment_methods set_categories] in Hl, Hp.
    rewrite length_app in Hl. cbn [List.length] in *. split; [lia|exact Hp].
Qed.

Lemma executemany_insert_payment_method_length
  (rows : list (string * string)) :
  forall db db',
    executemany insert_payment_method rows db = Some db' ->
    List.length (payment_methods db')
    = (List.length (payment_methods db) + List.length rows)%nat
    /\ categories db' = categories db.
Proof.
  unfold executemany.
  induction rows as [|[n t] rows IH]; intros db db' H.
  - cbn [fold_left] in H. injection H as <-. cbn [List.length]. split; [lia|].
    reflexivity.
  - cbn [fold_left] in H.
    destruct (insert_payment_method (n, t) db) as [db1|] eqn:E;
      [|rewrite executemany_none in H; discriminate].
    apply IH in H as [Hl Hp]. unfold insert_payment_method in E.
    destruct (negb _); [discriminate|].
    destruct (existsb _ _); [discriminate|]. injection E as <-.
    cbn [categories payment_methods set_payment_methods] in Hl, Hp.
    rewrite length_app in Hl. cbn [List.length] in *. split; [lia|exact Hp].
Qed.

Lemma default_category_names_distinct :
  NoDup (map (fun r : string * Q * string * string => fst (fst (fst r)))
           InitDb.default_categories).
Proof.
  cbn [map InitDb.default_categories fst].
  repeat (constructor; [cbn [In]; intuition discriminate|]). constructor.
Qed.

Lemma default_payment_names_distinct :
  NoDup (map fst InitDb.default_payments).
Proof.
  cbn [map InitDb.default_payments fst].
  repeat (constructor; [cbn [In]; intuition discriminate|]). constructor.
Qed.

Lemma seed_categories (now : string) (db : database) :
  has_columns db "categories" ["name"; "budget"; "color"; "icon"] = true ->
  exists db',
    (if (Sqlite.COUNT (categories db) =? 0)%Z
     then executemany (insert_category now) InitDb.default_categories db
     else Some db) = Some db'
    /\ same_user_data db db' /\ schema db' = schema db
    /\ payment_methods db' = payment_methods db
    /\ seq_payment_methods db' = seq_payment_methods db
    /\ categories db' <> []
    /\ (categories db <> [] -> db' = db)
    /\ (categories db = [] ->
        map category_values (categories db') = InitDb.default_categories).
Proof.
  intros Hcols.
  rewrite count_zero. destruct (categories db) as [|c cs] eqn:Hc.
  - destruct (executemany_insert_category now InitDb.default_categories db
                Hcols default_category_names_distinct)
      as (db' & Hrun & Hdata & Hschema & Hpm & Hspm & Hcat).
    { intros r x _ Hx. rewrite Hc in Hx. destruct Hx. }
    rewrite Hc in Hcat. cbn [map app] in Hcat.
    exists db'. repeat (split; [assumption|]).
    split; [|split; [congruence|intros _; exact Hcat]].
    intros E. rewrite E in Hcat. discriminate Hcat.
  - exists db. rewrite Hc. split; [reflexivity|].
    split; [unfold same_user_data; repeat split|].
    repeat (split; [reflexivity|]).
    split; [discriminate|]. split; [reflexivity|discriminate].
Qed.

Lemma seed_payment_methods (db : database) :
  has_columns db "payment_methods" ["name"; "type"] = true ->
  exists db',
    (if (Sqlite.COUNT (payment_methods db) =? 0)%Z
     then executemany insert_payment_method InitDb.default_payments db
     else Some db) = Some db'
    /\ same_user_data db db' /\ schema db' = schema db
    /\ categories db' = categories db
    /\ seq_categories db' = seq_categories db
    /\ payment_methods db' <> []
    /\ (payment_methods db <> [] -> db' = db)
    /\ (payment_methods db = [] ->
        map payment_values (payment_methods db') = InitDb.default_payments).
Proof.
  intros Hcols.
  rewrite count_zero. destruct (payment_methods db) as [|c cs] eqn:Hc.
  - destruct (executemany_insert_payment_method InitDb.default_payments db
                Hcols default_payment_names_distinct)
      as (db' & Hrun & Hdata & Hschema & Hcs & Hscs & Hpm).
    { intros r x _ Hx. rewrite Hc in Hx. destruct Hx. }
    rewrite Hc in Hpm. cbn [map app] in Hpm.
    exists db'. repeat (split; [assumption|]).
    split; [|split; [congruence|intros _; exact Hpm]].
    intros E. rewrite E in Hpm. discriminate Hpm.
  - exists db. rewrite Hc. split; [reflexivity|].
    split; [unfold same_user_data; repeat split|].
    repeat (split; [reflexivity|]).
    split; [discriminate|]. split; [reflexivity|discriminate].
Qed.

Lemma has_table_schema (db db' : database) (name : string) :
  schema db' = schema db -> has_table db' name = has_table db name.
Proof. unfold has_table. now intros ->. Qed.

Lemma stored_as_created_create (t t' : Schema.table) (db : database) :
  Schema.tbl_name t' <> Schema.tbl_name t ->
  stored_as_created db t ->
  stored_as_created (create_table_if_not_exists t' db) t.
Proof.
  intros Hne Hs. unfold create_table_if_not_exists.
  destruct (has_table db (Schema.tbl_name t')); [exact Hs|].
  intros x Hx E. cbn [schema set_schema] in Hx.
  apply in_app_iff in Hx as [Hx|[<-|[]]]; [now apply Hs|].
  contradiction.
Qed.

Lemma lookup_table_keep (t : Schema.table) (db : database) (name : string)
  (x : Schema.table) :
  lookup_table db name = Some x ->
  lookup_table (create_table_if_not_exists t db) name = Some x.
Proof. intros H. now rewrite lookup_table_create, H. Qed.

Lemma with_tables_data (db : database) :
  same_user_data db (with_tables db)
  /\ categories (with_tables db) = categories db
  /\ payment_methods (with_tables db) = payment_methods db
  /\ has_table (with_tables db) "users" = true
  /\ has_table (with_tables db) "expenses" = true
  /\ has_table (with_tables db) "categories" = true
  /\ has_table (with_tables db) "payment_methods" = true.
Proof.
  unfold with_tables.
  set (db1 := create_table_if_not_exists InitDb.users_table db).
  set (db2 := create_table_if_not_exists InitDb.expenses_table db1).
  set (db3 := create_table_if_not_exists InitDb.categories_table db2).
  set (db4 := create_table_if_not_exists InitDb.payment_methods_table db3).
  destruct (create_table_if_not_exists_data InitDb.users_table db)
    as ((U1 & E1 & SU1 & SE1) & C1 & P1 & _).
  destruct (create_table_if_not_exists_data InitDb.expenses_table db1)
    as ((U2 & E2 & SU2 & SE2) & C2 & P2 & _).
  destruct (create_table_if_not_exists_data InitDb.categories_table db2)
    as ((U3 & E3 & SU3 & SE3) & C3 & P3 & _).
  destruct (create_table_if_not_exists_data InitDb.payment_methods_table db3)
    as ((U4 & E4 & SU4 & SE4) & C4 & P4 & _).
  fold db1 in U1, E1, SU1, SE1, C1, P1. fold db2 in U2, E2, SU2, SE2, C2, P2.
  fold db3 in U3, E3, SU3, SE3, C3, P3. fold db4 in U4, E4, SU4, SE4, C4, P4.
  split; [unfold same_user_data; repeat split; congruence|].
  split; [congruence|]. split; [congruence|].
  subst db4 db3 db2 db1. rewrite !has_table_create.
  cbn [Schema.tbl_name InitDb.users_table InitDb.expenses_table
       InitDb.categories_table InitDb.payment_methods_table].
  repeat split;
    repeat match goal with
           | |- context [String.eqb ?a ?b] =>
               let v := eval vm_compute in (String.eqb a b) in
               change (String.eqb a b) with v
           end;
    rewrite ?orb_true_r, ?orb_false_r; reflexivity.
Qed.

Lemma init_db_unfold (now : string) (file : option database) :
  InitDb.init_db now file
  = let db :=
      with_tables (match file with Some d => d | None => empty_database end)
    in
    match
      (if (Sqlite.COUNT (categories db) =? 0)%Z
       then executemany (insert_category now) InitDb.default_categories db
       else Some db)
    with
    | None => None
    | Some db =>
        if (Sqlite.COUNT (payment_methods db) =? 0)%Z
        then executemany insert_payment_method InitDb.default_payments db
        else Some db
    end.
Proof. reflexivity. Qed.

(** The reference tables [init_db] inserts into have the columns it names,
    when they are the tables the application creates. *)
Lemma with_tables_columns (db : database) :
  stored_as_created db InitDb.categories_table ->
  stored_as_created db InitDb.payment_methods_table ->
  has_columns (with_tables db) "categories"
    ["name"; "budget"; "color"; "icon"] = true
  /\ has_columns (with_tables db) "payment_methods" ["name"; "type"] = true.
Proof.
  intros Hc Hp. unfold with_tables.
  set (db1 := create_table_if_not_exists InitDb.users_table db).
  set (db2 := create_table_if_not_exists InitDb.expenses_table db1).
  assert (Hc2 : stored_as_created db2 InitDb.categories_table).
  { subst db2 db1.
    do 2 (apply stored_as_created_create; [discriminate|]). exact Hc. }
  assert (Hp2 : stored_as_created db2 InitDb.payment_methods_table).
  { subst db2 db1.
    do 2 (apply stored_as_created_create; [discriminate|]). exact Hp. }
  pose proof (lookup_table_as_created db2 InitDb.categories_table Hc2) as Lc.
  set (db3 := create_table_if_not_exists InitDb.categories_table db2) in *.
  assert (Hp3 : stored_as_created db3 InitDb.payment_methods_table)
    by (subst db3; apply stored_as_created_create; [discriminate|exact Hp2]).
  pose proof (lookup_table_as_created db3 InitDb.payment_methods_table Hp3)
    as Lp.
  apply (lookup_table_keep InitDb.payment_methods_table) in Lc.
  split.
  - change "categories"%string
      with (Schema.tbl_name InitDb.categories_table).
    now rewrite (has_columns_lookup _ _ _ Lc).
  - change "payment_methods"%string
      with (Schema.tbl_name InitDb.payment_methods_table).
    now rewrite (has_columns_lookup _ _ _ Lp).
Qed.

Lemma init_db_result (now : string) (file : option database) :
  reference_tables_as_created file ->
  exists db',
    InitDb.init_db now file = Some db'
    /\ initialised db'
    /\ (forall db, file = Some db ->
          same_user_data db db'
          /\ (categories db <> [] -> categories db' = categories db)
          /\ (payment_methods db <> [] ->
              payment_methods db' = payment_methods db)
          /\ (categories db = [] ->
              map category_values (categories db')
              = InitDb.default_categories)
          /\ (payment_methods db = [] ->
              map payment_values (payment_methods db')
              = InitDb.default_payments)).
Proof.
  intros Hfile. rewrite init_db_unfold. cbv zeta.
  set (db0 := match file with Some d => d | None => empty_database end).
  assert (Hs0 : stored_as_created db0 InitDb.categories_table
                /\ stored_as_created db0 InitDb.payment_methods_table).
  { subst db0. destruct file as [d|]; [exact Hfile|].
    split; intros x []. }
  destruct (with_tables_columns db0 (proj1 Hs0) (proj2 Hs0)) as [Kc Kp].
  destruct (with_tables_data db0)
    as ((U4 & E4 & SU4 & SE4) & C4 & P4 & Htables).
  set (db4 := with_tables db0) in *.
  destruct (seed_categories now db4 Kc)
    as (db5 & -> & (U5 & E5 & SU5 & SE5) & S5 & P5 & _ & C5 & K5 & D5).
  rewrite <- (has_columns_schema db4 db5 _ _ S5) in Kp.
  destruct (seed_payment_methods db5 Kp)
    as (db6 & -> & (U6 & E6 & SU6 & SE6) & S6 & C6 & _ & P6 & K6 & D6).
  exists db6. split; [reflexivity|]. split.
  - unfold initialised.
    rewrite !(has_table_schema db4 db6) by congruence.
    destruct Htables as (? & ? & ? & ?).
    repeat (split; [assumption|]). split; [congruence|exact P6].
  - intros db Hf. subst file. subst db0.
    split; [unfold same_user_data; repeat split; congruence|].
    split; [intros H; rewrite <- C4 in H; rewrite C6, (K5 H); exact C4|].
    split.
    { intros H. rewrite <- P4, <- P5 in H. rewrite (K6 H), P5. exact P4. }
    split.
    { intros H. rewrite C6. apply D5. congruence. }
    intros H. apply D6. congruence.
Qed.

(** What [init_db] leaves whenever it returns. *)
Lemma init_db_seeded (now : string) (file : option database)
  (db' : database) :
  InitDb.init_db now file = Some db' ->
  categories db' <> [] /\ payment_methods db' <> [].
Proof.
  rewrite init_db_unfold. cbv zeta.
  set (db4 := with_tables _). rewrite !count_zero.
  assert (Hlen : forall A (l : list A), l <> [] <-> (0 < List.length l)%nat)
    by (intros A [|x l]; cbn [List.length]; split;
        (congruence || lia || discriminate)).
  destruct (categories db4) as [|c cs] eqn:Hc.
  - destruct (executemany (insert_category now) InitDb.default_categories db4)
      as [db5|] eqn:E5; [|discriminate].
    apply executemany_insert_category_length in E5 as [L5 P5].
    rewrite Hc in L5. cbn [List.length InitDb.default_categories] in L5.
    destruct (payment_methods db5) as [|p ps] eqn:Hp.
    + intros E6.
      apply executemany_insert_payment_method_length in E6 as [L6 C6].
      rewrite Hp in L6. cbn [List.length InitDb.default_payments] in L6.
      split; apply Hlen; [rewrite C6|]; lia.
    + intros E6. injection E6 as <-.
      split; apply Hlen; [|rewrite Hp; cbn [List.length]]; lia.
  - destruct (payment_methods db4) as [|p ps] eqn:Hp.
    + intros E6.
      apply executemany_insert_payment_method_length in E6 as [L6 C6].
      rewrite Hp in L6. cbn [List.length InitDb.default_payments] in L6.
      split; apply Hlen; [rewrite C6, Hc; cbn [List.length]|]; lia.
    + intros E6. injection E6 as <-. rewrite Hc, Hp. split; discriminate.
Qed.




Lemma apply_operation_reference (db : database) (o : operation) :
  schema (apply_operation db o) = schema db
  /\ categories (apply_operation db o) = categories db
  /\ payment_methods (apply_operation db o) = payment_methods db
  /\ users (apply_operation db o) = users db.
Proof.
  destruct o; cbn [apply_operation];
    unfold render_add_expense, add_expense, update_expense, delete_expense;
    repeat match goal with
           | |- context [if ?c then _ else _] => destruct c
           end; repeat split.
Qed.

Lemma run_reference (ops : list operation) :
  forall db,
    schema (run ops db) = schema db
    /\ categories (run ops db) = categories db
    /\ payment_methods (run ops db) = payment_methods db
    /\ users (run ops db) = users db.
Proof.
  unfold run. induction ops as [|o ops IH]; intros db; [repeat split|].
  cbn [fold_left].
  destruct (IH (apply_operation db o)) as (H1 & H2 & H3 & H4).
  destruct (apply_operation_reference db o) as (G1 & G2 & G3 & G4).
  repeat split; congruence.
Qed.

Lemma init_db_initialised (now : string) (db : database) :
  initialised db -> InitDb.init_db now (Some db) = Some db.
Proof.
  intros (Hu & He & Hc & Hp & Hcs & Hps). unfold InitDb.init_db.
  rewrite (create_table_if_not_exists_same InitDb.users_table db Hu).
  rewrite (create_table_if_not_exists_same InitDb.expenses_table db He).
  rewrite (create_table_if_not_exists_same InitDb.categories_table db Hc).
  rewrite (create_table_if_not_exists_same InitDb.payment_methods_table db
             Hp).
  rewrite !count_zero.
  destruct (categories db); [contradiction|].
  destruct (payment_methods db); [contradiction|]. reflexivity.
Qed.

(** X4: on a database that has the four tables and seeded reference
    tables, [init_db] changes nothing; so after the first run, [init_db] at
    a later start finds the database as the expense operations left it and
    returns it as it is. *)
Theorem init_db_idempotent :
  (forall now db, initialised db -> InitDb.init_db now (Some db) = Some db)
  /\ (forall now now' ops,
        exists db,
          InitDb.init_db now None = Some db
          /\ InitDb.init_db now' (Some (run ops db)) = Some (run ops db)).
Proof.
  split; [exact init_db_initialised|].
  intros now now' ops.
  destruct (init_db_result now None I) as (db & Hdb & Hinit & _).
  exists db. split; [exact Hdb|]. apply init_db_initialised.
  destruct (run_reference ops db) as (Hs & Hc & Hp & _).
  destruct Hinit as (H1 & H2 & H3 & H4 & H5 & H6).
  unfold initialised. rewrite !(has_table_schema db (run ops db)) by exact Hs.
  rewrite Hc, Hp. auto 10.
Qed.

End Initialisation.

(** ** Keys of the expenses table *)
Section Keys.
Local Open Scope list_scope.
Local Open Scope Z_scope.

Lemma no_target_noop (db : database) (u eid : Z) :
  (~ exists x, In x (expenses db)
               /\ Expense.id x = eid /\ Expense.user_id x = u) ->
  delete_expense db u eid = (db, false)
  /\ forall now d a c ds t p r,
       update_expense now db u eid d a c ds t p r = (db, false).
Proof.
  intros Hno. pose proof (no_target_filter eid u _ Hno) as Hnone.
  unfold update_expense, delete_expense.
  rewrite (filter_none _ _ Hnone). cbn [Sqlite.COUNT List.length Z.of_nat].
  cbn [Z.ltb Z.compare andb].
  rewrite filter_all by (intros x Hx; now rewrite (Hnone x Hx)).
  rewrite set_expenses_same. split; [reflexivity|]. intros.
  now rewrite (map_untargeted _ _ Hnone), set_expenses_same.
Qed.

(** X5: [delete_expense] removes the rows with the given id and owner and
    no other row, and leaves the key counter as it was; what the owner
    reads afterwards is what was read before without the rows of that id,
    in the same order.  A second call with the same arguments finds
    nothing: it changes nothing and returns False, and so does an update of
    the deleted expense. *)
Theorem delete_expense_removes (db : database) (u eid : Z) :
  let db' := fst (delete_expense db u eid) in
  (forall e,
     In e (expenses db')
     <-> In e (expenses db)
         /\ ~ (Expense.id e = eid /\ Expense.user_id e = u))
  /\ (forall q,
        get_expenses db' u q
        = filter (fun e => negb (Expense.id e =? eid)) (get_expenses db u q))
  /\ (forall v, v <> u -> owned_by v (expenses db') = owned_by v (expenses db))
  /\ seq_expenses db' = seq_expenses db
  /\ delete_expense db' u eid = (db', false)
  /\ (forall now d a c ds t p r,
        update_expense now db' u eid d a c ds t p r = (db', false)).
Proof.
  intros db'.
  assert (Hmem : forall e,
             In e (expenses db')
             <-> In e (expenses db)
                 /\ ~ (Expense.id e = eid /\ Expense.user_id e = u)).
  { intros e. subst db'. unfold delete_expense.
    cbn [fst expenses set_expenses]. rewrite filter_In, negb_true_iff.
    unfold targets. rewrite andb_false_iff, !Z.eqb_neq. intuition lia. }
  assert (Hgone : ~ exists x, In x (expenses db')
                              /\ Expense.id x = eid /\ Expense.user_id x = u).
  { intros (x & Hx & Hi & Hu). apply Hmem in Hx. tauto. }
  split; [exact Hmem|]. split.
  { intros q. subst db'. unfold delete_expense, get_expenses.
    cbn [fst expenses set_expenses].
    destruct q as [conds|];
      rewrite <- (order_by_filter expense_order expense_order_total
                    expense_order_trans);
      f_equal; rewrite <- !filter_andb; apply filter_ext; intros e;
      unfold targets;
      destruct (Expense.id e =? eid), (Expense.user_id e =? u);
      cbn [negb andb]; rewrite ?andb_true_r, ?andb_false_r; reflexivity. }
  split.
  { intros v Hv. subst db'. unfold delete_expense.
    cbn [fst expenses set_expenses]. apply owned_by_delete. congruence. }
  split; [reflexivity|].
  destruct (no_target_noop db' u eid Hgone) as [Hd Hu].
  split; [exact Hd|exact Hu].
Qed.

Lemma expense_keys_add (now : string) (db : database) (u : Z) (d : string)
  (a : Q) (c ds t p : string) (r : bool) :
  expense_keys_ok db ->
  expense_keys_ok (fst (add_expense now db u d a c ds t p r))
  /\ seq_expenses db <= seq_expenses (fst (add_expense now db u d a c ds t p r)).
Proof.
  intros (Hnd & Hseq & Hall). unfold add_expense.
  destruct (check_amount a); cbn [fst]; [|split; [now repeat split|lia]].
  destruct (next_rowid_fresh (seq_expenses db) (map Expense.id (expenses db)))
    as [Hfresh Hlt].
  unfold expense_keys_ok. cbn [expenses seq_expenses set_expenses].
  rewrite map_app. cbn [map Expense.id].
  split; [|lia]. split; [|split; [lia|]].
  - apply NoDup_app; [exact Hnd|repeat constructor; intros []|].
    intros i Hi [<-|[]]. contradiction.
  - apply Forall_app. split.
    + revert Hall. apply Forall_impl. intros i Hi. lia.
    + constructor; [lia|constructor].
Qed.

Lemma expense_keys_update (now : string) (db : database) (u eid : Z)
  (d : string) (a : Q) (c ds t p : string) (r : bool) :
  map Expense.id (expenses (fst (update_expense now db u eid d a c ds t p r)))
  = map Expense.id (expenses db)
  /\ seq_expenses (fst (update_expense now db u eid d a c ds t p r))
     = seq_expenses db.
Proof.
  unfold update_expense.
  destruct ((0 <? _) && _); cbn [fst expenses seq_expenses set_expenses];
    [now split|].
  split; [|reflexivity]. rewrite map_map. apply map_ext.
  intros e. now destruct (targets eid u e).
Qed.

Lemma filter_keeps_keys_distinct {Row Key : Type} (keep : Row -> bool)
  (key : Row -> Key) (rows : list Row) :
  NoDup (map key rows) -> NoDup (map key (filter keep rows)).
Proof.
  revert keep key.
  intros p f. induction rows as [|x l IH]; cbn [map filter]; intros H;
    [constructor|].
  apply NoDup_cons_iff in H as [Hx Hl].
  destruct (p x); [|now apply IH].
  cbn [map]. constructor; [|now apply IH].
  intros Hin. apply Hx. apply in_map_iff in Hin as (y & E & Hy).
  apply in_map_iff. exists y. split; [exact E|].
  now apply filter_In in Hy.
Qed.

Lemma expense_keys_delete (db : database) (u eid : Z) :
  expense_keys_ok db ->
  expense_keys_ok (fst (delete_expense db u eid))
  /\ seq_expenses (fst (delete_expense db u eid)) = seq_expenses db.
Proof.
  intros (Hnd & Hseq & Hall). unfold delete_expense, expense_keys_ok.
  cbn [fst expenses seq_expenses set_expenses].
  split; [|reflexivity]. split; [now apply filter_keeps_keys_distinct|].
  split; [exact Hseq|].
  rewrite Forall_forall in *. intros i Hi. apply Hall.
  apply in_map_iff in Hi as (e & <- & He). apply in_map.
  now apply filter_In in He.
Qed.

Lemma expense_keys_apply (db : database) (o : operation) :
  expense_keys_ok db ->
  expense_keys_ok (apply_operation db o)
  /\ seq_expenses db <= seq_expenses (apply_operation db o).
Proof.
  intros H. destruct o; cbn [apply_operation].
  - now apply expense_keys_add.
  - unfold render_add_expense.
    destruct (Sqlite.real_ltb 0 amount); [|split; [exact H|cbn [fst]; lia]].
    pose proof (expense_keys_add now db user_id
                  (PyDatetime.strftime_Ymd date) amount category description
                  tags payment_method recurring H) as H'.
    destruct (add_expense now db user_id (PyDatetime.strftime_Ymd date)
                amount category description tags payment_method recurring)
      as [db' ok].
    destruct ok; exact H'.
  - destruct (expense_keys_update now db user_id expense_id date amount
                category description tags payment_method recurring)
      as [Hids Hs].
    unfold expense_keys_ok. rewrite Hids, Hs. split; [exact H|lia].
  - destruct (expense_keys_delete db user_id expense_id H) as [H' Hs].
    split; [exact H'|lia].
Qed.

Lemma expense_keys_run (ops : list operation) :
  forall db, expense_keys_ok db ->
             expense_keys_ok (run ops db)
             /\ seq_expenses db <= seq_expenses (run ops db).
Proof.
  unfold run. induction ops as [|o ops IH]; intros db H.
  - split; [exact H|cbn; lia].
  - cbn [fold_left]. destruct (expense_keys_apply db o H) as [H1 H2].
    destruct (IH _ H1) as [H3 H4]. split; [exact H3|lia].
Qed.

(** X6: the keys of the expenses table stay distinct and positive under
    every sequence of add, update and delete operations, from the database
    [init_db] creates on; and a key is never handed out again: the key the
    next insert would get is larger than every key ever stored, also when
    that row has been deleted since. *)
Theorem expense_keys_never_reused :
  (forall ops db, expense_keys_ok db -> expense_keys_ok (run ops db))
  /\ (forall now ops,
        exists db, InitDb.init_db now None = Some db
                   /\ expense_keys_ok (run ops db))
  /\ (forall ops db e,
        expense_keys_ok db -> In e (expenses db) ->
        Expense.id e
        < next_rowid (seq_expenses (run ops db))
            (map Expense.id (expenses (run ops db)))).
Proof.
  split; [intros ops db H; now apply expense_keys_run|]. split.
  - intros now ops. destruct (init_db_fresh now) as (db & Hdb & Hes & _).
    exists db. split; [exact Hdb|]. apply expense_keys_run.
    unfold expense_keys_ok. rewrite Hes. cbn [map].
    split; [constructor|]. split; [|constructor].
    revert Hdb. vm_compute. intros H. injection H as <-. discriminate.
  - intros ops db e H He.
    destruct (expense_keys_run ops db H) as [_ Hmono].
    destruct H as (_ & _ & Hall). rewrite Forall_forall in Hall.
    specialize (Hall _ (in_map Expense.id _ _ He)).
    destruct (next_rowid_fresh (seq_expenses (run ops db))
                (map Expense.id (expenses (run ops db)))) as [_ Hlt].
    lia.
Qed.

Lemma targets_at_most_one (db : database) (u eid : Z) :
  expense_keys_ok db ->
  (List.length (filter (targets eid u) (expenses db)) <= 1)%nat.
Proof.
  intros (Hnd & _). induction (expenses db) as [|e es IH]; [cbn; lia|].
  cbn [map] in Hnd. apply NoDup_cons_iff in Hnd as [He Hnd].
  cbn [filter]. destruct (targets eid u e) eqn:Ht; [|now apply IH].
  rewrite filter_none; [cbn; lia|].
  intros x Hx. unfold targets in *.
  apply andb_true_iff in Ht as [Hi _]. apply Z.eqb_eq in Hi.
  destruct (Z.eqb_spec (Expense.id x) eid) as [E|]; [|reflexivity].
  exfalso. apply He. rewrite Hi, <- E. now apply in_map.
Qed.

(** X7: with distinct keys, an update of an expense the user owns to a
    positive amount succeeds and changes that one row: it gets the new
    values, keeps its id, owner and [created_at], and takes
    CURRENT_TIMESTAMP as [updated_at]; every other row, the number of rows
    and the key counter stay as they were. *)
Theorem update_expense_one_row (now : string) (db : database) (u eid : Z)
  (d : string) (a : Q) (c ds t p : string) (r : bool) (x : Expense.t) :
  expense_keys_ok db -> In x (expenses db) ->
  Expense.id x = eid -> Expense.user_id x = u -> (0 < a)%Q ->
  let db' := fst (update_expense now db u eid d a c ds t p r) in
  let new := Expense.mk eid u d a c ds t p r (Expense.created_at x) now in
  snd (update_expense now db u eid d a c ds t p r) = true
  /\ (forall e,
        In e (expenses db')
        <-> e = new \/ (In e (expenses db) /\ Expense.id e <> eid))
  /\ List.length (expenses db') = List.length (expenses db)
  /\ expense_keys_ok db'
  /\ (List.length (filter (targets eid u) (expenses db)) = 1)%nat.
Proof.
  intros Hok Hx Hid Hu Ha db' new.
  assert (Hex : exists y, In y (expenses db)
                          /\ Expense.id y = eid /\ Expense.user_id y = u)
    by (exists x; auto).
  pose proof (target_count_pos eid u _ Hex) as Hpos.
  apply check_amount_true in Ha.
  assert (Hrows : expenses db'
                  = map (fun e => if targets eid u e
                                  then Expense.mk (Expense.id e)
                                         (Expense.user_id e) d a c ds t p r
                                         (Expense.created_at e) now
                                  else e) (expenses db)).
  { subst db'. unfold update_expense. rewrite Hpos, Ha. reflexivity. }
  assert (Huniq : forall y, In y (expenses db) -> Expense.id y = eid -> y = x).
  { destruct Hok as (Hnd & _). intros y Hy Hyid.
    clear - Hnd Hx Hy Hyid Hid. induction (expenses db) as [|z zs IH];
      [destruct Hx|].
    cbn [map] in Hnd. apply NoDup_cons_iff in Hnd as [Hz Hnd].
    destruct Hx as [->|Hx], Hy as [->|Hy]; auto.
    - exfalso. apply Hz. rewrite Hid, <- Hyid. now apply in_map.
    - exfalso. apply Hz. rewrite Hyid, <- Hid. now apply in_map. }
  split; [unfold update_expense; now rewrite Hpos, Ha|].
  split.
  { intros e. rewrite Hrows, in_map_iff. split.
    - intros (y & <- & Hy). unfold targets.
      destruct (Z.eqb_spec (Expense.id y) eid) as [E|E]; cbn [andb].
      + rewrite (Huniq y Hy E), Hu, Z.eqb_refl, Hid. now left.
      + right. auto.
    - intros [->|[He Hne]].
      + exists x. split; [|exact Hx]. unfold targets.
        now rewrite Hid, Hu, !Z.eqb_refl.
      + exists e. split; [|exact He]. unfold targets.
        apply Z.eqb_neq in Hne. now rewrite Hne. }
  split; [rewrite Hrows; apply length_map|].
  split.
  { destruct (expense_keys_update now db u eid d a c ds t p r) as [Hids Hs].
    fold db' in Hids, Hs. unfold expense_keys_ok. rewrite Hids, Hs.
    exact Hok. }
  pose proof (targets_at_most_one db u eid Hok) as Hle.
  apply Z.ltb_lt in Hpos. unfold Sqlite.COUNT in Hpos. lia.
Qed.

End Keys.

(** ** Accounts: registration and login *)
Section AccountProperties.
Local Open Scope list_scope.
Local Open Scope Z_scope.

Variable sha256_hexdigest : string -> string.

Lemma NoDup_map_in_inj {A B} (key : A -> B) (l : list A) (x y : A) :
  NoDup (map key l) -> In x l -> In y l -> key x = key y -> x = y.
Proof.
  induction l as [|z zs IH]; intros Hnd Hx Hy Hk; [destruct Hx|].
  cbn [map] in Hnd. apply NoDup_cons_iff in Hnd as [Hz Hnd].
  destruct Hx as [->|Hx], Hy as [->|Hy]; auto.
  - exfalso. apply Hz. rewrite Hk. now apply in_map.
  - exfalso. apply Hz. rewrite <- Hk. now apply in_map.
Qed.

Lemma fetchone_in {A} (p : A -> bool) (l : list A) (r : A) :
  fetchone (filter p l) = Some r -> In r l /\ p r = true.
Proof.
  unfold fetchone. destruct (filter p l) as [|x xs] eqn:E; [discriminate|].
  intros H. injection H as <-. apply filter_In. rewrite E. now left.
Qed.

Lemma fetchone_none {A} (p : A -> bool) (l : list A) :
  fetchone (filter p l) = None <-> forall x, In x l -> p x = false.
Proof.
  unfold fetchone. split.
  - destruct (filter p l) as [|y ys] eqn:E; [|discriminate].
    intros _ x Hx. destruct (p x) eqn:Hp; [|reflexivity].
    assert (In x (filter p l)) as Hin by (apply filter_In; auto).
    rewrite E in Hin. destruct Hin.
  - intros H. now rewrite (filter_none p l H).
Qed.

Lemma fetchone_unique {A B} (key : A -> B) (p : A -> bool) (l : list A)
  (r : A) :
  NoDup (map key l) -> In r l -> p r = true ->
  (forall x, In x l -> p x = true -> key x = key r) ->
  fetchone (filter p l) = Some r.
Proof.
  intros Hnd Hr Hp Hkey.
  destruct (fetchone (filter p l)) as [x|] eqn:E.
  - apply fetchone_in in E as [Hx Hpx]. f_equal.
    pose proof (Hkey x Hx Hpx) as Hk.
    clear - Hnd Hr Hx Hk. induction l as [|z zs IH]; [destruct Hr|].
    cbn [map] in Hnd. apply NoDup_cons_iff in Hnd as [Hz Hnd].
    destruct Hr as [->|Hr], Hx as [->|Hx]; auto.
    + exfalso. apply Hz. rewrite <- Hk. now apply in_map.
    + exfalso. apply Hz. rewrite Hk. now apply in_map.
  - exfalso. rewrite fetchone_none in E. rewrite (E r Hr) in Hp. discriminate.
Qed.

Lemma username_taken (db : database) (username : string) :
  existsb (fun r => Sqlite.text_eqb (User.username r) username) (users db)
  = true
  <-> exists r, In r (users db) /\ User.username r = username.
Proof.
  rewrite existsb_exists. unfold Sqlite.text_eqb.
  split; intros (r & Hr & E); exists r; split; auto;
    now apply String.eqb_eq.
Qed.

Lemma create_user_fresh (now : string) (db : database)
  (username password : string) :
  users_ok db ->
  (forall r, In r (users db) -> User.username r <> username) ->
  let k := next_rowid (seq_users db) (map User.id (users db)) in
  let db' :=
    set_users db
      (users db ++ [User.mk k username (sha256_hexdigest password) now]) k in
  create_user sha256_hexdigest now db username password = (db', true)
  /\ users_ok db' /\ 1 <= k.
Proof.
  intros (Hnames & Hids & Hseq & Hall) Hfresh k db'.
  destruct (next_rowid_fresh (seq_users db) (map User.id (users db)))
    as [Hk Hlt]. fold k in Hk, Hlt.
  split; [|split; [|lia]].
  - unfold create_user.
    destruct (existsb _ (users db)) eqn:E; [|reflexivity].
    apply username_taken in E as (r & Hr & Hu).
    exfalso. exact (Hfresh r Hr Hu).
  - unfold users_ok. subst db'. cbn [users seq_users set_users].
    rewrite !map_app. cbn [map User.username User.id].
    split; [|split; [|split; [lia|]]].
    + apply NoDup_app; [exact Hnames|repeat constructor; intros []|].
      intros n Hn [<-|[]]. apply in_map_iff in Hn as (r & E & Hr).
      exact (Hfresh r Hr E).
    + apply NoDup_app; [exact Hids|repeat constructor; intros []|].
      intros i Hi [<-|[]]. contradiction.
    + apply Forall_app. split.
      * revert Hall. apply Forall_impl. intros i Hi. lia.
      * constructor; [lia|constructor].
Qed.

Lemma authenticate_user_iff (db : database) (username password : string)
  (i : Z) :
  users_ok db ->
  (authenticate_user sha256_hexdigest db username password = Some i
   <-> exists r, In r (users db) /\ User.username r = username
                 /\ User.password r = sha256_hexdigest password
                 /\ User.id r = i).
Proof.
  intros (Hnames & _). unfold authenticate_user. cbv zeta. split.
  - destruct (fetchone _) as [r|] eqn:E; [|discriminate].
    intros H. injection H as <-. apply fetchone_in in E as [Hr Hp].
    apply andb_true_iff in Hp as [H1 H2].
    apply String.eqb_eq in H1, H2. exists r. auto.
  - intros (r & Hr & Hu & Hp & <-).
    rewrite (fetchone_unique User.username _ (users db) r Hnames Hr);
      [reflexivity| |].
    + unfold Sqlite.text_eqb. now rewrite Hu, Hp, !String.eqb_refl.
    + intros x _ Hx. apply andb_true_iff in Hx as [Hx _].
      apply String.eqb_eq in Hx. congruence.
Qed.

Lemma get_user_id_iff (db : database) (username : string) (i : Z) :
  users_ok db ->
  (get_user_id db username = Some i
   <-> exists r, In r (users db) /\ User.username r = username
                 /\ User.id r = i).
Proof.
  intros (Hnames & _). unfold get_user_id. split.
  - destruct (fetchone _) as [r|] eqn:E; [|discriminate].
    intros H. injection H as <-. apply fetchone_in in E as [Hr Hp].
    apply String.eqb_eq in Hp. exists r. auto.
  - intros (r & Hr & Hu & <-).
    rewrite (fetchone_unique User.username _ (users db) r Hnames Hr);
      [reflexivity| |].
    + unfold Sqlite.text_eqb. now rewrite Hu, String.eqb_refl.
    + intros x _ Hx. apply String.eqb_eq in Hx. congruence.
Qed.

(** X8: registering a new username with a non-empty password typed twice
    creates the account; a login with that username and password then
    succeeds and puts the new user's id, a positive key, into the session,
    and [get_user_id] returns the same id; a login with a password whose
    hash differs is refused and leaves the session as it was. *)
Theorem register_then_login (now : string) (db : database) (s : session)
  (username password : string) :
  users_ok db ->
  truthy username = true -> truthy password = true ->
  (forall r, In r (users db) -> User.username r <> username) ->
  let k := next_rowid (seq_users db) (map User.id (users db)) in
  let db' :=
    fst (register_form sha256_hexdigest now db username password password) in
  snd (register_form sha256_hexdigest now db username password password)
  = AccountCreated
  /\ users_ok db'
  /\ 1 <= k
  /\ login_form sha256_hexdigest db' s username password
     = (mkSession (Some username) (Some k), LoginSuccessful)
  /\ get_user_id db' username = Some k
  /\ (forall wrong,
        sha256_hexdigest wrong <> sha256_hexdigest password ->
        fst (login_form sha256_hexdigest db' s username wrong) = s
        /\ snd (login_form sha256_hexdigest db' s username wrong)
           <> LoginSuccessful).
Proof.
  intros Hok Hu Hp Hfresh k db'.
  destruct (create_user_fresh now db username password Hok Hfresh)
    as (Hcreate & Hok' & Hk). fold k in Hcreate, Hok', Hk.
  set (row := User.mk k username (sha256_hexdigest password) now) in *.
  assert (Hdb' : db' = set_users db (users db ++ [row]) k).
  { subst db'. unfold register_form.
    rewrite Hu, Hp, String.eqb_refl, Hcreate. reflexivity. }
  assert (Hrow : In row (users db'))
    by (rewrite Hdb'; cbn [users set_users]; apply in_app_iff; right;
        now left).
  rewrite <- Hdb' in Hok'.
  assert (Hauth : authenticate_user sha256_hexdigest db' username password
                  = Some k).
  { apply (authenticate_user_iff db' username password k Hok').
    exists row. auto. }
  split.
  { unfold register_form. rewrite Hu, Hp, String.eqb_refl, Hcreate.
    reflexivity. }
  split; [exact Hok'|]. split; [exact Hk|]. split.
  { unfold login_form. rewrite Hu, Hp, Hauth. cbn [andb].
    destruct (Z.eqb_spec k 0); [lia|reflexivity]. }
  split.
  { apply (get_user_id_iff db' username k Hok'). exists row. auto. }
  intros wrong Hwrong. unfold login_form.
  destruct (truthy username && truthy wrong); [|split; [reflexivity|discriminate]].
  destruct (authenticate_user sha256_hexdigest db' username wrong) as [i|] eqn:E;
    [|split; [reflexivity|discriminate]].
  exfalso. apply (authenticate_user_iff db' username wrong i Hok') in E.
  destruct E as (r & Hr & Hn & Hpw & _).
  destruct Hok' as (Hnames & _).
  assert (r = row) as ->
    by (apply (NoDup_map_in_inj User.username (users db')); auto).
  cbn [User.password row] in Hpw. congruence.
Qed.

(** X9: the register form changes the database only when it reports
    "Account created": an empty field, two different passwords or a
    username that exists leave it as it was, each with its own message;
    an account is created exactly when all fields are filled, the
    passwords agree and the username is new; and in every case the earlier
    users stay and usernames stay distinct. *)
Theorem register_form_outcomes (now : string) (db : database)
  (username password confirm : string) :
  let result := register_form sha256_hexdigest now db username password
                  confirm in
  (snd result <> AccountCreated -> fst result = db)
  /\ (snd result = FillAllFields
      <-> truthy username && truthy password && truthy confirm = false)
  /\ (snd result = PasswordsDoNotMatch
      <-> truthy username && truthy password && truthy confirm = true
          /\ password <> confirm)
  /\ (snd result = UsernameAlreadyExists
      <-> truthy username && truthy password && truthy confirm = true
          /\ password = confirm
          /\ exists r, In r (users db) /\ User.username r = username)
  /\ (exists added, users (fst result) = users db ++ added)
  /\ (users_ok db -> users_ok (fst result)).
Proof.
  intros result. subst result. unfold register_form.
  destruct (truthy username && truthy password && truthy confirm) eqn:Hf.
  2:{ cbn [fst snd]. split; [reflexivity|].
      split; [tauto|]. split; [intuition discriminate|].
      split; [intuition discriminate|].
      split; [exists []; now rewrite app_nil_r|tauto]. }
  destruct (String.eqb_spec password confirm) as [Heq|Hne].
  2:{ cbn [fst snd]. split; [reflexivity|].
      split; [intuition discriminate|]. split; [tauto|].
      split; [intuition discriminate|].
      split; [exists []; now rewrite app_nil_r|tauto]. }
  unfold create_user. cbv zeta.
  destruct (existsb _ (users db)) eqn:Hex.
  - pose proof (proj1 (username_taken db username) Hex) as Htaken.
    cbn [fst snd]. split; [reflexivity|].
    split; [intuition discriminate|]. split; [intuition discriminate|].
    split; [tauto|].
    split; [exists []; now rewrite app_nil_r|tauto].
  - cbn [fst snd]. split; [intros H; now elim H|].
    split; [intuition discriminate|]. split; [intuition discriminate|].
    split.
    { split; [discriminate|]. intros (_ & _ & Htaken).
      apply username_taken in Htaken. congruence. }
    split; [cbn [users set_users]; eauto|].
    intros Hok. apply (create_user_fresh now db username password Hok).
    intros r Hr E.
    assert (existsb (fun r => Sqlite.text_eqb (User.username r) username)
              (users db) = true) as Habs
      by (apply username_taken; eauto).
    congruence.
Qed.

(** X10: with distinct usernames, the login form starts a session only
    for a stored user whose username and password hash both match, and the
    session then holds that user's name and id, the id [get_user_id] gives
    for the name; in every other case the session is left as it was; with
    an empty username or password the database is not consulted. *)
Theorem login_form_sound (db : database) (s : session)
  (username password : string) :
  users_ok db ->
  let result := login_form sha256_hexdigest db s username password in
  (snd result = LoginSuccessful ->
   exists r,
     In r (users db) /\ User.username r = username
     /\ User.password r = sha256_hexdigest password
     /\ fst result = mkSession (Some username) (Some (User.id r))
     /\ get_user_id db username = Some (User.id r))
  /\ (snd result <> LoginSuccessful -> fst result = s)
  /\ (snd result = EnterBothUsernameAndPassword
      <-> username = ""%string \/ password = ""%string)
  /\ ((exists r, In r (users db) /\ User.username r = username
                 /\ User.password r = sha256_hexdigest password)
      -> username <> ""%string -> password <> ""%string ->
      snd result = LoginSuccessful).
Proof.
  intros Hok result. subst result. unfold login_form.
  assert (Htruthy : forall x, truthy x = false <-> x = ""%string).
  { intros x. unfold truthy. rewrite negb_false_iff. apply String.eqb_eq. }
  destruct (truthy username) eqn:Hu; cbn [andb].
  2:{ apply Htruthy in Hu. cbn [fst snd].
      split; [discriminate|]. split; [reflexivity|].
      split; [tauto|]. intros _ H. contradiction. }
  destruct (truthy password) eqn:Hp.
  2:{ apply Htruthy in Hp. cbn [fst snd].
      split; [discriminate|]. split; [reflexivity|].
      split; [tauto|]. intros _ _ H. contradiction. }
  assert (Hnu : username <> ""%string)
    by (intros E; apply Htruthy in E; congruence).
  assert (Hnp : password <> ""%string)
    by (intros E; apply Htruthy in E; congruence).
  destruct (authenticate_user sha256_hexdigest db username password)
    as [i|] eqn:E.
  - apply (authenticate_user_iff db username password i Hok) in E.
    destruct E as (r & Hr & Hn & Hpw & Hi).
    assert (Hpos : 1 <= i).
    { destruct Hok as (_ & _ & _ & Hall). rewrite Forall_forall in Hall.
      rewrite <- Hi. apply (Hall (User.id r)). now apply in_map. }
    destruct (Z.eqb_spec i 0); [lia|]. cbn [fst snd].
    split.
    { intros _. exists r. rewrite Hi. repeat (split; [assumption|]).
      split; [reflexivity|].
      apply (get_user_id_iff db username i Hok). exists r. auto. }
    split; [intros H; now elim H|].
    split; [|reflexivity]. split; [discriminate|tauto].
  - cbn [fst snd]. split; [discriminate|]. split; [reflexivity|].
    split; [split; [discriminate|tauto]|].
    intros (r & Hr & Hn & Hpw) _ _. exfalso.
    assert (authenticate_user sha256_hexdigest db username password
            = Some (User.id r)) as Habs
      by (apply (authenticate_user_iff db username password _ Hok);
          exists r; auto).
    congruence.
Qed.

End AccountProperties.

(** ** GROUP BY *)
Section Grouping.
Local Open Scope list_scope.

Lemma total_cons (x : Q) (l : list Q) : (total (x :: l) == x + total l)%Q.
Proof.
  unfold total. cbn [fold_left].
  assert (H : forall l a b, (fold_left Qplus l (a + b) == a + fold_left Qplus l b)%Q).
  { clear. induction l as [|y l IH]; intros a b; cbn [fold_left].
    - reflexivity.
    - rewrite <- IH. clear IH.
      assert (forall l u v, (u == v)%Q ->
                (fold_left Qplus l u == fold_left Qplus l v)%Q) as Hext.
      { clear. induction l as [|z l IH]; intros u v E; cbn [fold_left];
          [exact E|]. apply IH. now rewrite E. }
      apply Hext. ring. }
  rewrite <- H. assert (forall l u v, (u == v)%Q ->
                (fold_left Qplus l u == fold_left Qplus l v)%Q) as Hext.
  { clear. induction l as [|z l IH]; intros u v E; cbn [fold_left];
      [exact E|]. apply IH. now rewrite E. }
  apply Hext. ring.
Qed.

Lemma total_perm (l l' : list Q) :
  Permutation l l' -> (total l == total l')%Q.
Proof.
  induction 1 as [|x l l' _ IH|x y l|l l' l'' _ IH1 _ IH2].
  - reflexivity.
  - now rewrite !total_cons, IH.
  - rewrite !total_cons. ring.
  - now rewrite IH1.
Qed.

Lemma total_map_ext {K} (f g : K -> Q) (D : list K) :
  (forall k, In k D -> (f k == g k)%Q) ->
  (total (map f D) == total (map g D))%Q.
Proof.
  induction D as [|k D IH]; intros H; [reflexivity|].
  cbn [map]. rewrite !total_cons, (H k (or_introl eq_refl)), IH;
    [reflexivity|].
  intros k' Hk'. apply H. now right.
Qed.

Lemma total_map_plus {K} (f g : K -> Q) (D : list K) :
  (total (map (fun k => f k + g k) D)
   == total (map f D) + total (map g D))%Q.
Proof.
  induction D as [|k D IH]; [reflexivity|].
  cbn [map]. rewrite !total_cons, IH. ring.
Qed.

Lemma sumZ_perm (l l' : list Z) : Permutation l l' -> sumZ l = sumZ l'.
Proof.
  unfold sumZ.
  induction 1 as [|x l l' _ IH|x y l|l l' l'' _ IH1 _ IH2];
    cbn [fold_right]; lia.
Qed.

Section Keyed.
Context {A K : Type} (eqb leb : K -> K -> bool) (key : A -> K).
Hypothesis eqb_eq : forall a b, eqb a b = true <-> a = b.

Lemma distinct_In (l : list K) (k : K) :
  In k (Sqlite.distinct eqb l) <-> In k l.
Proof using eqb_eq.
  induction l as [|x l IH]; [reflexivity|].
  cbn [Sqlite.distinct In]. rewrite filter_In, IH, negb_true_iff.
  split; [intros [H|[H _]]; [now left|now right]|].
  intros [->|H]; [now left|].
  destruct (eqb k x) eqn:E; [left; symmetry; now apply eqb_eq|now right].
Qed.

Lemma distinct_NoDup (l : list K) : NoDup (Sqlite.distinct eqb l).
Proof.
  induction l as [|x l IH]; [constructor|].
  cbn [Sqlite.distinct]. constructor; [|now apply NoDup_filter].
  rewrite filter_In, negb_true_iff. intros [_ H].
  assert (eqb x x = true) by now apply eqb_eq. congruence.
Qed.

Lemma group_keys (rows : list A) :
  map fst (Sqlite.group_by eqb leb key rows)
  = Sqlite.order_by leb (Sqlite.distinct eqb (map key rows)).
Proof.
  unfold Sqlite.group_by. rewrite map_map. cbn [fst]. apply map_id.
Qed.

Lemma group_keys_NoDup (rows : list A) :
  NoDup (map fst (Sqlite.group_by eqb leb key rows)).
Proof.
  rewrite group_keys.
  apply (Permutation_NoDup (l := Sqlite.distinct eqb (map key rows)));
    [symmetry; apply order_by_perm|apply distinct_NoDup].
Qed.

Lemma group_In (rows : list A) (k : K) (g : list A) :
  In (k, g) (Sqlite.group_by eqb leb key rows)
  <-> g = filter (fun r => eqb (key r) k) rows
      /\ exists r, In r rows /\ key r = k.
Proof.
  unfold Sqlite.group_by. rewrite in_map_iff. split.
  - intros (k' & E & Hk'). injection E as <- <-.
    split; [reflexivity|].
    apply order_by_In, distinct_In, in_map_iff in Hk'.
    destruct Hk' as (r & E & Hr). eauto.
  - intros (-> & r & Hr & <-). exists (key r). split; [reflexivity|].
    apply order_by_In, distinct_In. now apply in_map.
Qed.

Lemma sumZ_map_plus (f g : K -> Z) (D : list K) :
  sumZ (map (fun k => f k + g k)%Z D)
  = (sumZ (map f D) + sumZ (map g D))%Z.
Proof.
  unfold sumZ. induction D as [|k D IH]; cbn [map fold_right]; lia.
Qed.

Lemma sumZ_indicator (k0 : K) (D : list K) :
  NoDup D -> In k0 D ->
  sumZ (map (fun k => if eqb k0 k then 1 else 0)%Z D) = 1%Z.
Proof.
  unfold sumZ. induction D as [|k D IH]; intros Hnd Hin; [destruct Hin|].
  apply NoDup_cons_iff in Hnd as [Hk Hnd]. cbn [map fold_right].
  destruct (eqb k0 k) eqn:E.
  - apply eqb_eq in E. subst k.
    assert (fold_right Z.add 0%Z
              (map (fun k => if eqb k0 k then 1 else 0)%Z D) = 0%Z) as ->;
      [|reflexivity].
    clear IH Hnd Hin. induction D as [|k D IH]; [reflexivity|].
    cbn [map fold_right].
    destruct (eqb k0 k) eqn:E.
    + apply eqb_eq in E. subst k. exfalso. apply Hk. now left.
    + rewrite IH; [reflexivity|]. intros H. apply Hk. now right.
  - destruct Hin as [->|Hin].
    + assert (eqb k0 k0 = true) by now apply eqb_eq. congruence.
    + rewrite (IH Hnd Hin). reflexivity.
Qed.

(** Counting the rows key by key, over distinct keys that cover the rows,
    counts every row once. *)
Lemma count_by_key (rows : list A) (D : list K) :
  NoDup D -> (forall r, In r rows -> In (key r) D) ->
  sumZ (map (fun k => Sqlite.COUNT (filter (fun r => eqb (key r) k) rows)) D)
  = Sqlite.COUNT rows.
Proof.
  intros Hnd. unfold Sqlite.COUNT.
  induction rows as [|r rows IH]; intros Hcover.
  - cbn [filter List.length Z.of_nat]. clear.
    unfold sumZ. induction D; cbn [map fold_right]; lia.
  - specialize (IH (fun x Hx => Hcover x (or_intror Hx))).
    pose proof (Hcover r (or_introl eq_refl)) as Hr.
    cbn [List.length]. rewrite Nat2Z.inj_succ, <- IH.
    rewrite (map_ext _
               (fun k => (if eqb (key r) k then 1 else 0)
                         + Z.of_nat (List.length
                             (filter (fun r0 => eqb (key r0) k) rows)))%Z).
    + rewrite sumZ_map_plus, (sumZ_indicator (key r) D Hnd Hr). lia.
    + intros k. cbn [filter]. destruct (eqb (key r) k); [|reflexivity].
      cbn [List.length]. lia.
Qed.

Lemma total_by_key (amount : A -> Q) (rows : list A) (D : list K) :
  NoDup D -> (forall r, In r rows -> In (key r) D) ->
  (total (map (fun k => total (map amount
                                 (filter (fun r => eqb (key r) k) rows))) D)
   == total (map amount rows))%Q.
Proof.
  intros Hnd.
  induction rows as [|r rows IH]; intros Hcover.
  - cbn [filter map]. clear. induction D as [|k D IH]; [reflexivity|].
    cbn [map]. rewrite total_cons, IH. reflexivity.
  - specialize (IH (fun x Hx => Hcover x (or_intror Hx))).
    pose proof (Hcover r (or_introl eq_refl)) as Hr.
    cbn [map]. rewrite total_cons, <- IH. clear IH Hcover.
    rewrite (total_map_ext _
               (fun k => (if eqb (key r) k then amount r else 0)
                         + total (map amount
                                    (filter (fun r0 => eqb (key r0) k) rows)))%Q).
    + rewrite total_map_plus. apply Qplus_inj_r.
      clear rows. induction D as [|k D IHD]; [destruct Hr|].
      apply NoDup_cons_iff in Hnd as [Hk Hnd].
      cbn [map]. rewrite total_cons.
      destruct (eqb (key r) k) eqn:E.
      * apply eqb_eq in E. subst k.
        rewrite (total_map_ext _ (fun _ => 0%Q)).
        -- assert (total (map (fun _ : K => 0%Q) D) == 0)%Q as ->.
           { clear. induction D as [|k D IH]; [reflexivity|].
             cbn [map]. rewrite total_cons, IH. ring. }
           ring.
        -- intros k0 Hk0. destruct (eqb (key r) k0) eqn:E0; [|reflexivity].
           apply eqb_eq in E0. subst k0. contradiction.
      * destruct Hr as [->|Hr].
        -- assert (eqb (key r) (key r) = true) by now apply eqb_eq.
           congruence.
        -- rewrite (IHD Hnd Hr). ring.
    + intros k _. cbn [filter]. destruct (eqb (key r) k).
      * cbn [map]. now rewrite total_cons.
      * ring.
Qed.

End Keyed.

Lemma StronglySorted_weaken {A} (R R' : A -> A -> Prop) (l : list A) :
  (forall a b, R a b -> R' a b) ->
  StronglySorted R l -> StronglySorted R' l.
Proof.
  intros H. induction 1 as [|a l _ IH Ha]; constructor; [exact IH|].
  revert Ha. apply Forall_impl. apply H.
Qed.

Lemma category_spending_unfold (today : PyDatetime.datetime)
  (db : database) (u days : Z) (result : list (string * Q * Z)) :
  get_category_spending today db u days = Some result ->
  exists start,
    PyDatetime.sub_days today days = Some start
    /\ result
       = Sqlite.order_by
           (fun a b => Sqlite.real_leb (snd (fst b)) (snd (fst a)))
           (map (fun g => (fst g, group_total (snd g), Sqlite.COUNT (snd g)))
              (Sqlite.group_by String.eqb String.leb Expense.category
                 (rows_since u (PyDatetime.strftime_Ymd start)
                    (expenses db)))).
Proof.
  unfold get_category_spending.
  destruct (PyDatetime.sub_days today days) as [start|]; [|discriminate].
  intros H. injection H as <-. exists start. split; reflexivity.
Qed.

(** X11: [get_category_spending] returns one row per category among the
    user's expenses dated on or after the start date (as texts compare):
    no category twice, none without an expense; each row carries the total
    and the number of that category's expenses, and the rows are ordered
    by total, largest first. *)
Theorem category_spending_groups (today : PyDatetime.datetime)
  (db : database) (u days : Z) (result : list (string * Q * Z)) :
  get_category_spending today db u days = Some result ->
  exists start,
    PyDatetime.sub_days today days = Some start
    /\ let rows :=
         rows_since u (PyDatetime.strftime_Ymd start) (expenses db) in
       NoDup (map (fun g => fst (fst g)) result)
       /\ (forall c tot cnt,
             In (c, tot, cnt) result
             <-> (exists e, In e rows /\ Expense.category e = c)
                 /\ tot = total (map Expense.amount
                            (filter (fun e => String.eqb (Expense.category e) c)
                               rows))
                 /\ cnt = Z.of_nat
                            (List.length
                               (filter
                                  (fun e => String.eqb (Expense.category e) c)
                                  rows)))
       /\ StronglySorted (fun a b => (snd (fst b) <= snd (fst a))%Q) result.
Proof.
  intros H. apply category_spending_unfold in H as (start & Hs & ->).
  exists start. split; [exact Hs|]. intros rows. fold rows.
  set (groups := Sqlite.group_by String.eqb String.leb Expense.category rows).
  set (h := fun g : string * list Expense.t =>
              (fst g, group_total (snd g), Sqlite.COUNT (snd g))).
  split; [|split].
  - apply (Permutation_NoDup (l := map fst groups)).
    + rewrite <- (map_map h (fun g => fst (fst g))).
      apply Permutation_map. symmetry. apply order_by_perm.
    + apply group_keys_NoDup. exact String.eqb_eq.
  - intros c tot cnt. rewrite order_by_In, in_map_iff. split.
    + intros ([k g] & E & Hg). unfold h in E. cbn [fst snd] in E.
      injection E as -> <- <-.
      apply (group_In String.eqb String.leb Expense.category String.eqb_eq)
        in Hg as [-> Hex].
      split; [exact Hex|]. split; reflexivity.
    + intros (Hex & -> & ->).
      exists (c, filter (fun e => String.eqb (Expense.category e) c) rows).
      split; [reflexivity|].
      apply (group_In String.eqb String.leb Expense.category String.eqb_eq).
      split; [reflexivity|exact Hex].
  - apply (StronglySorted_weaken
             (in_order (fun a b : string * Q * Z =>
                          Sqlite.real_leb (snd (fst b)) (snd (fst a))))).
    + intros a b. unfold in_order, Sqlite.real_leb. apply Qle_bool_iff.
    + apply order_by_strongly_sorted.
      * intros x y Hxy. unfold Sqlite.real_leb in *.
        apply Qle_bool_iff.
        destruct (Qlt_le_dec (snd (fst y)) (snd (fst x))) as [Hlt|Hle];
          [exfalso|exact Hle].
        apply Qlt_le_weak, Qle_bool_iff in Hlt. congruence.
      * intros x y z Hxy Hyz. unfold Sqlite.real_leb in *.
        apply Qle_bool_iff in Hxy, Hyz. apply Qle_bool_iff.
        exact (Qle_trans _ _ _ Hyz Hxy).
Qed.

(** X12: [get_category_spending] loses and invents nothing: the counts of
    its rows add up to the number of the user's expenses in the window,
    and the totals add up to the total of their amounts. *)
Theorem category_spending_conserves (today : PyDatetime.datetime)
  (db : database) (u days : Z) (result : list (string * Q * Z)) :
  get_category_spending today db u days = Some result ->
  exists start,
    PyDatetime.sub_days today days = Some start
    /\ let rows :=
         rows_since u (PyDatetime.strftime_Ymd start) (expenses db) in
       sumZ (map snd result) = Z.of_nat (List.length rows)
       /\ (total (map (fun g => snd (fst g)) result)
           == total (map Expense.amount rows))%Q.
Proof.
  intros H. apply category_spending_unfold in H as (start & Hs & ->).
  exists start. split; [exact Hs|]. intros rows. fold rows.
  set (cmp := fun a b : string * Q * Z =>
                Sqlite.real_leb (snd (fst b)) (snd (fst a))).
  set (h := fun g : string * list Expense.t =>
              (fst g, group_total (snd g), Sqlite.COUNT (snd g))).
  set (D := Sqlite.order_by String.leb
              (Sqlite.distinct String.eqb (map Expense.category rows))).
  assert (HD : NoDup D).
  { apply (Permutation_NoDup
             (l := Sqlite.distinct String.eqb (map Expense.category rows)));
      [symmetry; apply order_by_perm|].
    apply distinct_NoDup. exact String.eqb_eq. }
  assert (Hcover : forall r, In r rows -> In (Expense.category r) D).
  { intros r Hr. apply order_by_In.
    apply (distinct_In String.eqb String.eqb_eq). now apply in_map. }
  split.
  - rewrite (sumZ_perm _ _
               (Permutation_map snd (order_by_perm cmp _))).
    unfold Sqlite.group_by. rewrite !map_map. cbn [snd].
    exact (count_by_key String.eqb Expense.category String.eqb_eq rows D
             HD Hcover).
  - rewrite (total_perm _ _
               (Permutation_map (fun g => snd (fst g))
                  (order_by_perm cmp _))).
    unfold Sqlite.group_by. rewrite !map_map. cbn [fst snd].
    exact (total_by_key String.eqb Expense.category String.eqb_eq
             Expense.amount rows D HD Hcover).
Qed.

End Grouping.

(** ** A new expense in the reports *)
Section NewExpense.
Local Open Scope list_scope.
Local Open Scope Z_scope.

Lemma total_snoc (l : list Q) (a : Q) : (total (l ++ [a]) == total l + a)%Q.
Proof.
  rewrite (total_perm _ _ (Permutation_app_comm l [a])).
  cbn [app]. rewrite total_cons. ring.
Qed.

Lemma prefix_append (s t : string) : String.prefix s (s ++ t) = true.
Proof.
  induction s as [|c s IH]; cbn [String.append String.prefix].
  - now destruct t.
  - destruct (ascii_dec c c); [exact IH|contradiction].
Qed.

Lemma prefix_same_length (s1 s2 t : string) :
  String.length s1 = String.length s2 ->
  String.prefix s1 (s2 ++ t) = true -> s1 = s2.
Proof.
  revert s2. induction s1 as [|c s1 IH]; intros [|d s2] Hlen;
    cbn [String.length] in Hlen; try discriminate; [reflexivity|].
  cbn [String.append String.prefix].
  destruct (ascii_dec c d) as [->|]; [|discriminate].
  intros H. f_equal. apply IH; [congruence|exact H].
Qed.

Lemma month_key_length (y m : Z) :
  String.length (PyDatetime.month_key y m) = 7%nat.
Proof. reflexivity. Qed.

(** The date text the add form stores starts with the key of its own month
    and of no other month. *)
Lemma form_date_prefix (d : PyDatetime.datetime) (y m : Z) :
  PyDatetime.valid d -> 0 <= y <= 9999 -> 1 <= m <= 12 ->
  String.prefix (PyDatetime.month_key y m) (PyDatetime.strftime_Ymd d)
  = ((PyDatetime.year d =? y) && (PyDatetime.month d =? m)).
Proof.
  intros (Hy & Hm & _) Hy' Hm'.
  unfold PyDatetime.MINYEAR, PyDatetime.MAXYEAR in Hy.
  unfold PyDatetime.strftime_Ymd, PyDatetime.strftime_Ym.
  destruct ((PyDatetime.year d =? y) && (PyDatetime.month d =? m)) eqn:E.
  - apply andb_true_iff in E as [E1 E2]. apply Z.eqb_eq in E1, E2.
    subst. apply prefix_append.
  - destruct (String.prefix _ _) eqn:Hp; [|reflexivity]. exfalso.
    apply prefix_same_length in Hp; [|reflexivity].
    assert (0 <= PyDatetime.year d <= 9999) as Hyd by lia.
    destruct (month_key_inj y m (PyDatetime.year d) (PyDatetime.month d)
                Hy' Hyd Hm' Hm Hp) as [E1 E2].
    rewrite <- E1, <- E2, !Z.eqb_refl in E. discriminate E.
Qed.

Lemma rows_with_prefix_snoc (u : Z) (key : string) (es : list Expense.t)
  (row : Expense.t) :
  rows_with_prefix u key (es ++ [row])
  = rows_with_prefix u key es
    ++ (if (Expense.user_id row =? u) && String.prefix key (Expense.date row)
        then [row] else []).
Proof. unfold rows_with_prefix. now rewrite filter_app. Qed.

Lemma get_monthly_summary_value (today : PyDatetime.datetime)
  (db : database) (u : Z) :
  PyDatetime.valid today ->
  (PyDatetime.year today, PyDatetime.month today) <> (1, 1) ->
  get_monthly_summary today db u
  = (or_zero (Sqlite.SUM (map Expense.amount
       (rows_with_prefix u
          (PyDatetime.month_key (PyDatetime.year today)
             (PyDatetime.month today)) (expenses db)))),
     or_zero (Sqlite.SUM (map Expense.amount
       (rows_with_prefix u
          (PyDatetime.month_key (fst (PyDatetime.preceding_month today))
             (snd (PyDatetime.preceding_month today))) (expenses db)))),
     Sqlite.COUNT
       (rows_with_prefix u
          (PyDatetime.month_key (PyDatetime.year today)
             (PyDatetime.month today)) (expenses db))).
Proof.
  intros Hv Hne. unfold get_monthly_summary.
  rewrite (last_month_key_value today Hv Hne).
  unfold current_month_key, PyDatetime.strftime_Ym, rows_with_prefix.
  now rewrite !(filter_ext _ _ (in_month_prefix u _ _)).
Qed.

Lemma total_rows_snoc (l : list Expense.t) (b : bool) (row : Expense.t) :
  (total (map Expense.amount (l ++ (if b then [row] else [])))
   == total (map Expense.amount l)
      + (if b then Expense.amount row else 0))%Q.
Proof.
  destruct b.
  - rewrite map_app. cbn [map]. apply total_snoc.
  - rewrite app_nil_r. ring.
Qed.

(** X13: an expense entered in the add form with a positive amount is
    stored, and the monthly summary of its owner moves by exactly that
    expense: when its date lies in the current month the count grows by one
    and the current total by the amount, when it lies in the month before
    the last-month total grows by the amount, and otherwise nothing moves;
    the summary of every other user stays as it was. *)
Theorem form_add_in_monthly_summary (now : string) (db : database) (u : Z)
  (d : PyDatetime.datetime) (a : Q) (c p ds t : string) (r : bool)
  (today : PyDatetime.datetime) :
  PyDatetime.valid today ->
  (PyDatetime.year today, PyDatetime.month today) <> (1, 1) ->
  PyDatetime.valid d -> (0 < a)%Q ->
  let result := render_add_expense now db u d a c p ds t r in
  let before := get_monthly_summary today db u in
  let after := get_monthly_summary today (fst result) u in
  let in_current :=
    (PyDatetime.year d =? PyDatetime.year today)
    && (PyDatetime.month d =? PyDatetime.month today) in
  let in_last :=
    (PyDatetime.year d =? fst (PyDatetime.preceding_month today))
    && (PyDatetime.month d =? snd (PyDatetime.preceding_month today)) in
  snd result = ExpenseAdded
  /\ snd after = snd before + (if in_current then 1 else 0)
  /\ (fst (fst after) == fst (fst before) + (if in_current then a else 0))%Q
  /\ (snd (fst after) == snd (fst before) + (if in_last then a else 0))%Q
  /\ (forall v, v <> u ->
        get_monthly_summary today (fst result) v
        = get_monthly_summary today db v).
Proof.
  intros Hv Hne Hd Ha result before after in_current in_last.
  set (k := next_rowid (seq_expenses db) (map Expense.id (expenses db))).
  set (row := Expense.mk k u (PyDatetime.strftime_Ymd d) a c ds t p r now now).
  assert (Hres : result
                 = (set_expenses db (expenses db ++ [row]) k, ExpenseAdded)).
  { subst result. unfold render_add_expense, add_expense.
    pose proof (proj2 (check_amount_true a) Ha) as Hc.
    unfold check_amount in Hc. rewrite Hc. unfold check_amount.
    now rewrite Hc. }
  assert (Hrange : 0 <= PyDatetime.year today <= 9999
                   /\ 1 <= PyDatetime.month today <= 12
                   /\ 0 <= fst (PyDatetime.preceding_month today) <= 9999
                   /\ 1 <= snd (PyDatetime.preceding_month today) <= 12).
  { destruct Hv as (Hy & Hm & _).
    unfold PyDatetime.MINYEAR, PyDatetime.MAXYEAR in Hy.
    unfold PyDatetime.preceding_month.
    destruct (Z.eqb_spec (PyDatetime.month today) 1); cbn [fst snd]; lia. }
  destruct Hrange as (Hy & Hm & Hpy & Hpm).
  split; [now rewrite Hres|].
  subst before after. rewrite Hres. cbn [fst].
  rewrite !(get_monthly_summary_value today _ _ Hv Hne).
  cbn [fst snd expenses set_expenses].
  rewrite !rows_with_prefix_snoc. cbn [Expense.user_id Expense.date row].
  rewrite Z.eqb_refl. cbn [andb].
  rewrite !(form_date_prefix d) by assumption.
  fold in_current. fold in_last.
  split; [|split; [|split]].
  - unfold Sqlite.COUNT. rewrite length_app.
    destruct in_current; cbn [List.length]; lia.
  - rewrite !or_zero_SUM, total_rows_snoc. reflexivity.
  - rewrite !or_zero_SUM, total_rows_snoc. reflexivity.
  - intros v Hvu.
    rewrite !(get_monthly_summary_value today _ _ Hv Hne).
    cbn [expenses set_expenses]. rewrite !rows_with_prefix_snoc.
    cbn [Expense.user_id row].
    destruct (Z.eqb_spec u v); [congruence|]. cbn [andb].
    now rewrite !app_nil_r.
Qed.

Lemma joins_snoc (cat : Category.t) (key : string) (u : Z)
  (es : list Expense.t) (row : Expense.t) :
  filter (joins cat key u) (es ++ [row])
  = filter (joins cat key u) es
    ++ (if joins cat key u row then [row] else []).
Proof. now rewrite filter_app. Qed.

(** X14: a new expense moves only the budget row of its own category, in
    the report of its owner: the rows of every category with another name
    stay as they were, so an expense whose category text matches no
    category changes no row at all; the reports of other users do not
    change; and the row of the matching category has its spent raised by
    the amount when the date text starts with the current month. *)
Theorem add_expense_in_budget_performance (now : string) (db : database)
  (u : Z) (d : string) (a : Q) (c ds t p : string) (r : bool)
  (today : PyDatetime.datetime) :
  (0 < a)%Q ->
  let db' := fst (add_expense now db u d a c ds t p r) in
  let key := current_month_key today in
  (forall cat, Category.name cat <> c ->
     budget_row key u (expenses db') cat = budget_row key u (expenses db) cat)
  /\ ((forall cat, In cat (categories db) -> Category.name cat <> c) ->
      get_budget_performance today db' u = get_budget_performance today db u)
  /\ (forall v, v <> u ->
        get_budget_performance today db' v
        = get_budget_performance today db v)
  /\ (forall cat, Category.name cat = c ->
        (BudgetRow.spent (budget_row key u (expenses db') cat)
         == BudgetRow.spent (budget_row key u (expenses db) cat)
            + (if String.prefix key d then a else 0))%Q).
Proof.
  intros Ha db' key.
  set (k := next_rowid (seq_expenses db) (map Expense.id (expenses db))).
  set (row := Expense.mk k u d a c ds t p r now now).
  assert (Hdb' : expenses db' = expenses db ++ [row]
                 /\ categories db' = categories db).
  { subst db'. unfold add_expense.
    rewrite (proj2 (check_amount_true a) Ha). split; reflexivity. }
  destruct Hdb' as [Hes Hcs].
  assert (Hother : forall cat v,
             joins cat key v row = false ->
             budget_row key v (expenses db') cat
             = budget_row key v (expenses db) cat).
  { intros cat v Hj. unfold budget_row.
    now rewrite Hes, joins_snoc, Hj, app_nil_r. }
  assert (Hname : forall cat v, Category.name cat <> c ->
                    joins cat key v row = false).
  { intros cat v Hn. unfold joins, Sqlite.text_eqb. cbn [Expense.category row].
    apply String.eqb_neq in Hn. now rewrite Hn. }
  split; [intros cat Hn; apply Hother, Hname, Hn|]. split.
  { intros Hnone. unfold get_budget_performance. rewrite Hcs.
    apply map_ext_in. intros cat Hcat. apply order_by_In in Hcat.
    apply Hother, Hname, Hnone, Hcat. }
  split.
  { intros v Hvu. unfold get_budget_performance. rewrite Hcs.
    apply map_ext. intros cat. apply Hother.
    unfold joins. cbn [Expense.user_id row].
    destruct (Z.eqb_spec u v); [congruence|]. apply andb_false_r. }
  intros cat Hn. unfold budget_row. cbn [BudgetRow.spent].
  rewrite !COALESCE_SUM, Hes, joins_snoc.
  assert (Hj : joins cat key u row = String.prefix key d).
  { unfold joins, Sqlite.text_eqb, key, current_month_key,
      PyDatetime.strftime_Ym.
    cbn [Expense.category Expense.date Expense.user_id row].
    rewrite Hn, String.eqb_refl, Z.eqb_refl, andb_true_r. cbn [andb].
    apply like_plain_prefix, plain_month_key. }
  rewrite Hj. apply total_rows_snoc.
Qed.

End NewExpense.

(** ** The choices of the select boxes *)
Section ReferenceLists.
Local Open Scope list_scope.

Lemma StronglySorted_map {A B} (f : A -> B) (R : B -> B -> Prop)
  (l : list A) :
  StronglySorted (fun a b => R (f a) (f b)) l -> StronglySorted R (map f l).
Proof.
  induction 1 as [|a l _ IH Ha]; cbn [map]; constructor; [exact IH|].
  apply Forall_map. exact Ha.
Qed.

Lemma names_sorted {A} (name : A -> string) (rows : list A) :
  StronglySorted (fun a b => String.leb a b = true)
    (map name
       (Sqlite.order_by (fun a b => Sqlite.text_leb (name a) (name b)) rows)).
Proof.
  apply StronglySorted_map.
  apply (order_by_strongly_sorted
           (fun a b => Sqlite.text_leb (name a) (name b))).
  - intros x y. apply text_leb_total.
  - intros x y z. apply text_leb_trans.
Qed.

(** X15: [get_categories] and [get_payment_methods] return the names of
    all rows of their table, each as often as it is stored, in ascending
    byte order; after [init_db] neither list is empty, so the select boxes
    of the add form always offer a choice. *)
Theorem reference_lists_sorted (db : database) :
  StronglySorted (fun a b => String.leb a b = true) (get_categories db)
  /\ Permutation (get_categories db) (map Category.name (categories db))
  /\ StronglySorted (fun a b => String.leb a b = true)
       (get_payment_methods db)
  /\ Permutation (get_payment_methods db)
       (map PaymentMethod.name (payment_methods db))
  /\ (forall now file db',
        InitDb.init_db now file = Some db' ->
        get_categories db' <> [] /\ get_payment_methods db' <> []).
Proof.
  split; [apply names_sorted|].
  split; [apply Permutation_map, order_by_perm|].
  split; [apply names_sorted|].
  split; [apply Permutation_map, order_by_perm|].
  intros now file db' H.
  destruct (init_db_seeded now file db' H) as (Hc & Hp).
  split; intros E;
    apply (f_equal (@List.length string)) in E;
    unfold get_categories, get_payment_methods in E;
    rewrite length_map, order_by_length in E.
  - destruct (categories db'); [contradiction|discriminate].
  - destruct (payment_methods db'); [contradiction|discriminate].
Qed.

End ReferenceLists.

(** ** The further theorems at concrete inputs *)
(** ** Ordinals and dates *)
Section Ordinals.
Import PyDatetime.
Local Open Scope Z_scope.

Lemma all_from_spec (P : Z -> bool) (k : nat) :
  forall n, all_from P k n = true ->
  forall i, n <= i < n + Z.of_nat k -> P i = true.
Proof.
  induction k as [|k IH]; intros n H i Hi; [lia|].
  cbn [all_from] in H. apply andb_true_iff in H as [H0 H1].
  destruct (Z.eq_dec i n) as [->|Hne]; [exact H0|].
  apply (IH (n + 1) H1). lia.
Qed.

Lemma doy_table :
  all_from (doy_ok false) 365 0 = true /\ all_from (doy_ok true) 366 0 = true.
Proof. split; vm_compute; reflexivity. Qed.

Lemma doy_ok_all (leapyear : bool) (n : Z) :
  0 <= n <= 364 + (if leapyear then 1 else 0) -> doy_ok leapyear n = true.
Proof.
  intros Hn. destruct doy_table as [H0 H1]. destruct leapyear.
  - apply (all_from_spec _ 366 0 H1). lia.
  - apply (all_from_spec _ 365 0 H0). lia.
Qed.

Lemma ord2ymd_chain (n : Z) :
  _ord2ymd n
  = let n0 := n - 1 in
    let a := n0 / 146097 in
    let r400 := n0 mod 146097 in
    let b := r400 / 36524 in
    let r100 := r400 mod 36524 in
    let c := r100 / 1461 in
    let r4 := r100 mod 1461 in
    let e := r4 / 365 in
    let r1 := r4 mod 365 in
    let y := 400 * a + 100 * b + 4 * c + e + 1 in
    if (e =? 4) || (b =? 4) then (y - 1, 12, 31)
    else
      let md := doy2md ((e =? 3) && (negb (c =? 24) || (b =? 3))) r1 in
      (y, fst md, snd md).
Proof.
  unfold _ord2ymd, doy2md, _DI400Y, _DI100Y, _DI4Y. cbv zeta.
  set (n0 := n - 1).
  set (a := n0 / 146097). set (r400 := n0 mod 146097).
  set (b := r400 / 36524). set (r100 := r400 mod 36524).
  set (c := r100 / 1461). set (r4 := r100 mod 1461).
  set (e := r4 / 365). set (r1 := r4 mod 365).
  replace (a * 400 + 1 + b * 100 + c * 4 + e)
    with (400 * a + 100 * b + 4 * c + e + 1) by ring.
  destruct ((e =? 4) || (b =? 4)); [reflexivity|].
  match goal with |- (if ?t then _ else _) = _ => destruct t end;
    reflexivity.
Qed.

Lemma chain_facts (n0 : Z) :
  0 <= n0 ->
  let a := n0 / 146097 in
  let r400 := n0 mod 146097 in
  let b := r400 / 36524 in
  let r100 := r400 mod 36524 in
  let c := r100 / 1461 in
  let r4 := r100 mod 1461 in
  let e := r4 / 365 in
  let r1 := r4 mod 365 in
  0 <= a /\ 0 <= b <= 4 /\ 0 <= c <= 24 /\ 0 <= e <= 4 /\ 0 <= r1 <= 364
  /\ n0 = 146097 * a + 36524 * b + 1461 * c + 365 * e + r1
  /\ (b = 4 -> c = 0 /\ e = 0 /\ r1 = 0)
  /\ (e = 4 -> r1 = 0 /\ c <= 23).
Proof.
  intros H. cbv zeta. Z.div_mod_to_equations. lia.
Qed.

Lemma dby_formula (a b c e : Z) :
  0 <= a -> 0 <= b <= 3 -> 0 <= c <= 24 -> 0 <= e <= 3 ->
  _days_before_year (400 * a + 100 * b + 4 * c + e + 1)
  = 146097 * a + 36524 * b + 1461 * c + 365 * e.
Proof.
  intros. unfold _days_before_year. cbv zeta.
  Z.div_mod_to_equations. lia.
Qed.

Lemma is_leap_formula (a b c e : Z) :
  0 <= b <= 3 -> 0 <= c <= 24 -> 0 <= e <= 3 ->
  _is_leap (400 * a + 100 * b + 4 * c + e + 1)
  = (e =? 3) && (negb (c =? 24) || (b =? 3)).
Proof.
  intros. unfold _is_leap.
  destruct (Z.eqb_spec ((400 * a + 100 * b + 4 * c + e + 1) mod 4) 0),
    (Z.eqb_spec ((400 * a + 100 * b + 4 * c + e + 1) mod 100) 0),
    (Z.eqb_spec ((400 * a + 100 * b + 4 * c + e + 1) mod 400) 0),
    (Z.eqb_spec e 3), (Z.eqb_spec c 24), (Z.eqb_spec b 3);
    cbn [andb orb negb]; try reflexivity; exfalso;
    Z.div_mod_to_equations; lia.
Qed.

(** Every ordinal of [datetime]'s range is the ordinal of the valid date
    [_ord2ymd] returns for it. *)
Lemma ord2ymd_ymd2ord (n : Z) :
  1 <= n <= _MAXORDINAL ->
  valid (mkdate (fst (fst (_ord2ymd n))) (snd (fst (_ord2ymd n)))
           (snd (_ord2ymd n)))
  /\ _ymd2ord (fst (fst (_ord2ymd n))) (snd (fst (_ord2ymd n)))
       (snd (_ord2ymd n)) = n.
Proof.
  intros Hn. unfold _MAXORDINAL in Hn. rewrite ord2ymd_chain. cbv zeta.
  assert (H0 : 0 <= n - 1) by lia.
  pose proof (chain_facts (n - 1) H0) as Hc. cbv zeta in Hc.
  set (n0 := n - 1) in *.
  set (a := n0 / 146097) in *. set (r400 := n0 mod 146097) in *.
  set (b := r400 / 36524) in *. set (r100 := r400 mod 36524) in *.
  set (c := r100 / 1461) in *. set (r4 := r100 mod 1461) in *.
  set (e := r4 / 365) in *. set (r1 := r4 mod 365) in *.
  destruct Hc as (Ha & Hb & Hcc & He & Hr & Hsum & Hb4 & He4).
  assert (Hn0 : n = n0 + 1) by (subst n0; lia).
  clearbody a b c e r1. clear r4 r100 r400. clearbody n0.
  unfold valid, MINYEAR, MAXYEAR, _ymd2ord, _days_in_month,
    _days_before_month.
  destruct (Z.eqb_spec e 4) as [E4|E4]; cbn [orb].
  - destruct (He4 E4) as [Hr1 Hc23]. cbn [fst snd year month day].
    assert (Hb3 : b <= 3)
      by (destruct (Z.eq_dec b 4) as [B|B]; [destruct (Hb4 B)|]; lia).
    replace (400 * a + 100 * b + 4 * c + e + 1 - 1)
      with (400 * a + 100 * b + 4 * c + 3 + 1) by lia.
    rewrite dby_formula by lia.
    rewrite (is_leap_formula a b c 3) by lia.
    destruct (Z.eqb_spec c 24); [lia|].
    change (_DAYS_IN_MONTH 12) with 31.
    change (_DAYS_BEFORE_MONTH 12) with 334.
    change (12 =? 2) with false. change (2 <? 12) with true.
    change (3 =? 3) with true. cbn [andb orb negb]. lia.
  - destruct (Z.eqb_spec b 4) as [B4|B4].
    + destruct (Hb4 B4) as (Hc0 & He0 & Hr0). cbn [fst snd year month day].
      replace (400 * a + 100 * b + 4 * c + e + 1 - 1)
        with (400 * a + 100 * 3 + 4 * 24 + 3 + 1) by lia.
      rewrite dby_formula by lia.
      rewrite (is_leap_formula a 3 24 3) by lia.
      change (_DAYS_IN_MONTH 12) with 31.
      change (_DAYS_BEFORE_MONTH 12) with 334.
      change (12 =? 2) with false. change (2 <? 12) with true.
      change (3 =? 3) with true. change (24 =? 24) with true.
      cbn [andb orb negb]. lia.
    + set (leap := (e =? 3) && (negb (c =? 24) || (b =? 3))).
      assert (Hleap : _is_leap (400 * a + 100 * b + 4 * c + e + 1) = leap)
        by (apply is_leap_formula; lia).
      assert (Hdoy : doy_ok leap r1 = true)
        by (apply doy_ok_all; destruct leap; lia).
      unfold doy_ok in Hdoy.
      destruct (doy2md leap r1) as [m d]. cbn [fst snd year month day].
      rewrite Hleap, dby_formula by lia.
      apply andb_true_iff in Hdoy as [Hdoy H5].
      apply andb_true_iff in Hdoy as [Hdoy H4].
      apply andb_true_iff in Hdoy as [Hdoy H3].
      apply andb_true_iff in Hdoy as [H1 H2].
      apply Z.leb_le in H1, H2, H3, H4. apply Z.eqb_eq in H5.
      split; [|lia].
      split; [lia|]. split; [lia|]. clearbody leap.
      destruct (Z.eqb_spec m 2) as [->|Hm2]; cbn [andb] in *; [|lia].
      change (_DAYS_IN_MONTH 2) with 28 in *. destruct leap; lia.
Qed.

End Ordinals.

(** ** The order of date texts *)
Section DateOrder.
Import PyDatetime.
Local Open Scope Z_scope.

Lemma comparison_eqb_eq (x y : comparison) :
  comparison_eqb x y = true -> x = y.
Proof. destruct x, y; (reflexivity || discriminate). Qed.

Lemma pad2_table :
  all_from (fun u => all_from (pad2_compare_ok u) 100 0) 100 0 = true.
Proof. vm_compute. reflexivity. Qed.

Lemma digit_congr (a b : Z) : a mod 10 = b mod 10 -> digit a = digit b.
Proof. unfold digit. now intros ->. Qed.

Lemma pad2_mod (x : Z) : pad2 x = pad2 (x mod 100).
Proof.
  unfold pad2. f_equal; [|f_equal];
    apply digit_congr; Z.div_mod_to_equations; lia.
Qed.

Lemma pad2_compare (u v : Z) :
  String.compare (pad2 u) (pad2 v) = (u mod 100 ?= v mod 100).
Proof.
  rewrite (pad2_mod u), (pad2_mod v).
  pose proof (Z.mod_pos_bound u 100). pose proof (Z.mod_pos_bound v 100).
  apply comparison_eqb_eq.
  apply (all_from_spec (pad2_compare_ok (u mod 100)) 100 0); [|lia].
  apply (all_from_spec (fun u => all_from (pad2_compare_ok u) 100 0) 100 0
           pad2_table). lia.
Qed.

Lemma pad4_split (y : Z) : pad4 y = (pad2 (y / 100) ++ pad2 y)%string.
Proof.
  unfold pad4, pad2 at 2. cbn [String.append]. f_equal.
  apply digit_congr. rewrite Z.div_div by lia. reflexivity.
Qed.

Lemma compare_append (s1 s2 t1 t2 : string) :
  String.length s1 = String.length s2 ->
  String.compare (s1 ++ t1) (s2 ++ t2)
  = match String.compare s1 s2 with
    | Eq => String.compare t1 t2
    | o => o
    end.
Proof.
  revert s2. induction s1 as [|c s1 IH]; intros [|d s2] Hlen;
    cbn [String.length] in Hlen; try discriminate.
  - reflexivity.
  - cbn [String.append String.compare].
    destruct (Ascii.compare c d); [|reflexivity|reflexivity].
    apply IH. congruence.
Qed.

Lemma string_append_assoc (s1 s2 s3 : string) :
  ((s1 ++ s2) ++ s3 = s1 ++ (s2 ++ s3))%string.
Proof.
  induction s1 as [|c s1 IH]; [reflexivity|].
  cbn [String.append]. now rewrite IH.
Qed.

Lemma pad2_length (x : Z) : String.length (pad2 x) = 2%nat.
Proof. reflexivity. Qed.

(** The texts [strftime("%Y-%m-%d")] gives for two dates compare as the
    dates do. *)
Lemma strftime_Ymd_compare (a b : datetime) :
  0 <= year a <= 9999 -> 0 <= year b <= 9999 ->
  0 <= month a <= 99 -> 0 <= month b <= 99 ->
  0 <= day a <= 99 -> 0 <= day b <= 99 ->
  String.compare (strftime_Ymd a) (strftime_Ymd b) = date_compare a b.
Proof.
  intros Hya Hyb Hma Hmb Hda Hdb.
  unfold strftime_Ymd, strftime_Ym, month_key. rewrite !pad4_split.
  rewrite !string_append_assoc.
  rewrite compare_append by reflexivity.
  rewrite compare_append by reflexivity.
  rewrite (compare_append "-" "-") by reflexivity.
  rewrite compare_append by reflexivity.
  rewrite (compare_append "-" "-") by reflexivity.
  rewrite !pad2_compare.
  change (String.compare "-" "-") with Eq. cbv iota.
  unfold date_compare.
  rewrite (Z.mod_small (month a)), (Z.mod_small (month b)),
    (Z.mod_small (day a)), (Z.mod_small (day b)) by lia.
  assert (Hsplit : forall y, 0 <= y <= 9999 ->
            0 <= y / 100 < 100 /\ 0 <= y mod 100 < 100
            /\ y = 100 * (y / 100) + y mod 100)
    by (intros y Hy; Z.div_mod_to_equations; lia).
  destruct (Hsplit _ Hya) as (A1 & A2 & A3).
  destruct (Hsplit _ Hyb) as (B1 & B2 & B3).
  rewrite (Z.mod_small (year a / 100)), (Z.mod_small (year b / 100)) by lia.
  destruct (Z.compare_spec (year a / 100) (year b / 100)),
    (Z.compare_spec (year a mod 100) (year b mod 100)),
    (Z.compare_spec (year a) (year b)); try reflexivity; exfalso; lia.
Qed.

End DateOrder.

(** ** The order of ordinals *)
Section OrdinalOrder.
Import PyDatetime.
Local Open Scope Z_scope.

Lemma dby_succ (y : Z) :
  _days_before_year (y + 1)
  = _days_before_year y + 365 + (if _is_leap y then 1 else 0).
Proof.
  unfold _days_before_year, _is_leap. cbv zeta.
  replace (y + 1 - 1) with y by ring.
  destruct (Z.eqb_spec (y mod 4) 0), (Z.eqb_spec (y mod 100) 0),
    (Z.eqb_spec (y mod 400) 0); cbn [andb orb negb];
    Z.div_mod_to_equations; lia.
Qed.

Lemma dby_mono (y1 y2 : Z) :
  y1 <= y2 -> _days_before_year y1 <= _days_before_year y2.
Proof.
  intros H. unfold _days_before_year. cbv zeta.
  Z.div_mod_to_equations. lia.
Qed.

Lemma month_cases (m : Z) :
  1 <= m <= 12 ->
  m = 1 \/ m = 2 \/ m = 3 \/ m = 4 \/ m = 5 \/ m = 6 \/ m = 7 \/ m = 8
  \/ m = 9 \/ m = 10 \/ m = 11 \/ m = 12.
Proof. lia. Qed.

(** The day of the year of a valid date. *)
Lemma day_of_year_bounds (t : datetime) :
  valid t ->
  1 <= _days_before_month (year t) (month t) + day t
    <= 365 + (if _is_leap (year t) then 1 else 0).
Proof.
  intros (_ & Hm & Hd). revert Hd.
  unfold _days_before_month, _days_in_month.
  destruct (month_cases _ Hm) as
    [E|[E|[E|[E|[E|[E|[E|[E|[E|[E|[E|E]]]]]]]]]]];
    rewrite E; destruct (_is_leap (year t)); month_tables; lia.
Qed.

Lemma day_of_year_compare (y ma da mb db : Z) :
  1 <= ma <= 12 -> 1 <= mb <= 12 ->
  1 <= da <= _days_in_month y ma -> 1 <= db <= _days_in_month y mb ->
  (_days_before_month y ma + da ?= _days_before_month y mb + db)
  = match ma ?= mb with
    | Eq => da ?= db
    | o => o
    end.
Proof.
  intros Hma Hmb. unfold _days_before_month, _days_in_month.
  destruct (month_cases _ Hma) as
    [E|[E|[E|[E|[E|[E|[E|[E|[E|[E|[E|E]]]]]]]]]]]; rewrite E; clear E;
    destruct (month_cases _ Hmb) as
      [E|[E|[E|[E|[E|[E|[E|[E|[E|[E|[E|E]]]]]]]]]]]; rewrite E; clear E;
    destruct (_is_leap y); intros Hda Hdb;
    match goal with
    | |- _ = match ?a ?= ?b with _ => _ end =>
        destruct (Z.compare_spec a b) as [Hc|Hc|Hc]; try lia; clear Hc
    end;
    try destruct (Z.compare_spec da db);
    first [ apply Z.compare_eq_iff | apply Z.compare_lt_iff
          | apply Z.compare_gt_iff ];
    revert Hda Hdb; month_tables; lia.
Qed.

(** Valid dates are ordered as their ordinals. *)
Lemma toordinal_compare (a b : datetime) :
  valid a -> valid b ->
  (toordinal a ?= toordinal b) = date_compare a b.
Proof.
  intros Ha Hb. unfold toordinal, _ymd2ord, date_compare.
  pose proof (day_of_year_bounds a Ha) as Da.
  pose proof (day_of_year_bounds b Hb) as Db.
  destruct (Z.compare_spec (year a) (year b)) as [E|L|G].
  - destruct Ha as (_ & Hma & Hda), Hb as (_ & Hmb & Hdb).
    rewrite <- E in *.
    rewrite <- (day_of_year_compare (year a) (month a) (day a) (month b)
                  (day b) Hma Hmb Hda Hdb).
    rewrite <- !Z.add_assoc. apply Z.add_compare_mono_l.
  - apply Z.compare_lt_iff.
    pose proof (dby_succ (year a)) as Hs.
    pose proof (dby_mono (year a + 1) (year b)). lia.
  - apply Z.compare_gt_iff.
    pose proof (dby_succ (year b)) as Hs.
    pose proof (dby_mono (year b + 1) (year a)). lia.
Qed.

End OrdinalOrder.

(** ** The date window of the category report *)
Section DateWindow.
Import PyDatetime.
Local Open Scope Z_scope.

Lemma days_in_month_le_31 (y m : Z) :
  1 <= m <= 12 -> _days_in_month y m <= 31.
Proof.
  intros Hm. unfold _days_in_month.
  destruct ((m =? 2) && _is_leap y); [lia|].
  destruct (month_cases _ Hm) as
    [E|[E|[E|[E|[E|[E|[E|[E|[E|[E|[E|E]]]]]]]]]]];
    rewrite E; cbv [_DAYS_IN_MONTH]; lia.
Qed.

Lemma toordinal_range (t : datetime) :
  valid t -> 1 <= toordinal t <= _MAXORDINAL.
Proof.
  intros Ht. pose proof (day_of_year_bounds t Ht) as Hd.
  destruct Ht as ((Hlo & Hhi) & _). unfold MINYEAR, MAXYEAR in *.
  pose proof (dby_succ (year t)) as Hs.
  pose proof (dby_mono 1 (year t) Hlo) as H1.
  pose proof (dby_mono (year t + 1) 10000 ltac:(lia)) as H2.
  change (_days_before_year 1) with 0 in H1.
  change (_days_before_year 10000) with 3652059 in H2.
  unfold toordinal, _ymd2ord, _MAXORDINAL. lia.
Qed.

(** On valid dates the texts [%Y-%m-%d] are ordered as the days are. *)
Lemma strftime_Ymd_leb (a b : datetime) :
  valid a -> valid b ->
  String.leb (strftime_Ymd a) (strftime_Ymd b) = (toordinal a <=? toordinal b).
Proof.
  intros Ha Hb. unfold String.leb, Z.leb.
  rewrite (toordinal_compare a b Ha Hb).
  rewrite strftime_Ymd_compare; [reflexivity| | | | | |];
    destruct Ha as ((? & ?) & (? & ?) & (? & Hda)),
             Hb as ((? & ?) & (? & ?) & (? & Hdb));
    pose proof (days_in_month_le_31 (year a) (month a) ltac:(lia));
    pose proof (days_in_month_le_31 (year b) (month b) ltac:(lia));
    unfold MINYEAR, MAXYEAR in *; lia.
Qed.

(** What [today - timedelta(days)] is when it stays in range. *)
Lemma sub_days_valid (today : datetime) (days : Z) :
  valid today -> 0 <= days < toordinal today ->
  exists start,
    sub_days today days = Some start /\ valid start
    /\ toordinal start = toordinal today - days.
Proof.
  intros Ht Hd. pose proof (toordinal_range today Ht) as Hr.
  assert (Hn : 1 <= toordinal today - days <= _MAXORDINAL) by lia.
  rewrite (sub_days_in_range today days Hn).
  destruct (ord2ymd_ymd2ord _ Hn) as [Hv Ho].
  destruct (_ord2ymd (toordinal today - days)) as [[y m] d].
  cbn [fst snd] in Hv, Ho.
  exists (mkdate y m d). split; [reflexivity|]. split; [exact Hv|exact Ho].
Qed.

Lemma rows_since_ordinal (start d : datetime) (u : Z)
  (es : list Expense.t) (e : Expense.t) :
  valid start -> valid d -> Expense.date e = strftime_Ymd d ->
  (In e (rows_since u (strftime_Ymd start) es)
   <-> In e es /\ Expense.user_id e = u /\ toordinal start <= toordinal d).
Proof.
  intros Hv Hvd He. unfold rows_since.
  rewrite filter_In, andb_true_iff, Z.eqb_eq, He,
    (strftime_Ymd_leb start d Hv Hvd), Z.leb_le.
  reflexivity.
Qed.

Lemma category_spending_categories (today start : datetime) (db : database)
  (u days : Z) :
  sub_days today days = Some start ->
  exists result,
    get_category_spending today db u days = Some result
    /\ forall c,
         (exists tot cnt, In (c, tot, cnt) result)
         <-> (exists e,
                In e (rows_since u (strftime_Ymd start) (expenses db))
                /\ Expense.category e = c).
Proof.
  intros Hs. unfold get_category_spending. rewrite Hs.
  eexists. split; [reflexivity|]. intros c.
  change Sqlite.text_eqb with String.eqb.
  change Sqlite.text_leb with String.leb.
  fold (rows_since u (strftime_Ymd start) (expenses db)).
  set (rows := rows_since u (strftime_Ymd start) (expenses db)).
  split.
  - intros (tot & cnt & Hin).
    apply order_by_In, in_map_iff in Hin as ([k g] & E & Hg).
    cbn [fst snd] in E. injection E as -> _ _.
    apply (group_In String.eqb String.leb Expense.category String.eqb_eq)
      in Hg as (_ & Hex).
    exact Hex.
  - intros Hex.
    exists (group_total (filter (fun r => String.eqb (Expense.category r) c)
                           rows)),
      (Sqlite.COUNT (filter (fun r => String.eqb (Expense.category r) c)
                       rows)).
    apply order_by_In, in_map_iff.
    exists (c, filter (fun r => String.eqb (Expense.category r) c) rows).
    split; [reflexivity|].
    apply (group_In String.eqb String.leb Expense.category String.eqb_eq).
    split; [reflexivity|exact Hex].
Qed.

(** X16: the window of [get_category_spending] is the calendar one.  For a
    valid [today] and a number of days that does not reach before year 1,
    the query returns rows, and an expense whose stored date is the text
    [%Y-%m-%d] of a valid day is among the expenses grouped exactly when
    it is the user's and that day is at most [days] days before [today];
    the date texts, compared as strings, decide this correctly.  So, when
    all of the user's dates are such texts, a category has a row in the
    result exactly when the user has an expense of it in those days. *)
Theorem category_spending_window (today : datetime) (db : database)
  (u days : Z) :
  valid today -> 0 <= days < toordinal today ->
  exists start result,
    sub_days today days = Some start
    /\ toordinal start = toordinal today - days
    /\ get_category_spending today db u days = Some result
    /\ (forall e d,
          valid d -> Expense.date e = strftime_Ymd d ->
          (In e (rows_since u (strftime_Ymd start) (expenses db))
           <-> In e (expenses db) /\ Expense.user_id e = u
               /\ toordinal today - toordinal d <= days))
    /\ ((forall e,
           In e (expenses db) -> Expense.user_id e = u ->
           exists d, valid d /\ Expense.date e = strftime_Ymd d) ->
        forall c,
          (exists tot cnt, In (c, tot, cnt) result)
          <-> (exists e d,
                 In e (expenses db) /\ Expense.user_id e = u
                 /\ Expense.category e = c
                 /\ valid d /\ Expense.date e = strftime_Ymd d
                 /\ toordinal today - toordinal d <= days)).
Proof.
  intros Ht Hd.
  destruct (sub_days_valid today days Ht Hd) as (start & Hs & Hv & Ho).
  destruct (category_spending_categories today start db u days Hs)
    as (result & Hres & Hcat).
  assert (Hrows : forall e d,
            valid d -> Expense.date e = strftime_Ymd d ->
            (In e (rows_since u (strftime_Ymd start) (expenses db))
             <-> In e (expenses db) /\ Expense.user_id e = u
                 /\ toordinal today - toordinal d <= days)).
  { intros e d Hvd He.
    rewrite (rows_since_ordinal start d u (expenses db) e Hv Hvd He), Ho.
    split; (intros (H1 & H2 & H3); split; [exact H1|split; [exact H2|lia]]). }
  exists start, result.
  split; [exact Hs|]. split; [exact Ho|]. split; [exact Hres|].
  split; [exact Hrows|].
  intros Hall c. rewrite (Hcat c). split.
  - intros (e & He & Hc).
    assert (Hin : In e (expenses db) /\ Expense.user_id e = u).
    { unfold rows_since in He. apply filter_In in He as (H1 & H2).
      apply andb_true_iff in H2 as (H2 & _). apply Z.eqb_eq in H2.
      split; assumption. }
    destruct Hin as (H1 & H2).
    destruct (Hall e H1 H2) as (d & Hvd & Hdate).
    exists e, d. apply (Hrows e d Hvd Hdate) in He as (_ & _ & H3).
    exact (conj H1 (conj H2 (conj Hc (conj Hvd (conj Hdate H3))))).
  - intros (e & d & H1 & H2 & Hc & Hvd & Hdate & H3).
    exists e. split; [|exact Hc].
    apply (Hrows e d Hvd Hdate). exact (conj H1 (conj H2 H3)).
Qed.

(** X20: the period "This year" of the category report is the 365 days
    before today, not the calendar year: on every day from year 2 on that
    is not 31 December of a leap year, the report has a row for the
    category of each expense of the user dated 31 December of the year
    before. *)
Theorem this_year_is_trailing_365_days (today : datetime) (db : database)
  (u : Z) (e : Expense.t) :
  valid today -> 2 <= year today ->
  (month today, day today) <> (12, 31) \/ _is_leap (year today) = false ->
  In e (expenses db) -> Expense.user_id e = u ->
  Expense.date e = strftime_Ymd (mkdate (year today - 1) 12 31) ->
  exists result tot cnt,
    category_analysis today db u "This year" = Some result
    /\ In (Expense.category e, tot, cnt) result.
Proof.
  intros Ht Hy Hnot He Hu Hdate.
  set (d := mkdate (year today - 1) 12 31).
  assert (Hvd : valid d).
  { destruct Ht as ((_ & Hhi) & _). unfold MINYEAR, MAXYEAR in *.
    unfold valid, d, MINYEAR, MAXYEAR, _days_in_month. cbn [year month day].
    change (12 =? 2) with false. cbn [andb].
    change (_DAYS_IN_MONTH 12) with 31.
    lia. }
  assert (Hord : toordinal d = _days_before_year (year today)).
  { unfold toordinal, _ymd2ord, d, _days_before_month. cbn [year month day].
    pose proof (dby_succ (year today - 1)) as Hs.
    replace (year today - 1 + 1) with (year today) in Hs by ring.
    change (2 <? 12) with true. cbn [andb].
    change (_DAYS_BEFORE_MONTH 12) with 334. lia. }
  assert (Hdoy : _days_before_month (year today) (month today) + day today
                 <= 365).
  { pose proof (day_of_year_bounds today Ht) as Hb.
    destruct (_is_leap (year today)) eqn:El; [|lia].
    destruct Hnot as [Hnot|Hnot]; [|discriminate].
    destruct Ht as (_ & Hm & Hdm). revert Hdm Hb.
    unfold _days_before_month, _days_in_month. rewrite El.
    destruct (Z.eq_dec (month today) 12) as [E12|N12].
    - rewrite E12 in *. month_tables. intros Hdm _.
      assert (day today <> 31) by congruence. lia.
    - destruct (month_cases _ Hm) as
        [E|[E|[E|[E|[E|[E|[E|[E|[E|[E|[E|E]]]]]]]]]]];
        rewrite E; month_tables; lia. }
  assert (Hdays : 0 <= 365 < toordinal today).
  { pose proof (day_of_year_bounds today Ht) as Hb.
    pose proof (dby_mono 2 (year today) Hy) as Hm.
    change (_days_before_year 2) with 365 in Hm.
    unfold toordinal, _ymd2ord. lia. }
  destruct (sub_days_valid today 365 Ht Hdays) as (start & Hs & Hv & Ho).
  destruct (category_spending_categories today start db u 365 Hs)
    as (result & Hres & Hcat).
  destruct (proj2 (Hcat (Expense.category e))) as (tot & cnt & Hin).
  { exists e. split; [|reflexivity].
    apply (rows_since_ordinal start d u (expenses db) e Hv Hvd Hdate).
    split; [exact He|]. split; [exact Hu|].
    rewrite Ho, Hord. unfold toordinal, _ymd2ord. lia. }
  exists result, tot, cnt. split; [exact Hres|exact Hin].
Qed.

End DateWindow.

(** ** The metrics of the dashboard *)
Section Dashboard.
Local Open Scope list_scope.
Local Open Scope Z_scope.

Lemma total_nonneg (l : list Q) :
  Forall (fun a => (0 < a)%Q) l -> (0 <= total l)%Q.
Proof.
  induction 1 as [|a l Ha _ IH]; [discriminate|].
  rewrite total_cons. apply Qlt_le_weak in Ha.
  rewrite <- (Qplus_0_l 0). now apply Qplus_le_compat.
Qed.

Lemma total_positive (l : list Q) :
  Forall (fun a => (0 < a)%Q) l -> l <> [] -> (0 < total l)%Q.
Proof.
  intros H Hne. destruct H as [|a l Ha Hl]; [congruence|].
  rewrite total_cons. pose proof (total_nonneg l Hl) as H0.
  rewrite <- (Qplus_0_l 0). now apply Qplus_lt_le_compat.
Qed.

Lemma amounts_of_rows_positive (db : database) (u : Z) (key : string) :
  amounts_positive db ->
  Forall (fun a => (0 < a)%Q)
    (map Expense.amount (rows_with_prefix u key (expenses db))).
Proof.
  intros H. apply Forall_forall. intros a Ha.
  apply in_map_iff in Ha as (e & <- & He).
  apply filter_In in He as [He _].
  exact (proj1 (Forall_forall _ _) H e He).
Qed.

(** X17: the four metrics of the dashboard, for a valid current date after
    January of year 1 and stored amounts that are positive.  The
    transaction count and the two totals are those of the user's expenses
    of the current and of the preceding month; the delta is hidden exactly
    when the user has no expense in the preceding month, and is otherwise
    this month's total minus last month's; the average times the count is
    this month's total, and the average is positive as soon as there is an
    expense this month (0 when there is none: no division by zero). *)
Theorem dashboard_metrics_consistent (today : PyDatetime.datetime)
  (db : database) (u : Z) :
  PyDatetime.valid today ->
  (PyDatetime.year today, PyDatetime.month today) <> (1, 1) ->
  amounts_positive db ->
  let m := dashboard_metrics today db u in
  let current :=
    rows_with_prefix u
      (PyDatetime.month_key (PyDatetime.year today)
         (PyDatetime.month today)) (expenses db) in
  let previous :=
    rows_with_prefix u
      (PyDatetime.month_key (fst (PyDatetime.preceding_month today))
         (snd (PyDatetime.preceding_month today))) (expenses db) in
  transactions m = Z.of_nat (List.length current)
  /\ (this_month m == total (map Expense.amount current))%Q
  /\ (last_month m == total (map Expense.amount previous))%Q
  /\ (delta m = None <-> previous = [])
  /\ (forall x, delta m = Some x -> x = (this_month m - last_month m)%Q)
  /\ (avg_transaction m * inject_Z (transactions m) == this_month m)%Q
  /\ (current = [] -> avg_transaction m = 0%Q)
  /\ (current <> [] -> (0 < avg_transaction m)%Q).
Proof.
  intros Hv Hne Hpos m current previous. subst m.
  unfold dashboard_metrics.
  rewrite (get_monthly_summary_value today db u Hv Hne).
  fold current. fold previous.
  cbn [transactions this_month last_month delta avg_transaction].
  pose proof (amounts_of_rows_positive db u
                (PyDatetime.month_key (PyDatetime.year today)
                   (PyDatetime.month today)) Hpos) as Hcur.
  pose proof (amounts_of_rows_positive db u
                (PyDatetime.month_key (fst (PyDatetime.preceding_month today))
                   (snd (PyDatetime.preceding_month today))) Hpos) as Hprev.
  fold current in Hcur. fold previous in Hprev.
  pose proof (or_zero_SUM (map Expense.amount current)) as Tc.
  pose proof (or_zero_SUM (map Expense.amount previous)) as Tp.
  set (tc := or_zero (Sqlite.SUM (map Expense.amount current))) in *.
  set (tp := or_zero (Sqlite.SUM (map Expense.amount previous))) in *.
  assert (Hd : Sqlite.real_ltb 0 tp = true <-> previous <> []).
  { unfold Sqlite.real_ltb. rewrite negb_true_iff. split.
    - intros H ->. unfold tp in H. cbn in H. discriminate.
    - intros Hn. destruct (Qle_bool tp 0) eqn:E; [exfalso|reflexivity].
      apply Qle_bool_iff in E. rewrite Tp in E.
      assert (map Expense.amount previous <> [])
        by (destruct previous; [congruence|discriminate]).
      pose proof (total_positive _ Hprev H) as Hlt.
      exact (Qlt_irrefl _ (Qlt_le_trans _ _ _ Hlt E)). }
  split; [reflexivity|]. split; [exact Tc|]. split; [exact Tp|].
  split; [|split; [|split; [|split]]].
  - destruct (Sqlite.real_ltb 0 tp) eqn:E.
    + split; [discriminate|]. intros Hp. exfalso.
      exact (proj1 Hd eq_refl Hp).
    + split; [intros _|reflexivity].
      destruct previous as [|e l]; [reflexivity|exfalso].
      assert (false = true) by (apply Hd; discriminate).
      discriminate.
  - intros x. destruct (Sqlite.real_ltb 0 tp); [|discriminate].
    intros H. now injection H as <-.
  - unfold Sqlite.COUNT.
    destruct (0 <? Z.of_nat (List.length current)) eqn:E.
    + apply Z.ltb_lt in E. rewrite Qmult_comm. apply Qmult_div_r.
      intros H0. apply (Qlt_irrefl 0). rewrite <- H0 at 2.
      rewrite <- (Zlt_Qlt 0 _). exact E.
    + apply Z.ltb_ge in E.
      destruct current as [|e l]; [|cbn [List.length] in E; lia].
      reflexivity.
  - intros ->. reflexivity.
  - intros Hc. unfold Sqlite.COUNT.
    assert (Hlen : 0 < Z.of_nat (List.length current))
      by (destruct current; [congruence|cbn [List.length]; lia]).
    apply Z.ltb_lt in Hlen as Hb. rewrite Hb.
    assert (map Expense.amount current <> [])
      by (destruct current; [congruence|discriminate]).
    pose proof (total_positive _ Hcur H) as Hlt. rewrite <- Tc in Hlt.
    apply Qlt_shift_div_l; [rewrite <- (Zlt_Qlt 0 _); exact Hlen|].
    rewrite Qmult_0_l. exact Hlt.
Qed.

End Dashboard.

(** ** The edit and delete form *)
Section EditFormProperties.
Local Open Scope list_scope.
Local Open Scope Z_scope.

Variable strptime_Ymd : string -> option PyDatetime.datetime.

Lemma find_by_id (eid : Z) (l : list Expense.t) :
  existsb (fun e => Expense.id e =? eid) l = true ->
  exists e, find (fun e => Expense.id e =? eid) l = Some e
            /\ In e l /\ Expense.id e = eid.
Proof.
  intros H. apply existsb_exists in H as (x & Hx & Hid).
  destruct (find (fun e => Expense.id e =? eid) l) as [e|] eqn:E.
  - exists e. apply find_some in E as [He Hi]. apply Z.eqb_eq in Hi. auto.
  - exfalso. pose proof (find_none _ _ E x Hx) as Hn. cbv beta in Hn.
    congruence.
Qed.

Lemma listed_row (db : database) (u : Z) (f : filters) (e : Expense.t) :
  In e (render_expense_list db u f) ->
  In e (expenses db) /\ Expense.user_id e = u.
Proof.
  intros H. split; [|exact (get_expenses_owner _ _ _ _ H)].
  unfold render_expense_list, get_expenses in H.
  destruct (build_query f); apply order_by_In, filter_In in H; tauto.
Qed.

Lemma update_expense_of_own_row (now : string) (db : database) (u eid : Z)
  (d : string) (a : Q) (c ds t p : string) (r : bool) (e : Expense.t) :
  In e (expenses db) -> Expense.id e = eid -> Expense.user_id e = u ->
  (0 < a)%Q ->
  update_expense now db u eid d a c ds t p r
  = (set_expenses db
       (map (fun x =>
               if targets eid u x then
                 Expense.mk (Expense.id x) (Expense.user_id x) d a c ds t p r
                   (Expense.created_at x) now
               else x) (expenses db))
       (seq_expenses db), true).
Proof.
  intros He Hid Hu Ha. unfold update_expense.
  rewrite (target_count_pos eid u (expenses db))
    by (exists e; auto).
  apply check_amount_true in Ha. rewrite Ha. reflexivity.
Qed.

Lemma delete_expense_of_own_row (db : database) (u eid : Z) (e : Expense.t) :
  In e (expenses db) -> Expense.id e = eid -> Expense.user_id e = u ->
  delete_expense db u eid
  = (set_expenses db
       (filter (fun x => negb (targets eid u x)) (expenses db))
       (seq_expenses db), true).
Proof.
  intros He Hid Hu. unfold delete_expense.
  rewrite (target_count_pos eid u (expenses db))
    by (exists e; auto).
  reflexivity.
Qed.

Lemma targets_other_id (eid u : Z) (x : Expense.t) :
  Expense.id x <> eid -> targets eid u x = false.
Proof.
  intros H. unfold targets. apply Z.eqb_neq in H. now rewrite H.
Qed.

(** X18: the edit and delete form of the expense list, for widget values
    in their ranges (an amount of at least 0.01).  Whenever the run does
    not raise: it never shows "Failed to update expense" or "Failed to
    delete expense"; it leaves the expenses of every other user and every
    expense with another id as they were; "Expense ID not found" and no
    message leave the database unchanged; after "updated" the id was one
    of the listed rows and the stored row has the new values, the old
    [created_at] and CURRENT_TIMESTAMP as [updated_at]; after "deleted" the
    id was listed and the user has no row with that id any more.  And when
    a non-zero id is listed and its widgets can be built, the run does not
    raise, and Update and Delete report success. *)
Theorem edit_section_outcomes (now : string) (db : database) (u : Z)
  (f : filters) (eid : Z) (act : edit_action) :
  in_widget_range act ->
  let df := render_expense_list db u f in
  (forall db' msg,
     edit_section strptime_Ymd now db u f eid act = Some (db', msg) ->
     msg <> UpdateFailed /\ msg <> DeleteFailed
     /\ (forall v, v <> u ->
           owned_by v (expenses db') = owned_by v (expenses db))
     /\ (forall x, In x (expenses db) -> Expense.id x <> eid ->
           In x (expenses db'))
     /\ (msg = IdNotFound \/ msg = NoEditMessage -> db' = db)
     /\ (msg = IdNotFound -> ~ In eid (map Expense.id df))
     /\ (msg = ExpenseUpdated ->
         exists d a c ds t p r e,
           act = PressUpdate d a c ds t p r
           /\ In e df /\ Expense.id e = eid
           /\ In (Expense.mk eid u (PyDatetime.strftime_Ymd d) a c ds t p r
                    (Expense.created_at e) now) (expenses db'))
     /\ (msg = ExpenseDeleted ->
         act = PressDelete /\ In eid (map Expense.id df)
         /\ forall x, In x (expenses db') ->
                      ~ (Expense.id x = eid /\ Expense.user_id x = u)))
  /\ (eid <> 0 -> In eid (map Expense.id df) ->
      (forall e, In e df -> Expense.id e = eid ->
                 prefill strptime_Ymd db e <> None) ->
      exists db',
        edit_section strptime_Ymd now db u f eid act
        = Some (db', match act with
                     | PressUpdate _ _ _ _ _ _ _ => ExpenseUpdated
                     | PressDelete => ExpenseDeleted
                     | PressNothing => NoEditMessage
                     end)).
Proof.
  intros Hrange df.
  assert (Hq : (0 < 1 # 100)%Q) by reflexivity.
  unfold edit_section. fold df.
  split.
  - intros db' msg.
    destruct df as [|e0 df0] eqn:Edf.
    { intros H. injection H as <- <-.
      repeat split; try discriminate; auto. }
    rewrite <- Edf.
    destruct (negb (eid =? 0)) eqn:E0; cbn [andb].
    2:{ intros H. injection H as <- <-.
        repeat split; try discriminate; auto. }
    destruct (existsb (fun e => Expense.id e =? eid) df) eqn:Ex.
    2:{ intros H. injection H as <- <-.
        repeat split; try discriminate; auto.
        intros _ Hin. apply in_map_iff in Hin as (x & Hid & Hx).
        assert (existsb (fun e => Expense.id e =? eid) df = true)
          by (apply existsb_exists; exists x; split;
              [exact Hx|now apply Z.eqb_eq]).
        congruence. }
    destruct (find_by_id eid df Ex) as (e & -> & He & Hid).
    assert (Hlisted : In eid (map Expense.id df))
      by (rewrite <- Hid; now apply in_map).
    destruct (listed_row db u f e He) as [Hin Hu].
    destruct (prefill strptime_Ymd db e) as [d0|]; [|discriminate].
    destruct act as [d a c ds t p r| |].
    + cbn [in_widget_range] in Hrange.
      rewrite (update_expense_of_own_row now db u eid
                 (PyDatetime.strftime_Ymd d) a c ds t p r e Hin Hid Hu
                 (Qlt_le_trans _ _ _ Hq Hrange)).
      intros H. injection H as <- <-. cbn [expenses set_expenses].
      split; [discriminate|]. split; [discriminate|].
      split.
      { intros v Hv. apply owned_by_update; [congruence|reflexivity]. }
      split.
      { intros x Hx Hne. apply in_map_iff. exists x.
        split; [|exact Hx]. now rewrite targets_other_id. }
      split; [intros [H|H]; discriminate|].
      split; [discriminate|].
      split; [|discriminate].
      intros _. exists d, a, c, ds, t, p, r, e.
      split; [reflexivity|]. split; [exact He|]. split; [exact Hid|].
      apply in_map_iff. exists e. split; [|exact Hin].
      unfold targets. now rewrite Hid, Hu, !Z.eqb_refl.
    + rewrite (delete_expense_of_own_row db u eid e Hin Hid Hu).
      intros H. injection H as <- <-. cbn [expenses set_expenses].
      split; [discriminate|]. split; [discriminate|].
      split.
      { intros v Hv. apply owned_by_delete. congruence. }
      split.
      { intros x Hx Hne. apply filter_In. split; [exact Hx|].
        now rewrite targets_other_id. }
      split; [intros [H|H]; discriminate|].
      split; [discriminate|].
      split; [discriminate|].
      intros _. split; [reflexivity|]. split; [exact Hlisted|].
      intros x Hx [Hxi Hxu]. apply filter_In in Hx as [_ Hx].
      unfold targets in Hx. now rewrite Hxi, Hxu, !Z.eqb_refl in Hx.
    + intros H. injection H as <- <-.
      repeat split; try discriminate; auto.
  - intros Hne Hlisted Hpre.
    destruct df as [|e0 df0] eqn:Edf; [destruct Hlisted|].
    rewrite <- Edf in *.
    apply Z.eqb_neq in Hne. rewrite Hne. cbn [negb andb].
    assert (Ex : existsb (fun e => Expense.id e =? eid) df = true).
    { apply in_map_iff in Hlisted as (x & Hid & Hx).
      apply existsb_exists. exists x. split; [exact Hx|now apply Z.eqb_eq]. }
    rewrite Ex.
    destruct (find_by_id eid df Ex) as (e & -> & He & Hid).
    destruct (listed_row db u f e He) as [Hin Hu].
    specialize (Hpre e He Hid).
    destruct (prefill strptime_Ymd db e) as [d0|]; [|congruence].
    destruct act as [d a c ds t p r| |].
    + cbn [in_widget_range] in Hrange.
      rewrite (update_expense_of_own_row now db u eid
                 (PyDatetime.strftime_Ymd d) a c ds t p r e Hin Hid Hu
                 (Qlt_le_trans _ _ _ Hq Hrange)).
      eexists. reflexivity.
    + rewrite (delete_expense_of_own_row db u eid e Hin Hid Hu).
      eexists. reflexivity.
    + eexists. reflexivity.
Qed.

End EditFormProperties.

(** ** The monthly trends report *)
Section MonthlyTrendsProperties.
Local Open Scope list_scope.
Local Open Scope Z_scope.

Variable start_of_month : string -> option string.
Variable months_ago : Z -> string.

Lemma null_eqb_eq (a b : option string) : null_eqb a b = true <-> a = b.
Proof.
  destruct a as [x|], b as [y|]; cbn [null_eqb]; unfold Sqlite.text_eqb;
    try rewrite String.eqb_eq; split; congruence.
Qed.

Lemma null_leb_total (a b : option string) :
  null_leb a b = false -> null_leb b a = true.
Proof.
  destruct a as [x|], b as [y|]; cbn [null_leb]; try congruence.
  apply text_leb_total.
Qed.

Lemma null_leb_trans (a b c : option string) :
  null_leb a b = true -> null_leb b c = true -> null_leb a c = true.
Proof.
  destruct a as [x|], b as [y|], c as [z|]; cbn [null_leb]; try congruence.
  apply text_leb_trans.
Qed.

(** X19: the "Monthly Trends" query returns one row per value of
    [DATE(date, 'start of month')] among the user's expenses dated on or
    after the start of the period (as texts compare): no month twice, none
    without an expense, NULL (a date SQLite cannot read) first and the
    months in ascending order after it; each row carries the total and
    the number of that month's expenses, and the counts add up to the
    number of expenses in the period. *)
Theorem monthly_trends_groups (db : database) (u months : Z) :
  let rows :=
    filter (fun e => (Expense.user_id e =? u)
                     && String.leb (months_ago months) (Expense.date e))
      (expenses db) in
  let month_of := fun e => start_of_month (Expense.date e) in
  let result := monthly_trends start_of_month months_ago db u months in
  StronglySorted (fun a b => null_leb a b = true)
    (map (fun g => fst (fst g)) result)
  /\ NoDup (map (fun g => fst (fst g)) result)
  /\ (forall k tot cnt,
        In (k, tot, cnt) result
        <-> (exists e, In e rows /\ month_of e = k)
            /\ tot = total (map Expense.amount
                       (filter (fun e => null_eqb (month_of e) k) rows))
            /\ cnt = Z.of_nat
                       (List.length
                          (filter (fun e => null_eqb (month_of e) k) rows)))
  /\ sumZ (map snd result) = Z.of_nat (List.length rows).
Proof.
  intros rows month_of result.
  set (h := fun g : option string * list Expense.t =>
              (fst g, group_total (snd g), Sqlite.COUNT (snd g))).
  assert (Hres : result
                 = map h (Sqlite.group_by null_eqb null_leb month_of rows))
    by reflexivity.
  assert (Hkeys : map (fun g => fst (fst g)) result
                  = Sqlite.order_by null_leb
                      (Sqlite.distinct null_eqb (map month_of rows))).
  { rewrite Hres, map_map. cbn [h fst].
    apply (group_keys null_eqb null_leb month_of). }
  assert (HD : NoDup (Sqlite.order_by null_leb
                        (Sqlite.distinct null_eqb (map month_of rows)))).
  { apply (Permutation_NoDup
             (l := Sqlite.distinct null_eqb (map month_of rows)));
      [symmetry; apply order_by_perm|apply distinct_NoDup].
    exact null_eqb_eq. }
  split; [|split; [|split]].
  - rewrite Hkeys.
    apply (order_by_strongly_sorted null_leb);
      [exact null_leb_total|exact null_leb_trans].
  - rewrite Hkeys. exact HD.
  - intros k tot cnt. rewrite Hres, in_map_iff. split.
    + intros ([k' g] & E & Hg). unfold h in E. cbn [fst snd] in E.
      injection E as -> <- <-.
      apply (group_In null_eqb null_leb month_of null_eqb_eq)
        in Hg as [-> Hex].
      split; [exact Hex|]. split; reflexivity.
    + intros (Hex & -> & ->).
      exists (k, filter (fun e => null_eqb (month_of e) k) rows).
      split; [reflexivity|].
      apply (group_In null_eqb null_leb month_of null_eqb_eq).
      split; [reflexivity|exact Hex].
  - rewrite Hres. unfold Sqlite.group_by. rewrite !map_map. cbn [h snd].
    apply (count_by_key null_eqb month_of null_eqb_eq rows _ HD).
    intros r Hr. apply order_by_In.
    apply (distinct_In null_eqb null_eqb_eq). now apply in_map.
Qed.

End MonthlyTrendsProperties.

Section Instances.
Local Open Scope list_scope.
Local Open Scope Z_scope.

Lemma seeded_expense_keys_ok : expense_keys_ok sample_database.
Proof.
  unfold expense_keys_ok. split; [|split].
  - vm_compute. repeat constructor. intros [].
  - vm_compute. discriminate.
  - vm_compute. repeat constructor; discriminate.
Defined.

Lemma seeded_users_ok : users_ok seeded_database.
Proof.
  unfold users_ok. vm_compute. repeat split; try constructor; discriminate.
Defined.


Lemma update_expense_one_row_witness :
  snd (update_expense "2024-03-18 09:00:00" sample_database 1 1 "2024-03-14"
         (90 # 2) "Food" "dinner" "" "Cash" false) = true.
Proof.
  refine (proj1 (update_expense_one_row "2024-03-18 09:00:00"
                   sample_database 1 1 "2024-03-14" (90 # 2) "Food" "dinner"
                   "" "Cash" false
                   (Expense.mk 1 1 "2024-03-15" (85 # 2) "Food" "" "" "Cash"
                      false "2024-03-15 12:00:00" "2024-03-15 12:00:00")
                   seeded_expense_keys_ok _ _ _ _)).
  - vm_compute. left. reflexivity.
  - reflexivity.
  - reflexivity.
  - reflexivity.
Defined.

Lemma register_then_login_witness :
  login_form (fun p => ("sha256:" ++ p)%string)
    (fst (register_form (fun p => ("sha256:" ++ p)%string)
            "2024-03-01 10:00:00" seeded_database "alice" "secret" "secret"))
    (mkSession None None) "alice" "secret"
  = (mkSession (Some "alice"%string) (Some 1), LoginSuccessful).
Proof.
  refine (proj1 (proj2 (proj2 (proj2
            (register_then_login (fun p => ("sha256:" ++ p)%string)
               "2024-03-01 10:00:00" seeded_database (mkSession None None)
               "alice" "secret" seeded_users_ok _ _ _))))).
  - reflexivity.
  - reflexivity.
  - intros r Hr. vm_compute in Hr. destruct Hr.
Defined.

Lemma two_account_users_ok : users_ok two_account_database.
Proof.
  unfold users_ok. vm_compute.
  split; [|split; [|split]].
  - constructor; [intros [H|[]]; discriminate|].
    constructor; [intros []|constructor].
  - constructor; [intros [H|[]]; discriminate|].
    constructor; [intros []|constructor].
  - discriminate.
  - repeat constructor; discriminate.
Defined.

Lemma login_form_sound_witness :
  snd (login_form sample_hash two_account_database (mkSession None None)
         "bob" "hunter2") = LoginSuccessful.
Proof.
  refine (proj2 (proj2 (proj2
            (login_form_sound sample_hash two_account_database
               (mkSession None None) "bob" "hunter2"
               two_account_users_ok))) _ _ _).
  - exists (User.mk 2 "bob" "sha256:hunter2" "2024-03-01 10:05:00").
    split; [vm_compute; right; left; reflexivity|].
    split; reflexivity.
  - discriminate.
  - discriminate.
Defined.

Lemma category_spending_groups_witness :
  exists start,
    PyDatetime.sub_days (PyDatetime.mkdate 2024 3 20) 30 = Some start
    /\ NoDup (map (fun g : string * Q * Z => fst (fst g))
                [("Food"%string, 85 # 2, 1)]).
Proof.
  destruct (category_spending_groups (PyDatetime.mkdate 2024 3 20)
              two_user_database 1 30 [("Food"%string, 85 # 2, 1)])
    as (start & Hs & Hnd & _).
  - vm_compute. reflexivity.
  - exists start. split; [exact Hs|exact Hnd].
Defined.

Lemma category_spending_conserves_witness :
  exists start,
    PyDatetime.sub_days (PyDatetime.mkdate 2024 3 20) 30 = Some start
    /\ sumZ (map snd [("Food"%string, 85 # 2, 1)])
       = Z.of_nat
           (List.length
              (rows_since 1 (PyDatetime.strftime_Ymd start)
                 (expenses two_user_database))).
Proof.
  destruct (category_spending_conserves (PyDatetime.mkdate 2024 3 20)
              two_user_database 1 30 [("Food"%string, 85 # 2, 1)])
    as (start & Hs & Hcount & _).
  - vm_compute. reflexivity.
  - exists start. split; [exact Hs|exact Hcount].
Defined.

Lemma form_add_in_monthly_summary_witness :
  snd (render_add_expense "2024-03-18 09:00:00" sample_database 1
         (PyDatetime.mkdate 2024 3 18) (30 # 1) "Food" "Cash" "lunch" ""
         false) = ExpenseAdded.
Proof.
  refine (proj1 (form_add_in_monthly_summary "2024-03-18 09:00:00"
                   sample_database 1 (PyDatetime.mkdate 2024 3 18) (30 # 1)
                   "Food" "Cash" "lunch" "" false
                   (PyDatetime.mkdate 2024 3 20) _ _ _ _)).
  - repeat split; vm_compute; discriminate.
  - vm_compute; discriminate.
  - repeat split; vm_compute; discriminate.
  - reflexivity.
Defined.

Lemma add_expense_in_budget_performance_witness :
  get_budget_performance (PyDatetime.mkdate 2024 3 20)
    (fst (add_expense "2024-03-18 09:00:00" sample_database 1 "2024-03-18"
            (30 # 1) "Pets" "" "" "Cash" false)) 2
  = get_budget_performance (PyDatetime.mkdate 2024 3 20) sample_database 2.
Proof.
  refine (proj1 (proj2 (proj2
            (add_expense_in_budget_performance "2024-03-18 09:00:00"
               sample_database 1 "2024-03-18" (30 # 1) "Pets" "" "" "Cash"
               false (PyDatetime.mkdate 2024 3 20) _))) 2 _).
  - reflexivity.
  - discriminate.
Defined.

Lemma category_spending_window_witness :
  exists start,
    PyDatetime.sub_days (PyDatetime.mkdate 2024 3 20) 30 = Some start
    /\ PyDatetime.toordinal start
       = PyDatetime.toordinal (PyDatetime.mkdate 2024 3 20) - 30.
Proof.
  destruct (category_spending_window (PyDatetime.mkdate 2024 3 20)
              two_user_database 1 30)
    as (start & result & Hs & Ho & _).
  - repeat split; vm_compute; discriminate.
  - split; vm_compute; [discriminate|reflexivity].
  - exists start. split; [exact Hs|exact Ho].
Defined.

Lemma dashboard_metrics_consistent_witness :
  transactions
    (dashboard_metrics (PyDatetime.mkdate 2024 3 20) sample_database 1)
  = Z.of_nat
      (List.length
         (rows_with_prefix 1 (PyDatetime.month_key 2024 3)
            (expenses sample_database))).
Proof.
  refine (proj1 (dashboard_metrics_consistent (PyDatetime.mkdate 2024 3 20)
                   sample_database 1 _ _ _)).
  - repeat split; vm_compute; discriminate.
  - discriminate.
  - unfold amounts_positive. vm_compute. repeat constructor.
Defined.

Lemma edit_section_outcomes_witness :
  exists db',
    edit_section (fun _ => Some (PyDatetime.mkdate 2024 3 15))
      "2024-03-21 10:00:00" sample_database 1
      (mkFilters false "All" "All" None None 0 0) 1 PressDelete
    = Some (db', ExpenseDeleted).
Proof.
  refine (proj2 (edit_section_outcomes
                   (fun _ => Some (PyDatetime.mkdate 2024 3 15))
                   "2024-03-21 10:00:00" sample_database 1
                   (mkFilters false "All" "All" None None 0 0) 1
                   PressDelete I) _ _ _).
  - discriminate.
  - vm_compute. left. reflexivity.
  - intros e He _. vm_compute in He. destruct He as [<-|[]].
    vm_compute. discriminate.
Defined.

Lemma this_year_is_trailing_365_days_witness :
  exists result tot cnt,
    category_analysis (PyDatetime.mkdate 2025 3 10)
      (fst (add_expense "2024-12-31 20:00:00" sample_database 1 "2024-12-31"
              (12 # 1) "Entertainment" "" "" "Cash" false)) 1 "This year"
    = Some result
    /\ In ("Entertainment"%string, tot, cnt) result.
Proof.
  refine (this_year_is_trailing_365_days (PyDatetime.mkdate 2025 3 10)
            (fst (add_expense "2024-12-31 20:00:00" sample_database 1
                    "2024-12-31" (12 # 1) "Entertainment" "" "" "Cash"
                    false)) 1
            (Expense.mk 2 1 "2024-12-31" (12 # 1) "Entertainment" "" ""
               "Cash" false "2024-12-31 20:00:00" "2024-12-31 20:00:00")
            _ _ _ _ _ _).
  - repeat split; vm_compute; discriminate.
  - vm_compute. discriminate.
  - left. discriminate.
  - vm_compute. right. left. reflexivity.
  - reflexivity.
  - vm_compute. reflexivity.
Defined.

End Instances.
